(** * gollama / lmstudio: Modelfile export to LM Studio configuration

    A shallow embedding of [lmstudio/export.go]: the Modelfile directive
    parser ([ParseOllamaModelfile]), the Go-template to Jinja translator
    ([convertGoTemplateToJinja]) and the two format mappers
    ([ConvertToLMStudioFormat], [ConvertToLMStudioPreset]), together with the
    fragments of Go's [strings], [regexp] and [strconv] packages they call.

    Go strings are byte sequences; they are embedded as [string] (a sequence
    of [ascii], i.e. of 8-bit bytes). *)

From Stdlib Require Import ZArith Ascii String List Bool Lia.
From Stdlib Require Import Floats.SpecFloat.
From stdpp Require Import gmap strings list fin_maps.

(** String concatenation unfolds on a constructor, as list concatenation
    does. *)
Arguments String.append !_ _ / : simpl nomatch.

(* ===================================================================== *)
(** * Part I: definitions                                                  *)
(* ===================================================================== *)

(** ** Byte-string helpers *)

(** The double-quote byte (code 34) and the two delimiters of the Modelfile
    syntax built from it. *)
Definition dquote : string := String "034" "".
Definition tquote : string := String "034" (String "034" (String "034" "")).
Definition newline : string := String "010" "".

Fixpoint drop_str (n : nat) (s : string) : string :=
  match n, s with
  | S n', String _ s' => drop_str n' s'
  | _, _ => s
  end.

Fixpoint take_str (n : nat) (s : string) : string :=
  match n, s with
  | S n', String c s' => String c (take_str n' s')
  | _, _ => ""
  end.

Definition is_empty (s : string) : bool :=
  match s with "" => true | _ => false end.

Fixpoint mem_byte (c : ascii) (set : string) : bool :=
  match set with
  | "" => false
  | String a set' => Ascii.eqb c a || mem_byte c set'
  end.

(** ** The fragment of Go's [strings] package used by the exporter *)

Module Strings.

(** [strings.HasPrefix(s, prefix)]. *)
Fixpoint HasPrefix (s prefix : string) {struct prefix} : bool :=
  match prefix, s with
  | "", _ => true
  | String a p', String b s' => Ascii.eqb a b && HasPrefix s' p'
  | String _ _, "" => false
  end.

(** [strings.HasSuffix(s, suffix)]: the last [len(suffix)] bytes of [s]
    are [suffix]. *)
Definition HasSuffix (s suffix : string) : bool :=
  (String.length suffix <=? String.length s) &&
  String.eqb (drop_str (String.length s - String.length suffix) s) suffix.

(** [strings.TrimPrefix(s, prefix)]: [s] without the leading [prefix], or
    [s] itself when it does not start with it. *)
Definition TrimPrefix (s prefix : string) : string :=
  if HasPrefix s prefix then drop_str (String.length prefix) s else s.

(** [strings.TrimSuffix(s, suffix)]. *)
Definition TrimSuffix (s suffix : string) : string :=
  if HasSuffix s suffix
  then take_str (String.length s - String.length suffix) s
  else s.

(** [strings.Contains(s, substr)]: [substr] starts at some offset of [s]. *)
Fixpoint Contains (s substr : string) : bool :=
  HasPrefix s substr ||
  match s with
  | "" => false
  | String _ s' => Contains s' substr
  end.

(** [strings.TrimSpace].  Go trims Unicode white space: the ASCII bytes
    TAB, LF, VT, FF, CR and SPACE (table [asciiSpace]) and, through
    [unicode.IsSpace] on the UTF-8 decoding, U+0085, U+00A0, U+1680,
    U+2000..U+200A, U+2028, U+2029, U+202F, U+205F and U+3000.  Every one
    of the latter has a single well-formed encoding of two or three bytes,
    so trimming is the removal of these byte sequences, first at the left
    end and then at the right end. *)
Definition asciiSpace (c : ascii) : bool :=
  mem_byte c (String "009" (String "010" (String "011"
             (String "012" (String "013" (String " " "")))))).

(** U+0085 = C2 85, U+00A0 = C2 A0. *)
Definition space2 (b1 b2 : ascii) : bool :=
  Ascii.eqb b1 "194" && (Ascii.eqb b2 "133" || Ascii.eqb b2 "160").

(** U+1680 = E1 9A 80; U+2000..U+200A = E2 80 80..8A; U+2028 = E2 80 A8;
    U+2029 = E2 80 A9; U+202F = E2 80 AF; U+205F = E2 81 9F;
    U+3000 = E3 80 80. *)
Definition space3 (b1 b2 b3 : ascii) : bool :=
  (Ascii.eqb b1 "225" && Ascii.eqb b2 "154" && Ascii.eqb b3 "128")
  || (Ascii.eqb b1 "226" && Ascii.eqb b2 "128" &&
      ((128 <=? nat_of_ascii b3) && (nat_of_ascii b3 <=? 138)
       || Ascii.eqb b3 "168" || Ascii.eqb b3 "169" || Ascii.eqb b3 "175"))
  || (Ascii.eqb b1 "226" && Ascii.eqb b2 "129" && Ascii.eqb b3 "159")
  || (Ascii.eqb b1 "227" && Ascii.eqb b2 "128" && Ascii.eqb b3 "128").

(** Removal of leading white space.  With [back = true] the string is read
    from its last byte (it has been reversed), so a multi-byte code point
    presents its bytes in the opposite order. *)
Fixpoint trimSpaceFrom (back : bool) (s : string) : string :=
  match s with
  | "" => ""
  | String c1 s1 =>
      if asciiSpace c1 then trimSpaceFrom back s1 else
      match s1 with
      | "" => s
      | String c2 s2 =>
          if (if back then space2 c2 c1 else space2 c1 c2)
          then trimSpaceFrom back s2 else
          match s2 with
          | "" => s
          | String c3 s3 =>
              if (if back then space3 c3 c2 c1 else space3 c1 c2 c3)
              then trimSpaceFrom back s3 else s
          end
      end
  end.

Definition TrimSpace (s : string) : string :=
  String.rev (trimSpaceFrom true (String.rev (trimSpaceFrom false s))).

(** [strings.Trim(s, cutset)] for a cutset of ASCII bytes: all leading and
    trailing bytes that belong to [cutset] are removed. *)
Fixpoint TrimLeft (s cutset : string) : string :=
  match s with
  | "" => ""
  | String c s' => if mem_byte c cutset then TrimLeft s' cutset else s
  end.

Fixpoint TrimRight (s cutset : string) : string :=
  match s with
  | "" => ""
  | String c s' =>
      let t := TrimRight s' cutset in
      if is_empty t && mem_byte c cutset then "" else String c t
  end.

Definition Trim (s cutset : string) : string :=
  TrimRight (TrimLeft s cutset) cutset.

(** [cut s sep]: the text before the first byte [sep] and, when [sep]
    occurs, the text after it (Go's [strings.Cut] for a one-byte
    separator). *)
Fixpoint cut (s : string) (sep : ascii) : string * option string :=
  match s with
  | "" => ("", None)
  | String c s' =>
      if Ascii.eqb c sep then ("", Some s')
      else let '(before, after) := cut s' sep in (String c before, after)
  end.

(** [strings.Split(s, sep)] for a one-byte separator: the pieces between
    the occurrences of [sep]; never empty ([Split("", sep)] is [[""]]). *)
Fixpoint Split (s : string) (sep : ascii) : list string :=
  match s with
  | "" => [""]
  | String c s' =>
      if Ascii.eqb c sep then "" :: Split s' sep
      else match Split s' sep with
           | piece :: rest => String c piece :: rest
           | [] => [String c ""]
           end
  end.

(** [strings.SplitN(s, sep, n)] for a one-byte separator and [n >= 0]: at
    most [n] pieces, the last one being the unsplit remainder. *)
Fixpoint SplitN (s : string) (sep : ascii) (n : nat) : list string :=
  match n with
  | 0 => []
  | 1 => [s]
  | S n' =>
      match cut s sep with
      | (before, Some after) => before :: SplitN after sep n'
      | (_, None) => [s]
      end
  end.

(** [strings.Join(elems, sep)]. *)
Fixpoint Join (elems : list string) (sep : string) : string :=
  match elems with
  | [] => ""
  | [e] => e
  | e :: rest => e +:+ sep +:+ Join rest sep
  end.

(** [strings.ReplaceAll(s, old, new)] for a one-byte [old]. *)
Fixpoint ReplaceAll (s : string) (old : ascii) (new : string) : string :=
  match s with
  | "" => ""
  | String c s' =>
      (if Ascii.eqb c old then new else String c "") +:+ ReplaceAll s' old new
  end.

End Strings.


(** ** The fragment of Go's [regexp] package used by the translator *)

Module Regexp.

(** The six expressions compiled by [convertGoTemplateToJinja] are
    concatenations of literal bytes and of the white-space runs [\s*] and
    [\s+]; this is the syntax tree of such an expression. *)
Inductive item : Type :=
| Lit (c : ascii)
| Spaces0
| Spaces1.

Definition regexp : Type := list item.

(** [regexp.MustCompile] on that fragment of the RE2 syntax: [\s*], [\s+],
    an escaped byte, or a byte standing for itself (an opening brace that
    starts no repetition count is a literal). *)
Fixpoint MustCompile (p : string) : regexp :=
  match p with
  | "" => []
  | String c p1 =>
      if Ascii.eqb c "\" then
        match p1 with
        | "" => [Lit c]
        | String e p2 =>
            if Ascii.eqb e "s" then
              match p2 with
              | "" => [Lit e]
              | String q p3 =>
                  if Ascii.eqb q "*" then Spaces0 :: MustCompile p3
                  else if Ascii.eqb q "+" then Spaces1 :: MustCompile p3
                  else Lit e :: MustCompile p2
              end
            else Lit e :: MustCompile p2
        end
      else Lit c :: MustCompile p1
  end.

(** The Perl class [\s] of RE2: TAB, LF, FF, CR and SPACE (no VT). *)
Definition is_space (c : ascii) : bool :=
  mem_byte c (String "009" (String "010" (String "012"
             (String "013" (String " " ""))))).

Fixpoint skip_spaces (s : string) : string :=
  match s with
  | "" => ""
  | String c s' => if is_space c then skip_spaces s' else s
  end.

(** [match_here re s]: the text that follows the match of [re] anchored at
    the start of [s], if there is one.  A white-space run is taken
    greedily; as each run of the compiled expressions is followed by a
    literal that is no white space, this is the only way to match. *)
Fixpoint match_here (re : regexp) (s : string) : option string :=
  match re with
  | [] => Some s
  | Lit c :: re' =>
      match s with
      | "" => None
      | String a s' => if Ascii.eqb a c then match_here re' s' else None
      end
  | Spaces0 :: re' => match_here re' (skip_spaces s)
  | Spaces1 :: re' =>
      match s with
      | "" => None
      | String a s' =>
          if is_space a then match_here re' (skip_spaces s') else None
      end
  end.

(** [re.ReplaceAllString(src, repl)] for an expression that matches no
    empty text and a replacement without [$]: scanning from the left, each
    leftmost match is replaced and the scan resumes after it.  The fuel
    bounds the number of scan steps; [String.length src] always suffices
    (lemma [replace_from_fuel]). *)
Fixpoint replace_from (fuel : nat) (re : regexp) (src repl : string) : string :=
  match fuel with
  | 0 => src
  | S fuel' =>
      match src with
      | "" => ""
      | String c src' =>
          match match_here re src with
          | Some rest => repl +:+ replace_from fuel' re rest repl
          | None => String c (replace_from fuel' re src' repl)
          end
      end
  end.

Definition ReplaceAllString (re : regexp) (src repl : string) : string :=
  replace_from (String.length src) re src repl.

End Regexp.


(** ** The template translator (export.go, [convertGoTemplateToJinja]) *)

Definition reIfSystem : Regexp.regexp := Regexp.MustCompile "{{\s*if\s+\.System\s*}}".
Definition reIfPrompt : Regexp.regexp := Regexp.MustCompile "{{\s*if\s+\.Prompt\s*}}".
Definition reEnd : Regexp.regexp := Regexp.MustCompile "{{\s*end\s*}}".
Definition reSystem : Regexp.regexp := Regexp.MustCompile "{{\s*\.System\s*}}".
Definition rePrompt : Regexp.regexp := Regexp.MustCompile "{{\s*\.Prompt\s*}}".
Definition reResponse : Regexp.regexp := Regexp.MustCompile "{{\s*\.Response\s*}}".

Definition convertGoTemplateToJinja (goTemplate : string) : string :=
  let result := goTemplate in
  let result := Regexp.ReplaceAllString reIfSystem result "{% if system_message %}" in
  let result := Regexp.ReplaceAllString reIfPrompt result "{% if user_message %}" in
  let result := Regexp.ReplaceAllString reEnd result "{% endif %}" in
  let result := Regexp.ReplaceAllString reSystem result "{{ system_message }}" in
  let result := Regexp.ReplaceAllString rePrompt result "{{ user_message }}" in
  let result := Regexp.ReplaceAllString reResponse result "{{ model_response }}" in
  result.

(** ** The fragment of Go's [strconv] package used by the mappers *)

Module Strconv.

Definition digit_of (c : ascii) : option Z :=
  let n := nat_of_ascii c in
  if (48 <=? n) && (n <=? 57) then Some (Z.of_nat n - 48)%Z else None.

(** The value of a non-empty run of decimal digits, [acc] being the value
    read so far; [None] on any other byte. *)
Fixpoint digits (acc : Z) (s : string) : option Z :=
  match s with
  | "" => Some acc
  | String c s' =>
      match digit_of c with
      | Some d => digits (acc * 10 + d)%Z s'
      | None => None
      end
  end.

(** Go's [int] on the 64-bit platforms the tool is built for. *)
Definition intSize : Z := 64.

(** [strconv.Atoi(s)]: an optional sign followed by at least one decimal
    digit, the value lying in the range of [int]; [None] stands for a
    non-nil error ([ErrSyntax] or [ErrRange]). *)
Definition Atoi (s : string) : option Z :=
  let '(neg, body) :=
    match s with
    | String c s' =>
        if Ascii.eqb c "-" then (true, s')
        else if Ascii.eqb c "+" then (false, s')
        else (false, s)
    | "" => (false, s)
    end in
  if is_empty body then None else
  match digits 0 body with
  | None => None
  | Some n =>
      let v := if neg then (- n)%Z else n in
      if ((- 2 ^ (intSize - 1) <=? v) && (v <=? 2 ^ (intSize - 1) - 1))%Z
      then Some v else None
  end.

End Strconv.

(** ** Data model (export.go, type declarations) *)

(** A Go value of type [[]string]: the nil slice, or a slice with its
    elements (possibly none).  [encoding/json] writes the former as [null]
    and the latter as an array. *)
Inductive StringSlice : Type :=
| NilSlice
| Slice (elems : list string).

Definition elems_of (s : StringSlice) : list string :=
  match s with
  | NilSlice => []
  | Slice l => l
  end.

(** The built-ins [len] and [append] on [[]string]. *)
Definition len (s : StringSlice) : nat := List.length (elems_of s).
Definition append (s : StringSlice) (v : string) : StringSlice :=
  Slice (elems_of s ++ [v]).

(** The part of a JSON document needed to tell how a [[]string] field is
    written by [json.Marshal]. *)
Inductive JSON : Type :=
| JNull
| JStringArray (items : list string).

Definition marshal_strings (s : StringSlice) : JSON :=
  match s with
  | NilSlice => JNull
  | Slice l => JStringArray l
  end.

(** Go's [error] interface; [None] of [option error] is the nil error. *)
Inductive error : Type :=
| Errorf (msg : string).

Record ContentConfig : Type := { cc_Type : string }.
Record MessagesConfig : Type := { mc_ContentConfig : ContentConfig }.
Record InputConfig : Type :=
  { ic_MessagesConfig : MessagesConfig;
    ic_UseTools : bool }.

Record JinjaTemplateDetails : Type :=
  { jd_Template : string;
    jd_BosToken : string;
    jd_EosToken : string;
    jd_InputConfig : InputConfig }.

Record JinjaPromptTemplate : Type :=
  { jpt_Type : string;
    jpt_JinjaPromptTemplate : JinjaTemplateDetails;
    jpt_StopStrings : StringSlice }.

Record ManualPromptTemplate : Type :=
  { BeforeSystem : string;
    AfterSystem : string;
    BeforeUser : string;
    AfterUser : string;
    BeforeAssistant : string;
    AfterAssistant : string }.

Record ManualPromptTemplateValue : Type :=
  { mpt_Type : string;
    mpt_StopStrings : StringSlice;
    mpt_ManualPromptTemplate : ManualPromptTemplate }.

(** The dynamic types stored in the [interface{}] field [Value] of a
    configuration field. *)
Inductive Value : Type :=
| VFloat (f : spec_float)
| VInt (n : Z)
| VString (s : string)
| VStrings (l : StringSlice)
| VJinja (t : JinjaPromptTemplate)
| VManual (t : ManualPromptTemplateValue).

Record ConfigField : Type := { cf_Key : string; cf_Value : Value }.
Record PredictionConfig : Type := { pc_Fields : list ConfigField }.
Record LoadModelConfig : Type := { lc_Fields : list ConfigField }.

Record LMStudioConfig : Type :=
  { PredictionConfig_ : PredictionConfig;
    LoadModelConfig_ : LoadModelConfig }.

Record PresetField : Type := { pf_Key : string; pf_Value : Value }.
Record PresetOperation : Type := { po_Fields : list PresetField }.
Record PresetLoad : Type := { pl_Fields : list PresetField }.

Record LMStudioPreset : Type :=
  { Identifier : string;
    Name : string;
    Changed : bool;
    Operation : PresetOperation;
    Load : PresetLoad }.

Record ParsedModelfile : Type :=
  { Template : string;
    System : string;
    Parameters : gmap string StringSlice }.

(** The index expression [m[key]] of a Go map: the zero value (the nil
    slice) when the key is absent. *)
Definition index (m : gmap string StringSlice) (key : string) : StringSlice :=
  default NilSlice (m !! key).

(** ** The directive parser (export.go, [ParseOllamaModelfile]) *)

(** The local variables of [ParseOllamaModelfile] that live across the
    iterations of its loop over the lines. *)
Record ParserState : Type :=
  { parsed : ParsedModelfile;
    templateLines : list string;
    systemLines : list string;
    inTemplate : bool;
    inMultilineTemplate : bool;
    inDoubleQuotedTemplate : bool;
    inSystem : bool;
    inMultilineSystem : bool;
    inDoubleQuotedSystem : bool }.

Definition set_Template (p : ParsedModelfile) (v : string) : ParsedModelfile :=
  {| Template := v; System := System p; Parameters := Parameters p |}.
Definition set_System (p : ParsedModelfile) (v : string) : ParsedModelfile :=
  {| Template := Template p; System := v; Parameters := Parameters p |}.
Definition set_Parameters (p : ParsedModelfile) (m : gmap string StringSlice)
  : ParsedModelfile :=
  {| Template := Template p; System := System p; Parameters := m |}.

Definition set_parsed (st : ParserState) (p : ParsedModelfile) : ParserState :=
  {| parsed := p;
     templateLines := templateLines st; systemLines := systemLines st;
     inTemplate := inTemplate st;
     inMultilineTemplate := inMultilineTemplate st;
     inDoubleQuotedTemplate := inDoubleQuotedTemplate st;
     inSystem := inSystem st;
     inMultilineSystem := inMultilineSystem st;
     inDoubleQuotedSystem := inDoubleQuotedSystem st |}.

(** Assignment to the four variables of the template capture. *)
Definition set_template_capture (st : ParserState) (lines : list string)
    (inT inMulti inDouble : bool) : ParserState :=
  {| parsed := parsed st;
     templateLines := lines; systemLines := systemLines st;
     inTemplate := inT;
     inMultilineTemplate := inMulti;
     inDoubleQuotedTemplate := inDouble;
     inSystem := inSystem st;
     inMultilineSystem := inMultilineSystem st;
     inDoubleQuotedSystem := inDoubleQuotedSystem st |}.

(** Assignment to the four variables of the system capture. *)
Definition set_system_capture (st : ParserState) (lines : list string)
    (inS inMulti inDouble : bool) : ParserState :=
  {| parsed := parsed st;
     templateLines := templateLines st; systemLines := lines;
     inTemplate := inTemplate st;
     inMultilineTemplate := inMultilineTemplate st;
     inDoubleQuotedTemplate := inDoubleQuotedTemplate st;
     inSystem := inS;
     inMultilineSystem := inMulti;
     inDoubleQuotedSystem := inDouble |}.

(** [if content != "" { lines = append(lines, content) }]. *)
Definition append_nonempty (lines : list string) (content : string) : list string :=
  if is_empty content then lines else lines ++ [content].

(** The body of the loop [for _, line := range lines]. *)
Definition parse_line (st : ParserState) (line : string) : ParserState :=
  let trimmed := Strings.TrimSpace line in
  if Strings.HasPrefix trimmed "TEMPLATE" && negb (inTemplate st) then
    if Strings.Contains trimmed tquote then
      (* triple-quoted multi-line template *)
      let templateContent := Strings.TrimPrefix trimmed "TEMPLATE " in
      let templateContent := Strings.TrimSpace templateContent in
      let templateContent :=
        if Strings.HasPrefix templateContent tquote
        then Strings.TrimPrefix templateContent tquote
        else templateContent in
      set_template_capture st
        (append_nonempty (templateLines st) templateContent)
        true true (inDoubleQuotedTemplate st)
    else if Strings.HasPrefix trimmed ("TEMPLATE " +:+ dquote) then
      let templateContent := Strings.TrimPrefix trimmed "TEMPLATE " in
      let templateContent := Strings.TrimSpace templateContent in
      let templateContent := Strings.TrimPrefix templateContent dquote in
      if Strings.HasSuffix templateContent dquote then
        (* single-line template *)
        set_parsed st
          (set_Template (parsed st) (Strings.TrimSuffix templateContent dquote))
      else
        (* multi-line double-quoted template *)
        set_template_capture st
          (append_nonempty (templateLines st) templateContent)
          true (inMultilineTemplate st) true
    else st
  else if inTemplate st then
    if inMultilineTemplate st && Strings.HasSuffix trimmed tquote then
      (* end of triple-quoted template *)
      let line := Strings.TrimSuffix line tquote in
      set_template_capture st (append_nonempty (templateLines st) line)
        false false (inDoubleQuotedTemplate st)
    else if inDoubleQuotedTemplate st && Strings.HasSuffix trimmed dquote then
      (* end of double-quoted template *)
      let line := Strings.TrimSuffix line dquote in
      set_template_capture st (append_nonempty (templateLines st) line)
        false (inMultilineTemplate st) false
    else
      (* continue collecting template lines *)
      set_template_capture st (templateLines st ++ [line])
        (inTemplate st) (inMultilineTemplate st) (inDoubleQuotedTemplate st)
  else if Strings.HasPrefix trimmed "SYSTEM" && negb (inSystem st) then
    if Strings.Contains trimmed tquote then
      (* triple-quoted multi-line system *)
      let systemContent := Strings.TrimPrefix trimmed "SYSTEM " in
      let systemContent := Strings.TrimSpace systemContent in
      let systemContent :=
        if Strings.HasPrefix systemContent tquote
        then Strings.TrimPrefix systemContent tquote
        else systemContent in
      set_system_capture st
        (append_nonempty (systemLines st) systemContent)
        true true (inDoubleQuotedSystem st)
    else if Strings.HasPrefix trimmed ("SYSTEM " +:+ dquote) then
      let systemContent := Strings.TrimPrefix trimmed "SYSTEM " in
      let systemContent := Strings.TrimSpace systemContent in
      let systemContent := Strings.TrimPrefix systemContent dquote in
      if Strings.HasSuffix systemContent dquote then
        (* single-line system *)
        set_parsed st
          (set_System (parsed st) (Strings.TrimSuffix systemContent dquote))
      else
        (* multi-line double-quoted system *)
        set_system_capture st
          (append_nonempty (systemLines st) systemContent)
          true (inMultilineSystem st) true
    else st
  else if inSystem st then
    if inMultilineSystem st && Strings.HasSuffix trimmed tquote then
      (* end of triple-quoted system *)
      let line := Strings.TrimSuffix line tquote in
      set_system_capture st (append_nonempty (systemLines st) line)
        false false (inDoubleQuotedSystem st)
    else if inDoubleQuotedSystem st && Strings.HasSuffix trimmed dquote then
      (* end of double-quoted system *)
      let line := Strings.TrimSuffix line dquote in
      set_system_capture st (append_nonempty (systemLines st) line)
        false (inMultilineSystem st) false
    else
      (* continue collecting system lines *)
      set_system_capture st (systemLines st ++ [line])
        (inSystem st) (inMultilineSystem st) (inDoubleQuotedSystem st)
  else if Strings.HasPrefix trimmed "PARAMETER " then
    let paramStr := Strings.TrimPrefix trimmed "PARAMETER " in
    match Strings.SplitN paramStr " " 2 with
    | [key; raw] =>
        let value := Strings.Trim raw dquote in
        let params := Parameters (parsed st) in
        set_parsed st
          (set_Parameters (parsed st)
             (<[key := append (index params key) value]> params))
    | _ => st
    end
  else st.

(** The state on entry to the loop. *)
Definition initial_state : ParserState :=
  {| parsed := {| Template := ""; System := ""; Parameters := ∅ |};
     templateLines := []; systemLines := [];
     inTemplate := false; inMultilineTemplate := false;
     inDoubleQuotedTemplate := false;
     inSystem := false; inMultilineSystem := false;
     inDoubleQuotedSystem := false |}.

(** The loop from a given state. *)
Definition parse_lines (st : ParserState) (lines : list string) : ParserState :=
  fold_left parse_line lines st.

(** The statements after the loop: the captured lines, if any, replace the
    template and the system text. *)
Definition finish (st : ParserState) : ParsedModelfile :=
  let p := parsed st in
  let p := if 0 <? List.length (templateLines st)
           then set_Template p (Strings.Join (templateLines st) newline) else p in
  let p := if 0 <? List.length (systemLines st)
           then set_System p (Strings.Join (systemLines st) newline) else p in
  p.

Definition ParseOllamaModelfile (modelfileContent : string)
  : ParsedModelfile * option error :=
  if is_empty modelfileContent then (parsed initial_state, None) else
  let lines := Strings.Split modelfileContent "010" in
  (finish (parse_lines initial_state lines), None).

(** ** Token heuristics (export.go, [extractBOSToken], [extractEOSToken]) *)

(** [for _, token := range tokens { if test(token) { return token } };
    return ""]. *)
Fixpoint first_token (test : string -> bool) (tokens : list string) : string :=
  match tokens with
  | [] => ""
  | token :: rest => if test token then token else first_token test rest
  end.

Definition bosTokens : list string :=
  ["[gMASK]"; "<s>"; "<|begin_of_text|>"; "<|im_start|>"].

Definition eosTokens : list string :=
  ["<|endoftext|>"; "</s>"; "<|end_of_text|>"; "<|im_end|>"; "<|user|>"].

Definition extractBOSToken (template : string) : string :=
  first_token (fun token => Strings.HasPrefix template token) bosTokens.

Definition extractEOSToken (template : string) : string :=
  first_token (fun token => Strings.Contains template token) eosTokens.

(** ** The flat-document mapper (export.go, [ConvertToLMStudioFormat]) *)

Definition empty_config : LMStudioConfig :=
  {| PredictionConfig_ := {| pc_Fields := [] |};
     LoadModelConfig_ := {| lc_Fields := [] |} |}.

(** [config.PredictionConfig.Fields = append(config.PredictionConfig.Fields, f)]. *)
Definition add_prediction_field (config : LMStudioConfig) (f : ConfigField)
  : LMStudioConfig :=
  {| PredictionConfig_ :=
       {| pc_Fields := pc_Fields (PredictionConfig_ config) ++ [f] |};
     LoadModelConfig_ := LoadModelConfig_ config |}.

(** [config.LoadModelConfig.Fields = append(config.LoadModelConfig.Fields, f)]. *)
Definition add_load_field (config : LMStudioConfig) (f : ConfigField)
  : LMStudioConfig :=
  {| PredictionConfig_ := PredictionConfig_ config;
     LoadModelConfig_ :=
       {| lc_Fields := lc_Fields (LoadModelConfig_ config) ++ [f] |} |}.

Section FlatMapper.

(** [strconv.ParseFloat(s, 64)]: the float when the error is nil.  The
    function belongs to Go's library; the mapper is embedded for any
    behaviour of it. *)
Variable ParseFloat : string -> option spec_float.

(** The template block: [if parsed.Template != "" { ... }]. *)
Definition map_template (config : LMStudioConfig) (parsed : ParsedModelfile)
  : LMStudioConfig :=
  if negb (is_empty (Template parsed)) then
    let bosToken := extractBOSToken (Template parsed) in
    let eosToken := extractEOSToken (Template parsed) in
    let stopStrings := index (Parameters parsed) "stop" in
    let jinjaTemplate := convertGoTemplateToJinja (Template parsed) in
    let templateValue :=
      {| jpt_Type := "jinja";
         jpt_JinjaPromptTemplate :=
           {| jd_Template := jinjaTemplate;
              jd_BosToken := bosToken;
              jd_EosToken := eosToken;
              jd_InputConfig :=
                {| ic_MessagesConfig :=
                     {| mc_ContentConfig := {| cc_Type := "string" |} |};
                   ic_UseTools := false |} |};
         jpt_StopStrings := stopStrings |} in
    add_prediction_field config
      {| cf_Key := "llm.prediction.promptTemplate";
         cf_Value := VJinja templateValue |}
  else config.

(** The body of [for paramKey, values := range parsed.Parameters]. *)
Definition map_parameter (config : LMStudioConfig)
    (paramKey : string) (values : StringSlice) : LMStudioConfig :=
  if String.eqb paramKey "stop" then config (* continue *) else
  match elems_of values with
  | [] => config
  | value :: _ =>
      if String.eqb paramKey "temperature" then
        match ParseFloat value with
        | Some temp =>
            add_prediction_field config
              {| cf_Key := "llm.prediction.temperature"; cf_Value := VFloat temp |}
        | None => config
        end
      else if String.eqb paramKey "top_p" then
        match ParseFloat value with
        | Some topP =>
            add_prediction_field config
              {| cf_Key := "llm.prediction.topP"; cf_Value := VFloat topP |}
        | None => config
        end
      else if String.eqb paramKey "top_k" then
        match Strconv.Atoi value with
        | Some topK =>
            add_prediction_field config
              {| cf_Key := "llm.prediction.topK"; cf_Value := VInt topK |}
        | None => config
        end
      else if String.eqb paramKey "repeat_penalty" then
        match ParseFloat value with
        | Some penalty =>
            add_prediction_field config
              {| cf_Key := "llm.prediction.repeatPenalty"; cf_Value := VFloat penalty |}
        | None => config
        end
      else if String.eqb paramKey "min_p" then
        match ParseFloat value with
        | Some minP =>
            add_prediction_field config
              {| cf_Key := "llm.prediction.minP"; cf_Value := VFloat minP |}
        | None => config
        end
      else if String.eqb paramKey "num_ctx" then
        match Strconv.Atoi value with
        | Some ctx =>
            add_load_field config
              {| cf_Key := "llm.load.contextLength"; cf_Value := VInt ctx |}
        | None => config
        end
      else config (* unsupported parameter: logged and skipped *)
  end.

(** Go leaves the order in which [range] visits a map unspecified.
    [ConvertToLMStudioFormat order parsed] is the run of the function in
    which the loop visits the entries in the order [order];
    [range_order] says that [order] is an enumeration of the map. *)
Definition ConvertToLMStudioFormat
    (order : list (string * StringSlice)) (parsed : ParsedModelfile)
  : LMStudioConfig * option error :=
  let config := empty_config in
  let config := map_template config parsed in
  let config :=
    fold_left (fun config kv => map_parameter config (fst kv) (snd kv))
              order config in
  (config, None).

End FlatMapper.

Definition range_order (m : gmap string StringSlice)
    (order : list (string * StringSlice)) : Prop :=
  order ≡ₚ map_to_list m.

(** ** The preset mapper (export.go, [ConvertToLMStudioPreset]) *)

Definition add_operation_field (preset : LMStudioPreset) (f : PresetField)
  : LMStudioPreset :=
  {| Identifier := Identifier preset;
     Name := Name preset;
     Changed := Changed preset;
     Operation := {| po_Fields := po_Fields (Operation preset) ++ [f] |};
     Load := Load preset |}.

Section PresetMapper.

(** [strings.ToLower], which maps every Unicode letter to lower case; the
    function belongs to Go's library and the mapper is embedded for any
    behaviour of it. *)
Variable ToLower : string -> string.

Definition ConvertToLMStudioPreset (parsed : ParsedModelfile) (modelName : string)
  : LMStudioPreset * option error :=
  let identifier :=
    "@local:" +:+ ToLower (Strings.ReplaceAll modelName " " "-") in
  let preset :=
    {| Identifier := identifier;
       Name := modelName;
       Changed := true;
       Operation := {| po_Fields := [] |};
       Load := {| pl_Fields := [] |} |} in
  if is_empty (Template parsed) then (preset, None) else
  let template := Template parsed in
  let bosToken := extractBOSToken template in
  let stopStrings := index (Parameters parsed) "stop" in
  let stopStrings :=
    match stopStrings with
    | NilSlice => Slice []
    | _ => stopStrings
    end in
  let beforeSystem :=
    if Strings.Contains template "<|system|>"
    then bosToken +:+ "<|system|>" +:+ newline else "" in
  let afterSystem := "" in
  let beforeUser :=
    if Strings.Contains template "<|user|>" then "<|user|>" +:+ newline else "" in
  let afterUser :=
    if Strings.Contains template "<|assistant|>"
    then "<|assistant|>" +:+ newline else "" in
  let hasThinkTags := Strings.Contains template "<think></think>" in
  let afterUser :=
    if hasThinkTags then afterUser +:+ "<think></think>" +:+ newline
    else afterUser in
  let templateValue :=
    {| mpt_Type := "manual";
       mpt_StopStrings := Slice [];
       mpt_ManualPromptTemplate :=
         {| BeforeSystem := beforeSystem;
            AfterSystem := afterSystem;
            BeforeUser := beforeUser;
            AfterUser := afterUser;
            BeforeAssistant := "";
            AfterAssistant := "" |} |} in
  let preset :=
    add_operation_field preset
      {| pf_Key := "llm.prediction.promptTemplate";
         pf_Value := VManual templateValue |} in
  let preset :=
    add_operation_field preset
      {| pf_Key := "llm.prediction.stopStrings";
         pf_Value := VStrings stopStrings |} in
  let preset :=
    if negb (is_empty (System parsed)) && negb hasThinkTags then
      add_operation_field preset
        {| pf_Key := "llm.prediction.systemPrompt";
           pf_Value := VString (System parsed) |}
    else preset in
  (preset, None).

End PresetMapper.

(* ===================================================================== *)
(** * Part II: vocabulary of the statements                               *)
(* ===================================================================== *)

(** The input of [TestParseOllamaModelfile]. *)
Definition test_modelfile : string :=
  newline +:+
  "TEMPLATE " +:+ tquote +:+ "{{ if .System }}{{ .System }}{{ end }}<think>" +:+ newline +:+
  "</think>{{ .Prompt }}" +:+ tquote +:+ newline +:+
  "SYSTEM " +:+ dquote +:+ "You are a helpful assistant." +:+ dquote +:+ newline +:+
  "PARAMETER temperature 0.7" +:+ newline +:+
  "PARAMETER top_p 0.9" +:+ newline +:+
  "PARAMETER stop " +:+ dquote +:+ "User:" +:+ dquote +:+ newline +:+
  "PARAMETER stop " +:+ dquote +:+ "Assistant:" +:+ dquote +:+ newline.

(** The keys of the fields the statements name. *)
Definition systemPromptKey : string := "llm.prediction.systemPrompt".

(** A template with the empty-reasoning marker pair. *)
Definition think_template : string := "<|user|>{{ .Prompt }}<|assistant|><think></think>".

Definition promptTemplateKey : string := "llm.prediction.promptTemplate".

(** All the fields of a flat document, both groups. *)
Definition all_fields (config : LMStudioConfig) : list ConfigField :=
  pc_Fields (PredictionConfig_ config) ++ lc_Fields (LoadModelConfig_ config).

(** The coercion table of the mapper: the field a numeric parameter is
    written to, and whether its first value coerces. *)
Definition numeric_field_key (name : string) : option string :=
  if String.eqb name "temperature" then Some "llm.prediction.temperature"
  else if String.eqb name "top_p" then Some "llm.prediction.topP"
  else if String.eqb name "top_k" then Some "llm.prediction.topK"
  else if String.eqb name "repeat_penalty" then Some "llm.prediction.repeatPenalty"
  else if String.eqb name "min_p" then Some "llm.prediction.minP"
  else if String.eqb name "num_ctx" then Some "llm.load.contextLength"
  else None.


(** The first candidate that passes a test, as the documentation words it. *)
Definition first_match (test : string -> bool) (candidates : list string) : string :=
  hd "" (List.filter test candidates).

(** Case analysis on the comparisons of a name with the literals of a
    [switch]. *)
Ltac string_cases :=
  repeat (match goal with
          | H : context [String.eqb ?a ?b] |- _ =>
              is_var a;
              let E := fresh "E" in
              destruct (String.eqb a b) eqn:E;
              [apply String.eqb_eq in E; subst a | clear E]
          | |- context [String.eqb ?a ?b] =>
              is_var a;
              let E := fresh "E" in
              destruct (String.eqb a b) eqn:E;
              [apply String.eqb_eq in E; subst a | clear E]
          end; simpl in *).

(** The loop of the flat mapper over the entries in the order [order]. *)
Definition run_parameters (ParseFloat : string -> option spec_float)
    (order : list (string * StringSlice)) (config : LMStudioConfig)
  : LMStudioConfig :=
  fold_left (fun config kv => map_parameter ParseFloat config (fst kv) (snd kv))
            order config.

(** An instance of [strconv.ParseFloat] for the examples: it knows the two
    literals of the repository's tests (0.8 and 0.7 as binary64) and rejects
    every other text. *)
Definition sample_ParseFloat (s : string) : option spec_float :=
  if String.eqb s "0.8" then Some (S754_finite false 7205759403792794 (-53))
  else if String.eqb s "0.7" then Some (S754_finite false 6305039478318694 (-53))
  else None.

(** The state is idle when neither capture is active. *)
Definition idle (st : ParserState) : Prop :=
  inTemplate st = false /\ inSystem st = false.

(** Case analysis on every conditional of the goal. *)
Ltac split_ifs :=
  repeat match goal with
         | |- context [if ?b then _ else _] => destruct b eqn:?
         end.

(** The values held under a parameter name. *)
Definition values_of (name : string) (st : ParserState) : list string :=
  elems_of (index (Parameters (parsed st)) name).

(** A line that is no PARAMETER directive for [name]. *)
Definition no_directive_for (name line : string) : Prop :=
  Strings.HasPrefix (Strings.TrimSpace line) ("PARAMETER " +:+ name +:+ " ") = false.

(** Case analysis on the number of pieces of a PARAMETER line. *)
Ltac split_parts :=
  match goal with
  | |- context [Strings.SplitN ?s ?c ?n] =>
      destruct (Strings.SplitN s c n) as [|? [|? [|? ?]]]
  end.

(** A template directive that is never closed. *)
Definition unterminated_modelfile : string :=
  "TEMPLATE " +:+ tquote +:+ "Hello" +:+ newline +:+ "World" +:+ newline +:+
  "PARAMETER stop x".

(** A triple-quoted template whose closing line ends with a blank, and the
    same without the blank. *)
Definition trailing_space_modelfile : string :=
  "TEMPLATE " +:+ tquote +:+ "Hello" +:+ newline +:+ "World" +:+ tquote +:+ " ".

Definition clean_modelfile : string :=
  "TEMPLATE " +:+ tquote +:+ "Hello" +:+ newline +:+ "World" +:+ tquote.

Import Regexp.

(** The language of an expression, as the RE2 syntax defines it: a literal
    matches itself, [\s*] any run of white space and [\s+] a non-empty
    one. *)
Fixpoint all_spaces (s : string) : bool :=
  match s with
  | "" => true
  | String a s' => is_space a && all_spaces s'
  end.

Inductive matches : regexp -> string -> Prop :=
| matches_nil : matches [] ""
| matches_lit (c : ascii) (re : regexp) (m : string) :
    matches re m -> matches (Lit c :: re) (String c m)
| matches_spaces0 (re : regexp) (ws m : string) :
    all_spaces ws = true -> matches re m ->
    matches (Spaces0 :: re) (ws +:+ m)
| matches_spaces1 (re : regexp) (a : ascii) (ws m : string) :
    is_space a = true -> all_spaces ws = true -> matches re m ->
    matches (Spaces1 :: re) (String a (ws +:+ m)).

(** Every white-space run of the expression is followed by a literal that
    is no white space: the expression then has at most one match at a
    given offset, and no preference order between matches is involved. *)
Fixpoint unambiguous (re : regexp) : bool :=
  match re with
  | [] => true
  | Lit _ :: re' => unambiguous re'
  | _ :: re' =>
      match re' with
      | Lit c :: _ => negb (is_space c) && unambiguous re'
      | _ => false
      end
  end.

(** [has_match re s]: [re] matches at some offset of [s]. *)
Fixpoint has_match (re : regexp) (s : string) : bool :=
match match_here re s with
| Some _ => true
| None =>
    match s with
    | "" => false
    | String _ s' => has_match re s'
    end
end.

(** [dead re r]: the match of [re] anchored at the start of a text that
    begins with [r] fails before the end of [r] is reached, whatever
    follows [r]. *)
Fixpoint dead (re : regexp) (r : string) : bool :=
match re with
| [] => false
| Lit c :: re' =>
    match r with
    | "" => false
    | String a r' => if Ascii.eqb a c then dead re' r' else true
    end
| Spaces0 :: re' =>
    match skip_spaces r with
    | "" => false
    | String a r' => dead re' (String a r')
    end
| Spaces1 :: re' =>
    match r with
    | "" => false
    | String a r' =>
        if is_space a then
          match skip_spaces r' with
          | "" => false
          | String b r'' => dead re' (String b r'')
          end
        else true
    end
end.

(** [dead] for the expression resumed at any of its items (the states the
    matcher can be in when it meets [r]); in a run of one or more spaces
    the matcher can also be past the first space. *)
Fixpoint all_dead (re : regexp) (r : string) : bool :=
match re with
| [] => true
| Spaces1 :: re' => dead re r && dead (Spaces0 :: re') r && all_dead re' r
| _ :: re' => dead re r && all_dead re' r
end.

(** [dead] from the start of the expression at every offset of [r]. *)
Fixpoint inner_dead (re : regexp) (r : string) : bool :=
match r with
| "" => true
| String _ r' => dead re r && inner_dead re r'
end.

(** The expression starts with a literal that is no white space. *)
Definition starts_with_literal (re : regexp) : Prop :=
exists c re', re = Lit c :: re' /\ is_space c = false.

(** The six rewrite rules of the translator, in the order of the source. *)
Definition rules : list (regexp * string) :=
  [ (reIfSystem, "{% if system_message %}");
    (reIfPrompt, "{% if user_message %}");
    (reEnd, "{% endif %}");
    (reSystem, "{{ system_message }}");
    (rePrompt, "{{ user_message }}");
    (reResponse, "{{ model_response }}") ].

(** One rule applied to a text, and a list of rules applied in order. *)
Definition apply_rule (s : string) (rule : regexp * string) : string :=
  ReplaceAllString (fst rule) s (snd rule).

Definition apply_rules (rs : list (regexp * string)) (s : string) : string :=
  fold_left apply_rule rs s.

(** The check that the matcher of [q] cannot enter or start inside the
    replacement of [rule], and that the expression of [rule] starts with a
    literal. *)
Definition starts_lit (re : regexp) : bool :=
  match re with
  | Lit c :: _ => negb (is_space c)
  | _ => false
  end.

Definition rule_ok (q : regexp) (rule : regexp * string) : bool :=
  starts_lit (fst rule) && all_dead q (snd rule) && inner_dead q (snd rule).

Definition rules_ok (rs : list (regexp * string)) : bool :=
  forallb (fun q => forallb (rule_ok (fst q)) rs) rs.

(* ===================================================================== *)
(** * Part III: the export entry points and further vocabulary            *)
(* ===================================================================== *)

(** ** The export entry points (export.go, [ExportModelConfig],
    [ExportModelPreset], [WriteLMStudioConfig], [WriteLMStudioPreset]) *)

(** [err.Error()] and [fmt.Errorf(prefix + ": %w", err)]. *)
Definition Error (err : error) : string :=
  match err with Errorf msg => msg end.

Definition wrap (prefix : string) (err : error) : error :=
  Errorf (prefix +:+ ": " +:+ Error err).

Section Exporters.

(** The collaborators of the entry points, which the repository does not
    implement: the state of the outside world (files, network), the Ollama
    client, the JSON encoder, the file system calls, and the order in which
    the runtime enumerates a map. *)
Variable World : Type.
Variable Show : string -> World -> World * (string + error).
Variable MarshalConfig : LMStudioConfig -> string + error.
Variable MarshalPreset : LMStudioPreset -> string + error.
Variable WriteFile : string -> string -> World -> World * option error.
Variable UserHomeDir : World -> string + error.
Variable MkdirAll : string -> World -> World * option error.
Variable range : gmap string StringSlice -> list (string * StringSlice).
Variable ParseFloat : string -> option spec_float.
Variable ToLower : string -> string.

Definition WriteLMStudioConfig (config : LMStudioConfig) (path : string)
    (w : World) : World * option error :=
  match MarshalConfig config with
  | inr err => (w, Some (wrap "failed to marshal JSON" err))
  | inl data =>
      let '(w, err) := WriteFile path data w in
      match err with
      | Some err => (w, Some (wrap "failed to write config file" err))
      | None => (w, None)
      end
  end.

Definition WriteLMStudioPreset (preset : LMStudioPreset) (path : string)
    (w : World) : World * option error :=
  match MarshalPreset preset with
  | inr err => (w, Some (wrap "failed to marshal preset JSON" err))
  | inl data =>
      let '(w, err) := WriteFile path data w in
      match err with
      | Some err => (w, Some (wrap "failed to write preset file" err))
      | None => (w, None)
      end
  end.

(** The value substituted when the parser reports an error. *)
Definition default_parsed : ParsedModelfile :=
  {| Template := ""; System := ""; Parameters := ∅ |}.

(** The diagnostics written to the loggers are not part of the model. *)
Definition ExportModelConfig (modelName outputPath : string) (w : World)
  : World * option error :=
  let '(w, resp) := Show modelName w in
  match resp with
  | inr err => (w, Some (wrap "failed to get model info" err))
  | inl modelfile =>
      let '(parsed, err) := ParseOllamaModelfile modelfile in
      let parsed :=
        match err with
        | Some _ => default_parsed
        | None => parsed
        end in
      let '(config, err) :=
        ConvertToLMStudioFormat ParseFloat (range (Parameters parsed)) parsed in
      match err with
      | Some err => (w, Some (wrap "failed to convert config" err))
      | None => WriteLMStudioConfig config outputPath w
      end
  end.

Definition ExportModelPreset (modelName lmStudioModelName : string) (w : World)
  : World * option error :=
  let '(w, resp) := Show modelName w in
  match resp with
  | inr err => (w, Some (wrap "failed to get model info" err))
  | inl modelfile =>
      let '(parsed, err) := ParseOllamaModelfile modelfile in
      let parsed :=
        match err with
        | Some _ => default_parsed
        | None => parsed
        end in
      let '(preset, err) := ConvertToLMStudioPreset ToLower parsed lmStudioModelName in
      match err with
      | Some err => (w, Some (wrap "failed to convert to preset" err))
      | None =>
          match UserHomeDir w with
          | inr err => (w, Some (wrap "failed to get home directory" err))
          | inl homeDir =>
              let presetDir := homeDir +:+ "/.lmstudio/config-presets" in
              let '(w, err) := MkdirAll presetDir w in
              match err with
              | Some err => (w, Some (wrap "failed to create preset directory" err))
              | None =>
                  let presetPath :=
                    presetDir +:+ "/" +:+ lmStudioModelName +:+ ".preset.json" in
                  WriteLMStudioPreset preset presetPath w
              end
          end
      end
  end.

End Exporters.

(** ** Further vocabulary *)

(** An ASCII byte that is no white space. *)
Definition visible (c : ascii) : bool :=
  (nat_of_ascii c <? 128) && negb (Strings.asciiSpace c).

(** What the parser guarantees of a parameter map: a name holds no blank,
    its value list is a non-nil slice with at least one value, and no value
    starts or ends with a double quote. *)
Definition parameters_wf (m : gmap string StringSlice) : Prop :=
  forall (k : string) (v : StringSlice),
    m !! k = Some v ->
    Strings.cut k " " = (k, None)
    /\ (exists x l, v = Slice (x :: l))
    /\ Forall (fun x => Strings.Trim x dquote = x) (elems_of v).

(** The first value of a parameter, if it has one. *)
Definition first_value (m : gmap string StringSlice) (name : string)
  : option string :=
  hd_error (elems_of (index m name)).

(** The value the table's coercion gives for a parameter: the integer for
    top_k and num_ctx, the float for the others. *)
Definition coerced_value (ParseFloat : string -> option spec_float)
    (name value : string) : option Value :=
  if String.eqb name "top_k" || String.eqb name "num_ctx"
  then option_map VInt (Strconv.Atoi value)
  else option_map VFloat (ParseFloat value).

(** The fields one iteration of the flat mapper's loop adds to a document
    without fields. *)
Definition fields_of (ParseFloat : string -> option spec_float)
    (kv : string * StringSlice) : list ConfigField :=
  all_fields (map_parameter ParseFloat empty_config (fst kv) (snd kv)).

(** The expression starts with an opening brace, as the six expressions of
    the translator do. *)
Definition starts_with_brace (re : regexp) : Prop :=
  exists re', re = Lit "{" :: re'.

Definition starts_brace (re : regexp) : bool :=
  match re with
  | Lit c :: _ => Ascii.eqb c "{"
  | _ => false
  end.

(** A small world for the examples: the files written so far; the client
    knows one model; the encoders give a fixed text; the home directory is
    /home/u. *)
Definition sample_World : Type := list (string * string).

Definition sample_Show (name : string) (w : sample_World)
  : sample_World * (string + error) :=
  if String.eqb name "glm4"
  then (w, inl ("TEMPLATE " +:+ dquote +:+ "{{ .Prompt }}" +:+ dquote))
  else (w, inr (Errorf "model not found")).

Definition sample_WriteFile (path data : string) (w : sample_World)
  : sample_World * option error :=
  ((path, data) :: w, None).

Definition sample_MkdirAll (path : string) (w : sample_World)
  : sample_World * option error :=
  (w, None).

(** A pattern that begins with the two opening braces of an action. *)
Definition starts_2braces (re : regexp) : bool :=
  match re with
  | Lit a :: Lit b :: _ => Ascii.eqb a "{" && Ascii.eqb b "{"
  | _ => false
  end.

(* ===================================================================== *)
(** * Part IV: examples, lemmas and theorems                              *)
(* ===================================================================== *)

Example TrimSpace_ex1 :
  Strings.TrimSpace (String "009" "  TEMPLATE x  " +:+ String "010" "") = "TEMPLATE x".
Proof. reflexivity. Qed.

Example TrimSpace_ex2 :
  Strings.TrimSpace (String "194" (String "160" "a b" +:+ String "226" (String "128" (String "131" ""))))
  = "a b".
Proof. reflexivity. Qed.

Example Split_ex : Strings.Split (String "010" "ab" +:+ String "010" "") "010" = [""; "ab"; ""].
Proof. reflexivity. Qed.

Example SplitN_ex : Strings.SplitN "stop a b" " " 2 = ["stop"; "a b"].
Proof. reflexivity. Qed.

Example Trim_ex :
  Strings.Trim (dquote +:+ dquote +:+ "a" +:+ dquote +:+ "b" +:+ dquote) dquote
  = "a" +:+ dquote +:+ "b".
Proof. reflexivity. Qed.

Example TrimSuffix_ex : Strings.TrimSuffix ("abc" +:+ tquote) tquote = "abc".
Proof. reflexivity. Qed.

Example MustCompile_ex :
  Regexp.MustCompile "{{\s*if\s+\.X\s*}}" =
  [Regexp.Lit "{"; Regexp.Lit "{"; Regexp.Spaces0; Regexp.Lit "i"; Regexp.Lit "f";
   Regexp.Spaces1; Regexp.Lit "."; Regexp.Lit "X"; Regexp.Spaces0;
   Regexp.Lit "}"; Regexp.Lit "}"].
Proof. reflexivity. Qed.

(** The cases of [TestConvertGoTemplateToJinja]. *)

Example jinja_basic_prompt :
  convertGoTemplateToJinja "{{ .Prompt }}" = "{{ user_message }}".
Proof. reflexivity. Qed.

Example jinja_system_and_prompt :
  convertGoTemplateToJinja "{{ .System }} {{ .Prompt }}"
  = "{{ system_message }} {{ user_message }}".
Proof. reflexivity. Qed.

Example jinja_complex_spacing :
  convertGoTemplateToJinja "{{if .System}} {{.System}} {{end}}"
  = "{% if system_message %} {{ system_message }} {% endif %}".
Proof. reflexivity. Qed.

Example jinja_glm4 :
  convertGoTemplateToJinja
    ("[gMASK]<sop><|user|> " +:+ newline +:+ " {{ .Prompt }} <|assistant|> ")
  = "[gMASK]<sop><|user|> " +:+ newline +:+ " {{ user_message }} <|assistant|> ".
Proof. reflexivity. Qed.

Example jinja_nothink :
  convertGoTemplateToJinja
    ("<|user|>{{ .Prompt }}<|assistant|><think>" +:+ newline +:+ "</think>")
  = "<|user|>{{ user_message }}<|assistant|><think>" +:+ newline +:+ "</think>".
Proof. reflexivity. Qed.

Example parse_test_modelfile :
  let p := fst (ParseOllamaModelfile test_modelfile) in
  Template p = "{{ if .System }}{{ .System }}{{ end }}<think>" +:+ newline +:+
               "</think>{{ .Prompt }}"
  /\ System p = "You are a helpful assistant."
  /\ Parameters p !! "stop" = Some (Slice ["User:"; "Assistant:"])
  /\ Parameters p !! "temperature" = Some (Slice ["0.7"])
  /\ Parameters p !! "top_p" = Some (Slice ["0.9"]).
Proof. vm_compute. repeat split. Qed.

Example Atoi_examples :
  Strconv.Atoi "4096" = Some 4096%Z /\ Strconv.Atoi "-12" = Some (-12)%Z
  /\ Strconv.Atoi "abc" = None /\ Strconv.Atoi "" = None
  /\ Strconv.Atoi "+" = None /\ Strconv.Atoi "4_096" = None
  /\ Strconv.Atoi "9223372036854775807" = Some 9223372036854775807%Z
  /\ Strconv.Atoi "9223372036854775808" = None.
Proof. vm_compute. repeat split. Qed.

(** ** Basic facts on byte strings *)

Lemma is_empty_true (s : string) : is_empty s = true <-> s = "".
Proof. destruct s; simpl; split; congruence. Qed.

Lemma is_empty_false (s : string) : is_empty s = false <-> s <> "".
Proof. destruct s; simpl; split; congruence. Qed.

Lemma string_app_assoc (a b c : string) : (a +:+ b) +:+ c = a +:+ (b +:+ c).
Proof. induction a as [|x a IH]; simpl; [reflexivity | now rewrite IH]. Qed.

Lemma string_app_empty_r (a : string) : a +:+ "" = a.
Proof. induction a as [|x a IH]; simpl; [reflexivity | now rewrite IH]. Qed.

Lemma string_length_app (a b : string) :
  String.length (a +:+ b) = String.length a + String.length b.
Proof. induction a as [|x a IH]; simpl; [reflexivity | now rewrite IH]. Qed.

Lemma drop_str_app (a b : string) : drop_str (String.length a) (a +:+ b) = b.
Proof. induction a as [|x a IH]; simpl; [now destruct b | exact IH]. Qed.

Lemma HasPrefix_app (p rest : string) : Strings.HasPrefix (p +:+ rest) p = true.
Proof.
  induction p as [|x p IH]; simpl; [reflexivity |].
  now rewrite Ascii.eqb_refl, IH.
Qed.

Lemma HasPrefix_inv (s p : string) :
  Strings.HasPrefix s p = true -> s = p +:+ drop_str (String.length p) s.
Proof.
  revert s; induction p as [|x p IH]; intros s H; simpl in *.
  - now destruct s.
  - destruct s as [|y s]; [discriminate |].
    apply andb_prop in H as [Hxy Hp].
    apply Ascii.eqb_eq in Hxy; subst y. simpl. f_equal. now apply IH.
Qed.

Lemma TrimPrefix_app (p rest : string) : Strings.TrimPrefix (p +:+ rest) p = rest.
Proof. unfold Strings.TrimPrefix. now rewrite HasPrefix_app, drop_str_app. Qed.

Lemma Split_nonempty (s : string) (sep : ascii) : Strings.Split s sep <> [].
Proof.
  destruct s as [|c s]; simpl; [discriminate |].
  destruct (Ascii.eqb c sep); [discriminate |].
  destruct (Strings.Split s sep); discriminate.
Qed.

Lemma take_drop_str (n : nat) (s : string) : take_str n s +:+ drop_str n s = s.
Proof.
  revert s. induction n as [|n IH]; intros [|c s]; simpl; try reflexivity.
  now rewrite IH.
Qed.

Lemma take_str_app (a b : string) : take_str (String.length a) (a +:+ b) = a.
Proof.
  induction a as [|x a IH]; simpl; [now destruct b | now rewrite IH].
Qed.

(** [HasSuffix] and [TrimSuffix] against their specifications. *)
Lemma HasSuffix_spec (s suffix : string) :
  Strings.HasSuffix s suffix = true <-> exists a, s = a +:+ suffix.
Proof.
  unfold Strings.HasSuffix. rewrite andb_true_iff, Nat.leb_le, String.eqb_eq.
  split.
  - intros [_ H]. exists (take_str (String.length s - String.length suffix) s).
    pose proof (take_drop_str (String.length s - String.length suffix) s) as E.
    rewrite H in E. now symmetry.
  - intros [a ->]. rewrite string_length_app.
    replace (String.length a + String.length suffix - String.length suffix)
      with (String.length a) by lia.
    split; [lia | apply drop_str_app].
Qed.

Lemma TrimSuffix_app (a suffix : string) :
  Strings.TrimSuffix (a +:+ suffix) suffix = a.
Proof.
  unfold Strings.TrimSuffix.
  replace (Strings.HasSuffix (a +:+ suffix) suffix) with true
    by (symmetry; apply HasSuffix_spec; eauto).
  rewrite string_length_app.
  replace (String.length a + String.length suffix - String.length suffix)
    with (String.length a) by lia.
  apply take_str_app.
Qed.

(** The lines of a text, joined by the line separator, give the text. *)
Lemma Join_Split (s : string) (sep : ascii) :
  Strings.Join (Strings.Split s sep) (String sep "") = s.
Proof.
  induction s as [|c s IH]; [reflexivity |]. simpl.
  pose proof (Split_nonempty s sep) as Hne.
  destruct (Ascii.eqb c sep) eqn:E.
  - apply Ascii.eqb_eq in E. subst c.
    destruct (Strings.Split s sep) as [|piece rest]; [congruence |].
    change (Strings.Join ("" :: piece :: rest) (String sep ""))
      with (String sep (Strings.Join (piece :: rest) (String sep ""))).
    now rewrite IH.
  - destruct (Strings.Split s sep) as [|piece [|p2 rest]]; [congruence | |].
    + simpl in IH |- *. now rewrite IH.
    + change (Strings.Join (String c piece :: p2 :: rest) (String sep ""))
        with (String c (Strings.Join (piece :: p2 :: rest) (String sep ""))).
      now rewrite IH.
Qed.

(** [HasPrefix] and [Contains] against their specifications. *)
Lemma HasPrefix_spec (s p : string) :
  Strings.HasPrefix s p = true <-> exists rest, s = p +:+ rest.
Proof.
  split.
  - intros H. eexists. now apply HasPrefix_inv.
  - intros [rest ->]. apply HasPrefix_app.
Qed.

Lemma Contains_spec (s sub : string) :
  Strings.Contains s sub = true <-> exists a b, s = a +:+ sub +:+ b.
Proof.
  split.
  - induction s as [|c s IH]; simpl; intros H.
    + rewrite orb_false_r in H. apply HasPrefix_spec in H as [rest ->].
      now exists "", rest.
    + apply orb_prop in H as [H | H].
      * apply HasPrefix_spec in H as [rest ->]. now exists "", rest.
      * destruct (IH H) as (a & b & ->). now exists (String c a), b.
  - intros (a & b & ->). induction a as [|c a IH]; simpl.
    + destruct (sub +:+ b) eqn:E; simpl.
      * destruct sub; [reflexivity | discriminate].
      * rewrite <- E, HasPrefix_app. reflexivity.
    + rewrite IH. apply orb_true_r.
Qed.

(** ** The template translator on the documented examples *)

(** C5: the translator maps the two documented inputs to the documented
    outputs: the bare prompt reference becomes the user-message token, and
    the conditional system block followed by the prompt becomes the Jinja
    conditional with both variable tokens. *)
Theorem C5_translator_examples :
  convertGoTemplateToJinja "{{ .Prompt }}" = "{{ user_message }}"
  /\ convertGoTemplateToJinja
       "{{ if .System }}System: {{ .System }}{{ end }} User: {{ .Prompt }}"
     = "{% if system_message %}System: {{ system_message }}{% endif %} User: {{ user_message }}".
Proof. split; reflexivity. Qed.

(** ** The preset mapper *)

Section PresetFacts.

Variable ToLower : string -> string.

(** The prediction group of the preset built for a non-empty template. *)
Lemma preset_fields (parsed : ParsedModelfile) (modelName : string) :
  Template parsed <> "" ->
  exists tv stops,
    po_Fields (Operation (fst (ConvertToLMStudioPreset ToLower parsed modelName)))
    = [ {| pf_Key := "llm.prediction.promptTemplate"; pf_Value := VManual tv |};
        {| pf_Key := "llm.prediction.stopStrings"; pf_Value := VStrings stops |} ]
      ++ (if negb (is_empty (System parsed))
             && negb (Strings.Contains (Template parsed) "<think></think>")
          then [ {| pf_Key := systemPromptKey; pf_Value := VString (System parsed) |} ]
          else []).
Proof.
  intros Ht. apply is_empty_false in Ht.
  unfold ConvertToLMStudioPreset. rewrite Ht.
  destruct (negb (is_empty (System parsed))
            && negb (Strings.Contains (Template parsed) "<think></think>"));
    simpl; eauto.
Qed.

(** C2: for a non-empty template, the preset document has the field
    keyed llm.prediction.systemPrompt holding the literal system string
    exactly when the system string is non-empty and the template does not
    contain the empty-reasoning marker pair; no field under that key holds
    anything else. *)
Theorem C2_system_prompt_iff (parsed : ParsedModelfile) (modelName : string) :
  Template parsed <> "" ->
  let fields :=
    po_Fields (Operation (fst (ConvertToLMStudioPreset ToLower parsed modelName))) in
  (In {| pf_Key := systemPromptKey; pf_Value := VString (System parsed) |} fields
   <-> System parsed <> ""
       /\ Strings.Contains (Template parsed) "<think></think>" = false)
  /\ (forall f, In f fields -> pf_Key f = systemPromptKey ->
                pf_Value f = VString (System parsed)
                /\ System parsed <> ""
                /\ Strings.Contains (Template parsed) "<think></think>" = false).
Proof.
  intros Ht fields. subst fields.
  destruct (preset_fields parsed modelName Ht) as (tv & stops & ->).
  set (cond := negb (is_empty (System parsed))
               && negb (Strings.Contains (Template parsed) "<think></think>")).
  assert (Hcond : cond = true <->
                  System parsed <> ""
                  /\ Strings.Contains (Template parsed) "<think></think>" = false).
  { unfold cond. rewrite andb_true_iff, !negb_true_iff, is_empty_false. tauto. }
  destruct cond; simpl.
  - split.
    + split; [intros _; now apply Hcond | intros _; tauto].
    + intros f [<- | [<- | [<- | []]]] Hk; try discriminate Hk.
      split; [reflexivity | now apply Hcond].
  - split.
    + split.
      * intros [H | [H | []]]; discriminate H.
      * intros H. apply Hcond in H. discriminate H.
    + intros f [<- | [<- | []]] Hk; discriminate Hk.
Qed.

(** C10: the preset document is a function of the template, the system
    string, the values under stop and the display name alone: two parsed
    values that agree on these three give the same preset, whatever other
    parameters (temperature, num_ctx, ...) they hold; the load group is
    always empty and the prediction group only ever holds the three keys
    promptTemplate, stopStrings and systemPrompt. *)
Theorem C10_preset_depends_on_stop_only :
  (forall (p1 p2 : ParsedModelfile) (modelName : string),
      Template p1 = Template p2 ->
      System p1 = System p2 ->
      elems_of (index (Parameters p1) "stop")
      = elems_of (index (Parameters p2) "stop") ->
      ConvertToLMStudioPreset ToLower p1 modelName
      = ConvertToLMStudioPreset ToLower p2 modelName)
  /\ (forall (p : ParsedModelfile) (modelName : string),
         let preset := fst (ConvertToLMStudioPreset ToLower p modelName) in
         pl_Fields (Load preset) = []
         /\ Forall (fun f => In (pf_Key f)
                                ["llm.prediction.promptTemplate";
                                 "llm.prediction.stopStrings";
                                 "llm.prediction.systemPrompt"])
                   (po_Fields (Operation preset))).
Proof.
  split.
  - intros p1 p2 modelName Ht Hs Hstop.
    unfold ConvertToLMStudioPreset. rewrite Ht, Hs.
    assert (Hn : match index (Parameters p1) "stop" with
                 | NilSlice => Slice []
                 | _ => index (Parameters p1) "stop"
                 end
                 = match index (Parameters p2) "stop" with
                   | NilSlice => Slice []
                   | _ => index (Parameters p2) "stop"
                   end).
    { destruct (index (Parameters p1) "stop"), (index (Parameters p2) "stop");
        simpl in Hstop; congruence. }
    rewrite Hn. reflexivity.
  - intros p modelName preset. subst preset.
    unfold ConvertToLMStudioPreset.
    destruct (is_empty (Template p)); simpl; [split; [reflexivity | constructor] |].
    destruct (negb (is_empty (System p))
              && negb (Strings.Contains (Template p) "<think></think>"));
      simpl; (split; [reflexivity |]);
      repeat (constructor; [simpl; tauto |]); constructor.
Qed.

End PresetFacts.

Lemma C2_system_prompt_iff_witness :
  let parsed := {| Template := "<|user|>{{ .Prompt }}<|assistant|>";
                   System := "Be brief."; Parameters := ∅ |} in
  let fields := po_Fields (Operation (fst (ConvertToLMStudioPreset (fun s => s) parsed "GLM 4"))) in
  In {| pf_Key := systemPromptKey; pf_Value := VString "Be brief." |} fields
  /\ ~ In {| pf_Key := systemPromptKey; pf_Value := VString "Be brief." |}
          (po_Fields (Operation (fst (ConvertToLMStudioPreset (fun s => s)
             {| Template := think_template; System := "Be brief."; Parameters := ∅ |}
             "GLM 4")))).
Proof.
  intros parsed fields. split.
  - assert (Hne : Template parsed <> "") by discriminate.
    destruct (C2_system_prompt_iff (fun s => s) parsed "GLM 4" Hne) as [Hiff _].
    apply Hiff. split; [discriminate | reflexivity].
  - intros H.
    assert (Hne : think_template <> "") by discriminate.
    destruct (C2_system_prompt_iff (fun s => s)
                {| Template := think_template; System := "Be brief.";
                   Parameters := ∅ |} "GLM 4" Hne) as [Hiff _].
    apply Hiff in H. destruct H as [_ H]. vm_compute in H. discriminate H.
Defined.

Lemma C10_preset_depends_on_stop_only_witness :
  ConvertToLMStudioPreset (fun s => s)
    {| Template := "<s>{{ .Prompt }}"; System := "sys";
       Parameters := {[ "stop" := Slice ["</s>"] ]} |} "m"
  = ConvertToLMStudioPreset (fun s => s)
      {| Template := "<s>{{ .Prompt }}"; System := "sys";
         Parameters := <[ "temperature" := Slice ["0.7"] ]>
                         (<[ "num_ctx" := Slice ["4096"] ]>
                            {[ "stop" := Slice ["</s>"] ]}) |} "m".
Proof.
  apply (proj1 (C10_preset_depends_on_stop_only (fun s => s)));
    vm_compute; reflexivity.
Defined.

(** ** The flat-document mapper *)

Lemma first_token_first_match (test : string -> bool) (tokens : list string) :
  first_token test tokens = first_match test tokens.
Proof.
  unfold first_match. induction tokens as [|t ts IH]; simpl; [reflexivity |].
  destruct (test t); [reflexivity | exact IH].
Qed.

Lemma numeric_field_key_inj (a b key : string) :
  numeric_field_key a = Some key -> numeric_field_key b = Some key -> a = b.
Proof.
  unfold numeric_field_key. intros Ha Hb.
  string_cases; simpl in *; congruence.
Qed.

Lemma numeric_field_key_not_template (name key : string) :
  numeric_field_key name = Some key -> key <> promptTemplateKey.
Proof.
  unfold numeric_field_key. intros H ->.
  string_cases; simpl in *; discriminate.
Qed.

Section FlatFacts.

Variable ParseFloat : string -> option spec_float.

Abbreviation map_parameter := (map_parameter ParseFloat).
Abbreviation ConvertToLMStudioFormat := (ConvertToLMStudioFormat ParseFloat).
Abbreviation run_parameters := (run_parameters ParseFloat).

(** One iteration only appends to the prediction group. *)
Lemma map_parameter_prediction (config : LMStudioConfig) (k : string) (vs : StringSlice) :
  exists extra,
    pc_Fields (PredictionConfig_ (map_parameter config k vs))
    = pc_Fields (PredictionConfig_ config) ++ extra.
Proof.
  unfold map_parameter.
  destruct (String.eqb k "stop"); [exists []; now rewrite app_nil_r |].
  destruct (elems_of vs) as [|value rest]; [exists []; now rewrite app_nil_r |].
  repeat match goal with
         | |- context [if ?b then _ else _] => destruct b
         | |- context [match ?o with Some _ => _ | None => _ end] => destruct o
         end; simpl; eauto; exists []; now rewrite app_nil_r.
Qed.

Lemma run_parameters_prediction (order : list (string * StringSlice))
    (config : LMStudioConfig) :
  exists extra,
    pc_Fields (PredictionConfig_ (run_parameters order config))
    = pc_Fields (PredictionConfig_ config) ++ extra.
Proof.
  revert config. induction order as [|[k vs] order IH]; intros config; simpl.
  - exists []. now rewrite app_nil_r.
  - destruct (IH (map_parameter config k vs)) as [e2 ->].
    destruct (map_parameter_prediction config k vs) as [e1 ->].
    exists (e1 ++ e2). now rewrite app_assoc.
Qed.

(** For a non-empty template the prediction group starts with the prompt
    template object, built from the translated template, the two derived
    tokens and the value of [parsed.Parameters["stop"]]. *)
Lemma flat_template_field (order : list (string * StringSlice))
    (parsed : ParsedModelfile) :
  Template parsed <> "" ->
  exists t rest,
    pc_Fields (PredictionConfig_ (fst (ConvertToLMStudioFormat order parsed)))
    = {| cf_Key := promptTemplateKey; cf_Value := VJinja t |} :: rest
    /\ jd_Template (jpt_JinjaPromptTemplate t)
       = convertGoTemplateToJinja (Template parsed)
    /\ jd_BosToken (jpt_JinjaPromptTemplate t) = extractBOSToken (Template parsed)
    /\ jd_EosToken (jpt_JinjaPromptTemplate t) = extractEOSToken (Template parsed)
    /\ jpt_StopStrings t = index (Parameters parsed) "stop".
Proof.
  intros Ht. apply is_empty_false in Ht.
  unfold ConvertToLMStudioFormat; simpl.
  destruct (run_parameters_prediction order (map_template empty_config parsed))
    as [extra He].
  unfold run_parameters in He. rewrite He.
  unfold map_template. rewrite Ht. simpl.
  eexists _, extra. split; [reflexivity |]. simpl. repeat split.
Qed.

(** Without a stop parameter, the stop-sequence field of the template
    object is the nil slice. *)
Lemma flat_stop_absent (order : list (string * StringSlice))
    (parsed : ParsedModelfile) :
  Template parsed <> "" ->
  Parameters parsed !! "stop" = None ->
  exists t rest,
    pc_Fields (PredictionConfig_ (fst (ConvertToLMStudioFormat order parsed)))
    = {| cf_Key := promptTemplateKey; cf_Value := VJinja t |} :: rest
    /\ jpt_StopStrings t = NilSlice
    /\ marshal_strings (jpt_StopStrings t) = JNull.
Proof.
  intros Ht Hstop.
  destruct (flat_template_field order parsed Ht) as (t & rest & Hf & _ & _ & _ & Hs).
  exists t, rest. unfold index in Hs. rewrite Hstop in Hs. simpl in Hs.
  rewrite Hs. auto.
Qed.



End FlatFacts.

(** C1: on a parsed value with a template and no stop parameter the flat
    mapper stores the nil slice, which [json.Marshal] writes as null, in the
    stop-sequence field of the template object; it is not the empty list.
    The preset mapper, on the same input, stores the empty list. *)
Theorem C1_flat_stop_is_null (ParseFloat : string -> option spec_float) :
  let parsed := {| Template := "{{ .Prompt }}"; System := ""; Parameters := ∅ |} in
  range_order (Parameters parsed) []
  /\ (exists t,
         pc_Fields (PredictionConfig_ (fst (ConvertToLMStudioFormat ParseFloat [] parsed)))
         = [ {| cf_Key := promptTemplateKey; cf_Value := VJinja t |} ]
         /\ jpt_StopStrings t = NilSlice
         /\ marshal_strings (jpt_StopStrings t) = JNull
         /\ marshal_strings (jpt_StopStrings t) <> JStringArray [])
  /\ In {| pf_Key := "llm.prediction.stopStrings"; pf_Value := VStrings (Slice []) |}
        (po_Fields (Operation (fst (ConvertToLMStudioPreset (fun s => s) parsed "m")))).
Proof.
  intros parsed. split; [| split].
  - unfold range_order. simpl. rewrite map_to_list_empty. reflexivity.
  - eexists. split; [reflexivity |]. simpl. repeat split. discriminate.
  - simpl. tauto.
Qed.

(** C6: the start-of-sequence token is the first of the four known tokens
    that the template starts with, the end-of-sequence token the first of
    the five known tokens that the template contains, the empty string when
    there is none; the flat mapper stores exactly these two in the template
    object; and a template that contains the user role marker and none of
    the four end markers gets that role marker as its end-of-sequence
    token. *)
Theorem C6_sequence_tokens :
  (forall template : string,
      extractBOSToken template
      = first_match (fun token => Strings.HasPrefix template token)
          ["[gMASK]"; "<s>"; "<|begin_of_text|>"; "<|im_start|>"]
      /\ extractEOSToken template
         = first_match (fun token => Strings.Contains template token)
             ["<|endoftext|>"; "</s>"; "<|end_of_text|>"; "<|im_end|>"; "<|user|>"])
  /\ (forall (ParseFloat : string -> option spec_float)
             (order : list (string * StringSlice)) (parsed : ParsedModelfile),
         Template parsed <> "" ->
         exists t rest,
           pc_Fields (PredictionConfig_ (fst (ConvertToLMStudioFormat ParseFloat order parsed)))
           = {| cf_Key := promptTemplateKey; cf_Value := VJinja t |} :: rest
           /\ jd_BosToken (jpt_JinjaPromptTemplate t) = extractBOSToken (Template parsed)
           /\ jd_EosToken (jpt_JinjaPromptTemplate t) = extractEOSToken (Template parsed))
  /\ (forall template : string,
         Strings.Contains template "<|user|>" = true ->
         Strings.Contains template "<|endoftext|>" = false ->
         Strings.Contains template "</s>" = false ->
         Strings.Contains template "<|end_of_text|>" = false ->
         Strings.Contains template "<|im_end|>" = false ->
         extractEOSToken template = "<|user|>").
Proof.
  split; [| split].
  - intros template. split; apply first_token_first_match.
  - intros ParseFloat order parsed Ht.
    destruct (flat_template_field ParseFloat order parsed Ht)
      as (t & rest & Hf & _ & Hb & He & _).
    exists t, rest. auto.
  - intros template Hu H1 H2 H3 H4.
    unfold extractEOSToken, eosTokens. simpl.
    now rewrite H1, H2, H3, H4, Hu.
Qed.

Lemma C6_sequence_tokens_witness :
  let template := "[gMASK]<sop><|user|> {{ .Prompt }} <|assistant|> " in
  let parsed := {| Template := template; System := ""; Parameters := ∅ |} in
  extractEOSToken template = "<|user|>"
  /\ exists t rest,
      pc_Fields (PredictionConfig_ (fst (ConvertToLMStudioFormat sample_ParseFloat [] parsed)))
      = {| cf_Key := promptTemplateKey; cf_Value := VJinja t |} :: rest
      /\ jd_BosToken (jpt_JinjaPromptTemplate t) = extractBOSToken template
      /\ jd_EosToken (jpt_JinjaPromptTemplate t) = extractEOSToken template.
Proof.
  intros template parsed.
  destruct C6_sequence_tokens as (_ & Hmap & Huser). split.
  - apply Huser; reflexivity.
  - apply (Hmap sample_ParseFloat [] parsed). discriminate.
Defined.



(** ** The directive parser *)

Lemma cut_inv (s : string) (sep : ascii) (before after : string) :
  Strings.cut s sep = (before, Some after) -> s = before +:+ String sep after.
Proof.
  revert before; induction s as [|c s IH]; intros before H; simpl in H.
  - discriminate.
  - destruct (Ascii.eqb c sep) eqn:E.
    + apply Ascii.eqb_eq in E. subst c. now injection H as <- <-.
    + destruct (Strings.cut s sep) as [b [a|]]; [| discriminate].
      injection H as <- <-. simpl. f_equal. now apply IH.
Qed.

Lemma SplitN_2_inv (s key raw : string) (sep : ascii) :
  Strings.SplitN s sep 2 = [key; raw] -> s = key +:+ String sep raw.
Proof.
  simpl. destruct (Strings.cut s sep) as [b [a|]] eqn:E; [| discriminate].
  intros H. injection H as <- <-. now apply cut_inv.
Qed.

(** One line changes the parameter map only in the PARAMETER branch, which
    is reached in the idle state only; the value, stripped of its quotes,
    is appended to the list of its key. *)
Lemma parse_line_parameters (st : ParserState) (line : string) :
  Parameters (parsed (parse_line st line)) = Parameters (parsed st)
  \/ (idle st
      /\ exists key raw,
          Strings.TrimSpace line = "PARAMETER " +:+ key +:+ " " +:+ raw
          /\ parse_line st line
             = set_parsed st
                 (set_Parameters (parsed st)
                    (<[key := append (index (Parameters (parsed st)) key)
                                (Strings.Trim raw dquote)]>
                       (Parameters (parsed st))))).
Proof.
  unfold parse_line.
  destruct (Strings.HasPrefix (Strings.TrimSpace line) "TEMPLATE"
            && negb (inTemplate st)) eqn:E1.
  { left. split_ifs; reflexivity. }
  destruct (inTemplate st) eqn:E2.
  { left. split_ifs; reflexivity. }
  destruct (Strings.HasPrefix (Strings.TrimSpace line) "SYSTEM"
            && negb (inSystem st)) eqn:E3.
  { left. split_ifs; reflexivity. }
  destruct (inSystem st) eqn:E4.
  { left. split_ifs; reflexivity. }
  destruct (Strings.HasPrefix (Strings.TrimSpace line) "PARAMETER ") eqn:E5;
    [| now left].
  destruct (Strings.SplitN _ " " 2) as [|key [|raw [|]]] eqn:E6; try now left.
  right. split; [split; assumption |].
  exists key, raw. split; [| reflexivity].
  apply SplitN_2_inv in E6. unfold Strings.TrimPrefix in E6. rewrite E5 in E6.
  apply HasPrefix_inv in E5. etransitivity; [exact E5 |].
  f_equal. exact E6.
Qed.

(** A line of the form PARAMETER key value, read in the idle state. *)
Lemma parse_line_parameter (st : ParserState) (line key raw : string) :
  idle st ->
  Strings.TrimSpace line = "PARAMETER " +:+ key +:+ " " +:+ raw ->
  Strings.cut key " " = (key, None) ->
  parse_line st line
  = set_parsed st
      (set_Parameters (parsed st)
         (<[key := append (index (Parameters (parsed st)) key)
                     (Strings.Trim raw dquote)]>
            (Parameters (parsed st)))).
Proof.
  intros [Ht Hs] Hl Hkey.
  assert (Hcut : forall k, Strings.cut k " " = (k, None) ->
                 Strings.cut (k +:+ " " +:+ raw) " " = (k, Some raw)).
  { clear. induction k as [|c k IH]; simpl; intros H; [reflexivity |].
    destruct (Ascii.eqb c " "); [discriminate |].
    destruct (Strings.cut k " ") as [b [a|]] eqn:E; [discriminate |].
    injection H as ->. simpl in IH. now rewrite IH. }
  unfold parse_line. rewrite Hl, Ht, Hs. simpl.
  unfold Strings.TrimPrefix. simpl.
  specialize (Hcut key Hkey). simpl in Hcut. rewrite Hcut. reflexivity.
Qed.

Lemma parse_lines_app (st : ParserState) (l1 l2 : list string) :
  parse_lines st (l1 ++ l2) = parse_lines (parse_lines st l1) l2.
Proof. apply fold_left_app. Qed.

Lemma index_insert (m : gmap string StringSlice) (k : string) (v : StringSlice) :
  index (<[k := v]> m) k = v.
Proof. unfold index. now rewrite lookup_insert_eq. Qed.

Lemma index_insert_ne (m : gmap string StringSlice) (k k' : string) (v : StringSlice) :
  k <> k' -> index (<[k := v]> m) k' = index m k'.
Proof. intros H. unfold index. now rewrite lookup_insert_ne. Qed.

Section ParameterOrder.

(** A parameter name, which holds no blank. *)
Variable name : string.
Hypothesis name_no_blank : Strings.cut name " " = (name, None).

(** The values under [name] only grow, at the end. *)
Lemma parse_line_grows (st : ParserState) (line : string) :
  exists extra,
    values_of name (parse_line st line) = values_of name st ++ extra
    /\ (no_directive_for name line -> extra = []).
Proof.
  unfold values_of.
  destruct (parse_line_parameters st line) as [-> | (_ & key & raw & Hl & ->)].
  - exists []. now rewrite app_nil_r.
  - simpl. destruct (decide (key = name)) as [-> | Hne].
    + rewrite index_insert. simpl. eexists. split; [reflexivity |].
      unfold no_directive_for. rewrite Hl.
      replace ("PARAMETER " +:+ name +:+ " " +:+ raw)
        with (("PARAMETER " +:+ name +:+ " ") +:+ raw)
        by now rewrite !string_app_assoc.
      rewrite HasPrefix_app. discriminate.
    + rewrite index_insert_ne by assumption.
      exists []. now rewrite app_nil_r.
Qed.

Lemma parse_lines_grows (lines : list string) (st : ParserState) :
  exists extra,
    values_of name (parse_lines st lines) = values_of name st ++ extra
    /\ (Forall (no_directive_for name) lines -> extra = []).
Proof.
  revert st. induction lines as [|line lines IH]; intros st; simpl.
  - exists []. now rewrite app_nil_r.
  - destruct (IH (parse_line st line)) as (e2 & -> & H2).
    destruct (parse_line_grows st line) as (e1 & -> & H1).
    exists (e1 ++ e2). split; [now rewrite app_assoc |].
    intros HF. inversion HF; subst. rewrite H1, H2 by assumption. reflexivity.
Qed.

(** A PARAMETER line for [name] read in the idle state appends its value
    and leaves the state idle. *)
Lemma parse_line_appends (st : ParserState) (line raw : string) :
  idle st ->
  Strings.TrimSpace line = "PARAMETER " +:+ name +:+ " " +:+ raw ->
  values_of name (parse_line st line)
  = values_of name st ++ [Strings.Trim raw dquote]
  /\ idle (parse_line st line)
  /\ exists l, Parameters (parsed (parse_line st line)) !! name = Some (Slice l).
Proof.
  intros Hidle Hl.
  rewrite (parse_line_parameter st line name raw Hidle Hl name_no_blank).
  unfold values_of. simpl. rewrite index_insert, lookup_insert_eq. simpl.
  split; [reflexivity |]. split; [exact Hidle |]. unfold append. eauto.
Qed.

(** Once present, the entry of [name] stays. *)
Lemma parse_line_present (st : ParserState) (line : string) :
  (exists l, Parameters (parsed st) !! name = Some (Slice l)) ->
  exists l, Parameters (parsed (parse_line st line)) !! name = Some (Slice l).
Proof.
  intros [l Hl].
  destruct (parse_line_parameters st line) as [-> | (_ & key & raw & _ & ->)];
    [eauto |].
  simpl. destruct (decide (key = name)) as [-> | Hne].
  - rewrite lookup_insert_eq. unfold append. eauto.
  - rewrite lookup_insert_ne by assumption. eauto.
Qed.

Lemma parse_lines_present (lines : list string) (st : ParserState) :
  (exists l, Parameters (parsed st) !! name = Some (Slice l)) ->
  exists l, Parameters (parsed (parse_lines st lines)) !! name = Some (Slice l).
Proof.
  revert st. induction lines as [|line lines IH]; intros st H; simpl; [exact H |].
  apply IH. now apply parse_line_present.
Qed.

End ParameterOrder.

Lemma finish_Parameters (st : ParserState) :
  Parameters (finish st) = Parameters (parsed st).
Proof. unfold finish. split_ifs; reflexivity. Qed.


(** The loop is run on the lines of the source; for the empty source, whose
    only line is empty, the early return gives the same result. *)
Lemma ParseOllamaModelfile_unfold (content : string) :
  ParseOllamaModelfile content
  = (finish (parse_lines initial_state (Strings.Split content "010")), None).
Proof.
  unfold ParseOllamaModelfile. destruct content; reflexivity.
Qed.

Lemma TrimLeft_length (s cutset : string) :
  String.length (Strings.TrimLeft s cutset) <= String.length s.
Proof.
  induction s as [|c s IH]; simpl; [lia |].
  destruct (mem_byte c cutset); simpl; lia.
Qed.

Lemma TrimRight_app_cut (s : string) (q : ascii) :
  Strings.TrimRight (s +:+ String q "") (String q "")
  = Strings.TrimRight s (String q "").
Proof.
  induction s as [|c s IH]; simpl.
  - now rewrite Ascii.eqb_refl.
  - now rewrite IH.
Qed.

(** A value written between double quotes, which has itself no quote at
    either end, is recovered by [strings.Trim]. *)
Lemma Trim_quoted (a : string) :
  Strings.TrimLeft a dquote = a ->
  Strings.TrimRight a dquote = a ->
  Strings.Trim (dquote +:+ a +:+ dquote) dquote = a.
Proof.
  intros Hl Hr. unfold Strings.Trim, dquote in *.
  change (Strings.TrimLeft (String "034" "" +:+ a +:+ String "034" "") (String "034" ""))
    with (Strings.TrimLeft (a +:+ String "034" "") (String "034" "")).
  destruct a as [|c a]; [reflexivity |].
  cbn [Strings.TrimLeft String.append] in Hl |- *.
  destruct (mem_byte c (String "034" "")) eqn:E.
  - pose proof (TrimLeft_length a (String "034" "")) as Hlen.
    rewrite Hl in Hlen. simpl in Hlen. lia.
  - change (String c (a +:+ String "034" ""))
      with (String c a +:+ String "034" "").
    now rewrite TrimRight_app_cut.
Qed.

(** C7: repeated PARAMETER directives for one name accumulate in the order
    of their lines.  When a line reading PARAMETER stop v1 precedes a line
    reading PARAMETER stop v2, both met outside a capture, the list under
    stop holds the first value (stripped of its quotes) before the second;
    the values around and between them come from the other PARAMETER stop
    lines only, so with no other such line the list is exactly these two
    values in this order.  The same holds for every parameter name. *)
Theorem C7_values_in_order
    (name content : string) (pre mid post : list string) (la lb va vb : string) :
  Strings.cut name " " = (name, None) ->
  Strings.Split content "010" = pre ++ la :: mid ++ lb :: post ->
  Strings.TrimSpace la = "PARAMETER " +:+ name +:+ " " +:+ va ->
  Strings.TrimSpace lb = "PARAMETER " +:+ name +:+ " " +:+ vb ->
  idle (parse_lines initial_state pre) ->
  idle (parse_lines initial_state (pre ++ la :: mid)) ->
  exists l1 l2 l3,
    Parameters (fst (ParseOllamaModelfile content)) !! name
    = Some (Slice (l1 ++ Strings.Trim va dquote :: l2
                      ++ Strings.Trim vb dquote :: l3))
    /\ (Forall (no_directive_for name) pre -> l1 = [])
    /\ (Forall (no_directive_for name) mid -> l2 = [])
    /\ (Forall (no_directive_for name) post -> l3 = []).
Proof.
  intros Hname Hsplit Ha Hb Hidle1 Hidle2.
  rewrite ParseOllamaModelfile_unfold, Hsplit. simpl fst.
  rewrite finish_Parameters.
  set (s1 := parse_lines initial_state pre) in *.
  set (s2 := parse_line s1 la).
  set (s3 := parse_lines s2 mid).
  set (s4 := parse_line s3 lb).
  assert (E3 : parse_lines initial_state (pre ++ la :: mid) = s3).
  { rewrite parse_lines_app. reflexivity. }
  rewrite E3 in Hidle2.
  assert (E : parse_lines initial_state (pre ++ la :: mid ++ lb :: post)
              = parse_lines s4 post).
  { rewrite parse_lines_app. simpl. fold s1 s2.
    change (fold_left parse_line (mid ++ lb :: post) s2)
      with (parse_lines s2 (mid ++ lb :: post)).
    rewrite parse_lines_app. reflexivity. }
  rewrite E.
  destruct (parse_lines_grows name pre initial_state) as (l1 & H1 & N1).
  fold s1 in H1.
  assert (H0 : values_of name initial_state = []) by reflexivity.
  rewrite H0 in H1. simpl in H1.
  destruct (parse_line_appends name Hname s1 la va Hidle1 Ha) as (H2 & _ & P2).
  fold s2 in H2, P2.
  destruct (parse_lines_grows name mid s2) as (l2 & H3 & N2). fold s3 in H3.
  destruct (parse_line_appends name Hname s3 lb vb Hidle2 Hb) as (H4 & _ & P4).
  fold s4 in H4, P4.
  destruct (parse_lines_grows name post s4) as (l3 & H5 & N3).
  destruct (parse_lines_present name post s4 P4) as [l P5].
  exists l1, l2, l3. split; [| auto].
  rewrite P5. do 2 f_equal.
  assert (Hl : l = values_of name (parse_lines s4 post)).
  { unfold values_of, index. now rewrite P5. }
  rewrite Hl, H5, H4, H3, H2, H1. rewrite <- !app_assoc. reflexivity.
Qed.

Lemma C7_values_in_order_witness :
  Parameters (fst (ParseOllamaModelfile test_modelfile)) !! "stop"
  = Some (Slice ["User:"; "Assistant:"]).
Proof.
  destruct (C7_values_in_order "stop" test_modelfile
              (firstn 6 (Strings.Split test_modelfile "010")) [] [""]
              ("PARAMETER stop " +:+ dquote +:+ "User:" +:+ dquote)
              ("PARAMETER stop " +:+ dquote +:+ "Assistant:" +:+ dquote)
              (dquote +:+ "User:" +:+ dquote)
              (dquote +:+ "Assistant:" +:+ dquote))
    as (l1 & l2 & l3 & H & N1 & N2 & N3).
  - reflexivity.
  - reflexivity.
  - reflexivity.
  - reflexivity.
  - split; reflexivity.
  - split; reflexivity.
  - rewrite H, N1, N2, N3.
    + reflexivity.
    + repeat (constructor; [vm_compute; reflexivity |]). constructor.
    + constructor.
    + repeat (constructor; [vm_compute; reflexivity |]). constructor.
Defined.

(** *** Absent directives *)

Lemma parse_line_no_template (st : ParserState) (line : string) :
  Strings.HasPrefix (Strings.TrimSpace line) "TEMPLATE" = false ->
  inTemplate st = false ->
  inTemplate (parse_line st line) = false
  /\ templateLines (parse_line st line) = templateLines st
  /\ Template (parsed (parse_line st line)) = Template (parsed st).
Proof.
  intros Hp Hin. unfold parse_line. rewrite Hp, Hin. cbn [andb negb].
  split_ifs; try split_parts; simpl; auto.
Qed.

Lemma parse_line_no_system (st : ParserState) (line : string) :
  Strings.HasPrefix (Strings.TrimSpace line) "SYSTEM" = false ->
  inSystem st = false ->
  inSystem (parse_line st line) = false
  /\ systemLines (parse_line st line) = systemLines st
  /\ System (parsed (parse_line st line)) = System (parsed st).
Proof.
  intros Hp Hin. unfold parse_line. rewrite Hp, Hin. cbn [andb negb].
  split_ifs; try split_parts; simpl; auto.
Qed.

Lemma parse_line_no_parameter (st : ParserState) (line : string) :
  Strings.HasPrefix (Strings.TrimSpace line) "PARAMETER " = false ->
  Parameters (parsed (parse_line st line)) = Parameters (parsed st).
Proof.
  intros Hp.
  destruct (parse_line_parameters st line) as [H | (_ & key & raw & Hl & _)];
    [exact H |].
  rewrite Hl in Hp. simpl in Hp. discriminate.
Qed.

Lemma parse_lines_no_template (lines : list string) (st : ParserState) :
  Forall (fun l => Strings.HasPrefix (Strings.TrimSpace l) "TEMPLATE" = false) lines ->
  inTemplate st = false ->
  templateLines (parse_lines st lines) = templateLines st
  /\ Template (parsed (parse_lines st lines)) = Template (parsed st).
Proof.
  intros HF. revert st. induction HF as [|line lines Hl _ IH]; intros st Hin; simpl.
  - auto.
  - destruct (parse_line_no_template st line Hl Hin) as (H1 & H2 & H3).
    destruct (IH _ H1) as [-> ->]. auto.
Qed.

Lemma parse_lines_no_system (lines : list string) (st : ParserState) :
  Forall (fun l => Strings.HasPrefix (Strings.TrimSpace l) "SYSTEM" = false) lines ->
  inSystem st = false ->
  systemLines (parse_lines st lines) = systemLines st
  /\ System (parsed (parse_lines st lines)) = System (parsed st).
Proof.
  intros HF. revert st. induction HF as [|line lines Hl _ IH]; intros st Hin; simpl.
  - auto.
  - destruct (parse_line_no_system st line Hl Hin) as (H1 & H2 & H3).
    destruct (IH _ H1) as [-> ->]. auto.
Qed.

Lemma parse_lines_no_parameter (lines : list string) (st : ParserState) :
  Forall (fun l => Strings.HasPrefix (Strings.TrimSpace l) "PARAMETER " = false) lines ->
  Parameters (parsed (parse_lines st lines)) = Parameters (parsed st).
Proof.
  intros HF. revert st. induction HF as [|line lines Hl _ IH]; intros st; simpl.
  - reflexivity.
  - rewrite IH. now apply parse_line_no_parameter.
Qed.

Lemma finish_Template (st : ParserState) :
  Template (finish st)
  = if 0 <? List.length (templateLines st)
    then Strings.Join (templateLines st) newline
    else Template (parsed st).
Proof. unfold finish. split_ifs; reflexivity. Qed.

Lemma finish_System (st : ParserState) :
  System (finish st)
  = if 0 <? List.length (systemLines st)
    then Strings.Join (systemLines st) newline
    else System (parsed st).
Proof. unfold finish. split_ifs; reflexivity. Qed.

(** *** Lines inside a triple-quoted template capture *)

(** A line whose trimmed form does not end with the terminator is appended
    as it is, and the capture goes on. *)
Lemma template_interior_line (st : ParserState) (line : string) :
  inTemplate st = true ->
  inMultilineTemplate st = true ->
  inDoubleQuotedTemplate st = false ->
  Strings.HasSuffix (Strings.TrimSpace line) tquote = false ->
  parse_line st line
  = set_template_capture st (templateLines st ++ [line]) true true false.
Proof.
  intros H1 H2 H3 H4. unfold parse_line.
  rewrite H1, H2, H3, H4, andb_false_r. reflexivity.
Qed.

Lemma template_interior_lines (body : list string) (st : ParserState) :
  inTemplate st = true ->
  inMultilineTemplate st = true ->
  inDoubleQuotedTemplate st = false ->
  Forall (fun l => Strings.HasSuffix (Strings.TrimSpace l) tquote = false) body ->
  parse_lines st body
  = set_template_capture st (templateLines st ++ body) true true false.
Proof.
  intros H1 H2 H3 HF. revert st H1 H2 H3.
  induction HF as [|line body Hl _ IH]; intros st H1 H2 H3; simpl.
  - rewrite app_nil_r. destruct st; simpl in *; subst; reflexivity.
  - rewrite (template_interior_line st line H1 H2 H3 Hl).
    rewrite IH by reflexivity. simpl. now rewrite <- app_assoc.
Qed.

(** On the line whose trimmed form ends with the terminator, the suffix is
    removed from the line itself, not from its trimmed form, and the
    capture ends. *)
Lemma template_terminator_line (st : ParserState) (line : string) :
  inTemplate st = true ->
  inMultilineTemplate st = true ->
  Strings.HasSuffix (Strings.TrimSpace line) tquote = true ->
  parse_line st line
  = set_template_capture st
      (append_nonempty (templateLines st) (Strings.TrimSuffix line tquote))
      false false (inDoubleQuotedTemplate st).
Proof.
  intros H1 H2 H3. unfold parse_line.
  rewrite H1, H2, H3, andb_false_r. reflexivity.
Qed.

(** When the line itself ends with the terminator, the text before it is
    what is appended. *)
Lemma template_terminator_stripped (st : ParserState) (body : string) :
  inTemplate st = true ->
  inMultilineTemplate st = true ->
  Strings.HasSuffix (Strings.TrimSpace (body +:+ tquote)) tquote = true ->
  parse_line st (body +:+ tquote)
  = set_template_capture st (append_nonempty (templateLines st) body)
      false false (inDoubleQuotedTemplate st).
Proof.
  intros H1 H2 H3. rewrite template_terminator_line by assumption.
  now rewrite TrimSuffix_app.
Qed.

(** When white space follows the terminator on its line, nothing is removed:
    the line enters the captured text with its terminator. *)
Lemma template_terminator_kept (st : ParserState) (line : string) :
  inTemplate st = true ->
  inMultilineTemplate st = true ->
  Strings.HasSuffix (Strings.TrimSpace line) tquote = true ->
  Strings.HasSuffix line tquote = false ->
  parse_line st line
  = set_template_capture st (templateLines st ++ [line])
      false false (inDoubleQuotedTemplate st).
Proof.
  intros H1 H2 H3 H4. rewrite template_terminator_line by assumption.
  unfold Strings.TrimSuffix. rewrite H4.
  destruct line; [discriminate H3 | reflexivity].
Qed.

(** C3: the parser returns a parsed value and the nil error on every input
    text.  Where no line starts a TEMPLATE, SYSTEM or PARAMETER directive
    the corresponding field is empty, and an unterminated template yields
    the lines captured up to the end of the text. *)
Theorem C3_parse_never_fails :
  (forall content : string,
      exists parsed, ParseOllamaModelfile content = (parsed, None))
  /\ (forall content : string,
         let lines := Strings.Split content "010" in
         let p := fst (ParseOllamaModelfile content) in
         (Forall (fun l => Strings.HasPrefix (Strings.TrimSpace l) "TEMPLATE" = false) lines ->
          Template p = "")
         /\ (Forall (fun l => Strings.HasPrefix (Strings.TrimSpace l) "SYSTEM" = false) lines ->
             System p = "")
         /\ (Forall (fun l => Strings.HasPrefix (Strings.TrimSpace l) "PARAMETER " = false) lines ->
             Parameters p = ∅))
  /\ ParseOllamaModelfile unterminated_modelfile
     = ({| Template := "Hello" +:+ newline +:+ "World" +:+ newline +:+ "PARAMETER stop x";
           System := ""; Parameters := ∅ |}, None).
Proof.
  split; [| split].
  - intros content. rewrite ParseOllamaModelfile_unfold. eauto.
  - intros content lines p. subst lines p.
    rewrite ParseOllamaModelfile_unfold. simpl fst.
    rewrite finish_Template, finish_System, finish_Parameters.
    split; [| split]; intros HF.
    + destruct (parse_lines_no_template _ initial_state HF eq_refl) as [-> ->].
      reflexivity.
    + destruct (parse_lines_no_system _ initial_state HF eq_refl) as [-> ->].
      reflexivity.
    + now rewrite parse_lines_no_parameter.
  - vm_compute. reflexivity.
Qed.

Lemma C3_parse_never_fails_witness :
  let content := "FROM llama3" +:+ newline +:+ "# no directive here" in
  let p := fst (ParseOllamaModelfile content) in
  Template p = "" /\ System p = "" /\ Parameters p = ∅.
Proof.
  intros content p.
  destruct C3_parse_never_fails as (_ & Habsent & _).
  destruct (Habsent content) as (Ht & Hs & Hp).
  split; [| split].
  - apply Ht. vm_compute Strings.Split.
    repeat (constructor; [vm_compute; reflexivity |]). constructor.
  - apply Hs. vm_compute Strings.Split.
    repeat (constructor; [vm_compute; reflexivity |]). constructor.
  - apply Hp. vm_compute Strings.Split.
    repeat (constructor; [vm_compute; reflexivity |]). constructor.
Defined.

(** ** The terminator line of a capture *)

(** C9: on a terminated triple-quoted template whose closing line carries a
    blank after the terminator, the parser recognises the terminator on the
    trimmed line, leaves the capture, and appends the line with its three
    quote characters and the blank: the captured template ends with the
    delimiter.  Without the blank the delimiter is removed.  The same
    happens in the double-quoted capture and in the system captures. *)
Theorem C9_terminator_kept_after_trailing_space :
  Template (fst (ParseOllamaModelfile trailing_space_modelfile))
  = "Hello" +:+ newline +:+ "World" +:+ tquote +:+ " "
  /\ idle (parse_lines initial_state (Strings.Split trailing_space_modelfile "010"))
  /\ Strings.Contains (Template (fst (ParseOllamaModelfile trailing_space_modelfile)))
       tquote = true
  /\ Template (fst (ParseOllamaModelfile clean_modelfile))
     = "Hello" +:+ newline +:+ "World"
  /\ System (fst (ParseOllamaModelfile
                    ("SYSTEM " +:+ dquote +:+ "Be" +:+ newline +:+ "brief" +:+ dquote +:+ " ")))
     = "Be" +:+ newline +:+ "brief" +:+ dquote +:+ " ".
Proof. vm_compute. repeat split. Qed.

(** ** The template translator: no rule matches translated text *)


Lemma skip_spaces_app (r x : string) :
  skip_spaces r <> "" -> skip_spaces (r +:+ x) = skip_spaces r +:+ x.
Proof.
  induction r as [|a r IH]; simpl; intros H; [congruence |].
  destruct (is_space a); [now apply IH | reflexivity].
Qed.

Lemma dead_sound (re : regexp) (r x : string) :
  dead re r = true -> match_here re (r +:+ x) = None.
Proof.
  revert r. induction re as [|[c| |] re IH]; intros r H; simpl in H.
  - discriminate.
  - destruct r as [|a r]; [discriminate |]. simpl.
    destruct (Ascii.eqb a c); [now apply IH | reflexivity].
  - simpl. destruct (skip_spaces r) as [|a r'] eqn:E; [discriminate |].
    rewrite skip_spaces_app by (rewrite E; discriminate).
    rewrite E. now apply IH.
  - destruct r as [|a r]; [discriminate |]. simpl.
    destruct (is_space a); [| reflexivity].
    destruct (skip_spaces r) as [|b r'] eqn:E; [discriminate |].
    rewrite skip_spaces_app by (rewrite E; discriminate).
    rewrite E. now apply IH.
Qed.

(** *** The matcher against the language of the expressions *)

Lemma skip_spaces_split (s : string) :
  exists ws, s = ws +:+ skip_spaces s /\ all_spaces ws = true.
Proof.
  induction s as [|a s (ws & E & H)]; simpl.
  - now exists "".
  - destruct (is_space a) eqn:Ea.
    + exists (String a ws). simpl. rewrite Ea, H. split; [now f_equal | reflexivity].
    + now exists "".
Qed.

Lemma skip_spaces_run (ws : string) (c : ascii) (x : string) :
  all_spaces ws = true -> is_space c = false ->
  skip_spaces (ws +:+ String c x) = String c x.
Proof.
  intros Hws Hc. induction ws as [|a ws IH]; simpl in *.
  - now rewrite Hc.
  - apply andb_prop in Hws as [-> Hws]. now apply IH.
Qed.

Lemma match_here_sound (re : regexp) (s rest : string) :
  match_here re s = Some rest -> exists m, s = m +:+ rest /\ matches re m.
Proof.
  revert s. induction re as [|[c| |] re IH]; intros s H; simpl in H.
  - injection H as <-. exists "". split; [reflexivity | constructor].
  - destruct s as [|a s]; [discriminate |].
    destruct (Ascii.eqb a c) eqn:E; [| discriminate].
    apply Ascii.eqb_eq in E. subst a.
    destruct (IH s H) as (m & -> & Hm).
    exists (String c m). split; [reflexivity | now constructor].
  - destruct (IH _ H) as (m & E & Hm).
    destruct (skip_spaces_split s) as (ws & Es & Hws).
    exists (ws +:+ m). split; [| now constructor].
    rewrite string_app_assoc, <- E. exact Es.
  - destruct s as [|a s]; [discriminate |].
    destruct (is_space a) eqn:Ea; [| discriminate].
    destruct (IH _ H) as (m & E & Hm).
    destruct (skip_spaces_split s) as (ws & Es & Hws).
    exists (String a (ws +:+ m)). split; [| now constructor].
    simpl. f_equal. rewrite string_app_assoc, <- E. exact Es.
Qed.

Lemma match_here_complete (re : regexp) (m rest : string) :
  unambiguous re = true -> matches re m ->
  match_here re (m +:+ rest) = Some rest.
Proof.
  intros Hu Hm. induction Hm as [|c re m Hm IH|re ws m Hws Hm IH|re a ws m Ha Hws Hm IH].
  - reflexivity.
  - simpl. rewrite Ascii.eqb_refl. now apply IH.
  - simpl in Hu. destruct re as [|[c| |] re']; try discriminate.
    apply andb_prop in Hu as [Hc Hu]. apply negb_true_iff in Hc.
    inversion Hm; subst.
    cbn [match_here]. rewrite string_app_assoc.
    change (String c m0 +:+ rest) with (String c (m0 +:+ rest)).
    rewrite skip_spaces_run by assumption.
    apply (IH Hu).
  - simpl in Hu. destruct re as [|[c| |] re']; try discriminate.
    apply andb_prop in Hu as [Hc Hu]. apply negb_true_iff in Hc.
    inversion Hm; subst.
    change (String a (ws +:+ String c m0) +:+ rest)
      with (String a ((ws +:+ String c m0) +:+ rest)).
    cbn [match_here]. rewrite Ha, string_app_assoc.
    change (String c m0 +:+ rest) with (String c (m0 +:+ rest)).
    rewrite skip_spaces_run by assumption.
    apply (IH Hu).
Qed.

(** The matcher decides the language: it finds the match anchored at the
    start of the text, which is unique. *)
Lemma match_here_spec (re : regexp) (s rest : string) :
  unambiguous re = true ->
  match_here re s = Some rest <-> exists m, s = m +:+ rest /\ matches re m.
Proof.
  intros Hu. split; [apply match_here_sound |].
  intros (m & -> & Hm). now apply match_here_complete.
Qed.

Lemma compiled_unambiguous :
  Forall (fun re => unambiguous re = true)
    [reIfSystem; reIfPrompt; reEnd; reSystem; rePrompt; reResponse].
Proof. repeat constructor. Qed.

(** A match leaves a suffix of the text, a proper one when the expression
    starts with a literal. *)
Lemma skip_spaces_length (s : string) :
  String.length (skip_spaces s) <= String.length s.
Proof.
  induction s as [|a s IH]; simpl; [lia |].
  destruct (is_space a); simpl; lia.
Qed.

Lemma match_here_length (re : regexp) (s rest : string) :
  match_here re s = Some rest -> String.length rest <= String.length s.
Proof.
  revert s. induction re as [|[c| |] re IH]; intros s H; simpl in H.
  - injection H as <-. lia.
  - destruct s as [|a s]; [discriminate |].
    destruct (Ascii.eqb a c); [| discriminate].
    apply IH in H. simpl. lia.
  - apply IH in H. pose proof (skip_spaces_length s). lia.
  - destruct s as [|a s]; [discriminate |].
    destruct (is_space a); [| discriminate].
    apply IH in H. pose proof (skip_spaces_length s). simpl. lia.
Qed.

Lemma match_here_consumes (re : regexp) (a : ascii) (s rest : string) :
  starts_with_literal re ->
  match_here re (String a s) = Some rest ->
  String.length rest <= String.length s.
Proof.
  intros (c & re' & -> & _) H. simpl in H.
  destruct (Ascii.eqb a c); [| discriminate].
  now apply match_here_length in H.
Qed.

Lemma match_here_space (re : regexp) (a : ascii) (s : string) :
  starts_with_literal re -> is_space a = true ->
  match_here re (String a s) = None.
Proof.
  intros (c & re' & -> & Hc) Ha. simpl.
  destruct (Ascii.eqb a c) eqn:E; [| reflexivity].
  apply Ascii.eqb_eq in E. congruence.
Qed.

Lemma has_match_here (re : regexp) (s : string) :
  match_here re s <> None -> has_match re s = true.
Proof.
  intros H. destruct s; simpl; destruct (match_here re _); congruence.
Qed.

Lemma has_match_tail (re : regexp) (a : ascii) (s : string) :
  has_match re s = true -> has_match re (String a s) = true.
Proof. intros H. simpl. destruct (match_here re (String a s)); auto. Qed.

(** A match in what a match of another expression left is a match in the
    text. *)
Lemma has_match_rest (q re : regexp) (s rest : string) :
  match_here re s = Some rest ->
  has_match q rest = true -> has_match q s = true.
Proof.
  revert s. induction re as [|[c| |] re IH]; intros s H Hq; simpl in H.
  - now injection H as <-.
  - destruct s as [|a s]; [discriminate |].
    destruct (Ascii.eqb a c); [| discriminate].
    apply has_match_tail. now apply IH.
  - assert (Hs : has_match q (skip_spaces s) = true) by now apply IH.
    clear - Hs. induction s as [|a s IHs]; simpl in Hs; [exact Hs |].
    destruct (is_space a); [apply has_match_tail; now apply IHs | exact Hs].
  - destruct s as [|a s]; [discriminate |].
    destruct (is_space a); [| discriminate].
    assert (Hs : has_match q (skip_spaces s) = true) by now apply IH.
    apply has_match_tail.
    clear - Hs. induction s as [|b s IHs]; simpl in Hs; [exact Hs |].
    destruct (is_space b); [apply has_match_tail; now apply IHs | exact Hs].
Qed.


Section ReplaceAll.

(** One rewrite rule: the expression [p] replaced by [r]. *)
Variable p : regexp.
Variable r : string.
Hypothesis p_literal : starts_with_literal p.

Lemma replace_from_empty (n : nat) : replace_from n p "" r = "".
Proof. destruct n; reflexivity. Qed.

Lemma replace_from_step (n : nat) (a : ascii) (s : string) :
  replace_from (S n) p (String a s) r
  = match match_here p (String a s) with
    | Some rest => r +:+ replace_from n p rest r
    | None => String a (replace_from n p s r)
    end.
Proof. reflexivity. Qed.

Lemma replace_from_space (n : nat) (a : ascii) (s : string) :
  is_space a = true ->
  replace_from (S n) p (String a s) r = String a (replace_from n p s r).
Proof.
  intros Ha. rewrite replace_from_step.
  now rewrite (match_here_space p a s p_literal Ha).
Qed.

(** The fuel does not matter once it covers the length of the text. *)
Lemma replace_from_fuel (n m : nat) (s : string) :
  String.length s <= n -> String.length s <= m ->
  replace_from n p s r = replace_from m p s r.
Proof.
  revert m s. induction n as [|n IH]; intros m s Hn Hm.
  - destruct s; [| simpl in Hn; lia]. now rewrite !replace_from_empty.
  - destruct s as [|a s]; [now rewrite !replace_from_empty |].
    destruct m as [|m]; [simpl in Hm; lia |].
    rewrite !replace_from_step. simpl in Hn, Hm.
    destruct (match_here p (String a s)) as [rest|] eqn:E.
    + apply (match_here_consumes p a s rest p_literal) in E.
      f_equal. apply IH; lia.
    + f_equal. apply IH; lia.
Qed.

(** The unfolding of [ReplaceAllString]. *)
Lemma ReplaceAllString_step (a : ascii) (s : string) :
  ReplaceAllString p (String a s) r
  = match match_here p (String a s) with
    | Some rest => r +:+ ReplaceAllString p rest r
    | None => String a (ReplaceAllString p s r)
    end.
Proof.
  unfold ReplaceAllString. simpl String.length. rewrite replace_from_step.
  destruct (match_here p (String a s)) as [rest|] eqn:E; [| reflexivity].
  f_equal. apply replace_from_fuel; [| lia].
  now apply (match_here_consumes p a s rest p_literal).
Qed.

(** A text without a match is left as it is. *)
Lemma replace_from_no_match (n : nat) (s : string) :
  has_match p s = false -> replace_from n p s r = s.
Proof.
  revert s. induction n as [|n IH]; intros s H; [reflexivity |].
  destruct s as [|a s]; [reflexivity |].
  rewrite replace_from_step. simpl in H.
  destruct (match_here p (String a s)); [discriminate |].
  f_equal. now apply IH.
Qed.

Section Observer.

(** An expression [q] whose matcher, in any of its states, fails on the
    replacement text. *)
Variable q : regexp.
Hypothesis q_dead : all_dead q r = true.
Hypothesis q_inner : inner_dead q r = true.

(** Inside a run of spaces: the matcher of the remaining items [re] sees
    the same thing after the run in the rewritten text as in the text. *)
Lemma walk_spaces (re : regexp) :
  dead (Spaces0 :: re) r = true ->
  (forall n u, String.length u <= n ->
               match_here re (replace_from n p u r) <> None ->
               match_here re u <> None) ->
  forall n u, String.length u <= n ->
              match_here re (skip_spaces (replace_from n p u r)) <> None ->
              match_here re (skip_spaces u) <> None.
Proof.
  intros Hdead Hre n. induction n as [|n IH]; intros u Hn H.
  - destruct u; [| simpl in Hn; lia]. exact H.
  - destruct u as [|a u]; [exact H |]. simpl in Hn.
    destruct (is_space a) eqn:Ea.
    + rewrite replace_from_space in H by assumption.
      simpl in H |- *. rewrite Ea in H |- *. apply IH; [lia | exact H].
    + simpl skip_spaces. rewrite Ea.
      rewrite replace_from_step in H.
      destruct (match_here p (String a u)) as [rest|] eqn:E.
      * exfalso. apply H.
        apply (dead_sound (Spaces0 :: re) r (replace_from n p rest r) Hdead).
      * simpl in H. rewrite Ea in H.
        apply (Hre (S n) (String a u)); [simpl; lia |].
        rewrite replace_from_step, E. exact H.
Qed.

(** The matcher of [q], resumed at any item, that succeeds on the rewritten
    text succeeds on the text: it cannot enter a replacement. *)
Lemma walk (re : regexp) :
  all_dead re r = true ->
  forall n u, String.length u <= n ->
              match_here re (replace_from n p u r) <> None ->
              match_here re u <> None.
Proof.
  induction re as [|[c| |] re IH]; intros Hd n u Hn H.
  - simpl. discriminate.
  - simpl in Hd. apply andb_prop in Hd as [Hd1 Hd2].
    destruct u as [|a u]; [now rewrite replace_from_empty in H |].
    destruct n as [|n]; [simpl in Hn; lia |]. simpl in Hn.
    rewrite replace_from_step in H.
    destruct (match_here p (String a u)) as [rest|] eqn:E.
    + exfalso. apply H. now apply dead_sound.
    + simpl in H |- *. destruct (Ascii.eqb a c); [| exact H].
      apply (IH Hd2 n u); [lia | exact H].
  - simpl in Hd. apply andb_prop in Hd as [Hd1 Hd2].
    change (match_here (Spaces0 :: re) u)
      with (match_here re (skip_spaces u)).
    apply (walk_spaces re Hd1 (IH Hd2) n u Hn). exact H.
  - simpl in Hd. apply andb_prop in Hd as [Hd Hd3].
    apply andb_prop in Hd as [Hd1 Hd2].
    destruct u as [|a u]; [now rewrite replace_from_empty in H |].
    destruct n as [|n]; [simpl in Hn; lia |]. simpl in Hn.
    rewrite replace_from_step in H.
    destruct (match_here p (String a u)) as [rest|] eqn:E.
    + exfalso. apply H. now apply dead_sound.
    + simpl in H |- *. destruct (is_space a); [| exact H].
      apply (walk_spaces re Hd2 (IH Hd3) n u); [lia | exact H].
Qed.

(** No match of [q] starts inside a replacement. *)
Lemma has_match_replacement (r' x : string) :
  inner_dead q r' = true -> has_match q (r' +:+ x) = has_match q x.
Proof.
  induction r' as [|a r' IH]; intros H; [reflexivity |].
  simpl in H. apply andb_prop in H as [H1 H2].
  change (String a r' +:+ x) with (String a (r' +:+ x)).
  cbn [has_match].
  change (String a (r' +:+ x)) with (String a r' +:+ x).
  rewrite (dead_sound q (String a r') x H1). now apply IH.
Qed.

(** Rewriting creates no match of [q]. *)
Lemma no_new_match (n : nat) (s : string) :
  String.length s <= n ->
  has_match q (replace_from n p s r) = true -> has_match q s = true.
Proof.
  revert s. induction n as [|n IH]; intros s Hn H; [exact H |].
  destruct s as [|a s]; [exact H |]. simpl in Hn.
  destruct (match_here q (replace_from (S n) p (String a s) r)) eqn:Eq.
  - apply has_match_here.
    apply (walk q q_dead (S n) (String a s)); [simpl; lia | congruence].
  - rewrite replace_from_step in H, Eq.
    destruct (match_here p (String a s)) as [rest|] eqn:E.
    + rewrite has_match_replacement in H by assumption.
      apply (has_match_rest q p (String a s) rest E).
      apply IH; [| exact H].
      apply (match_here_consumes p a s rest p_literal) in E. lia.
    + cbn [has_match] in H. rewrite Eq in H.
      apply has_match_tail. apply IH; [lia | exact H].
Qed.

End Observer.

(** After the rewriting no match of [p] itself is left. *)
Lemma all_replaced (n : nat) (s : string) :
  all_dead p r = true -> inner_dead p r = true ->
  String.length s <= n ->
  has_match p (replace_from n p s r) = false.
Proof.
  intros Hd Hi. revert s. induction n as [|n IH]; intros s Hn.
  - destruct s; [| simpl in Hn; lia]. simpl.
    destruct p_literal as (c & re' & -> & _). reflexivity.
  - destruct s as [|a s].
    + simpl. destruct p_literal as (c & re' & -> & _). reflexivity.
    + simpl in Hn. rewrite replace_from_step.
      destruct (match_here p (String a s)) as [rest|] eqn:E.
      * rewrite (has_match_replacement p) by assumption.
        apply IH. apply (match_here_consumes p a s rest p_literal) in E. lia.
      * cbn [has_match].
        destruct (match_here p (String a (replace_from n p s r))) eqn:Eq.
        -- exfalso.
           apply (walk p Hd (S n) (String a s)); [simpl; lia | | exact E].
           rewrite replace_from_step, E. congruence.
        -- apply IH. lia.
Qed.

End ReplaceAll.

Lemma convertGoTemplateToJinja_rules (s : string) :
  convertGoTemplateToJinja s = apply_rules rules s.
Proof.
  cbv [convertGoTemplateToJinja apply_rules rules apply_rule fold_left fst snd].
  reflexivity.
Qed.

Lemma starts_lit_literal (re : regexp) :
  starts_lit re = true -> starts_with_literal re.
Proof.
  destruct re as [|[c| |] re]; try discriminate. simpl. intros H.
  exists c, re. split; [reflexivity |]. now destruct (is_space c).
Qed.

Lemma rule_ok_inv (q : regexp) (rule : regexp * string) :
  rule_ok q rule = true ->
  starts_with_literal (fst rule)
  /\ all_dead q (snd rule) = true /\ inner_dead q (snd rule) = true.
Proof.
  unfold rule_ok. rewrite !andb_true_iff. intros [[H1 H2] H3].
  auto using starts_lit_literal.
Qed.

(** Rules that pass the check for [q] create no match of [q]. *)
Lemma apply_rules_no_new_match (q : regexp) (rs : list (regexp * string)) (s : string) :
  forallb (rule_ok q) rs = true ->
  has_match q s = false ->
  has_match q (apply_rules rs s) = false.
Proof.
  revert s. induction rs as [|rule rs IH]; intros s Hok Hs; [exact Hs |].
  simpl in Hok. apply andb_prop in Hok as [Hrule Hrs].
  apply rule_ok_inv in Hrule as (Hl & Hd & Hi).
  simpl. apply IH; [exact Hrs |].
  destruct (has_match q (apply_rule s rule)) eqn:E; [| reflexivity].
  apply (no_new_match (fst rule) (snd rule) Hl q Hd Hi) in E; [congruence | lia].
Qed.

(** After the rules have run, none of their expressions matches. *)
Lemma apply_rules_all_replaced (rs : list (regexp * string)) (s : string)
    (rule : regexp * string) :
  rules_ok rs = true -> In rule rs ->
  has_match (fst rule) (apply_rules rs s) = false.
Proof.
  intros Hok Hin.
  assert (Hq : forallb (rule_ok (fst rule)) rs = true).
  { unfold rules_ok in Hok. rewrite forallb_forall in Hok. now apply Hok. }
  destruct (in_split _ _ Hin) as (rs1 & rs2 & ->).
  unfold apply_rules. rewrite fold_left_app. simpl.
  rewrite forallb_app in Hq. apply andb_prop in Hq as [_ Hq].
  simpl in Hq. apply andb_prop in Hq as [Hrule Hrs2].
  apply apply_rules_no_new_match; [exact Hrs2 |].
  apply rule_ok_inv in Hrule as (Hl & Hd & Hi).
  apply all_replaced; auto.
Qed.

(** Rules whose expressions do not match leave the text as it is. *)
Lemma apply_rules_no_match (rs : list (regexp * string)) (s : string) :
  (forall rule, In rule rs -> has_match (fst rule) s = false) ->
  apply_rules rs s = s.
Proof.
  induction rs as [|rule rs IH]; intros H; [reflexivity |].
  change (apply_rules (rule :: rs) s) with (apply_rules rs (apply_rule s rule)).
  assert (E : apply_rule s rule = s).
  { unfold apply_rule, ReplaceAllString.
    apply replace_from_no_match. apply H. now left. }
  rewrite E. apply IH. intros rule' Hin. apply H. now right.
Qed.

Lemma rules_checked : rules_ok rules = true.
Proof. vm_compute. reflexivity. Qed.

(** C4: the translator is idempotent.  In the text it returns, none of the
    six expressions has a match, so a second application rewrites
    nothing. *)
Theorem C4_translator_idempotent (s : string) :
  convertGoTemplateToJinja (convertGoTemplateToJinja s)
  = convertGoTemplateToJinja s
  /\ Forall (fun re => has_match re (convertGoTemplateToJinja s) = false)
       [reIfSystem; reIfPrompt; reEnd; reSystem; rePrompt; reResponse].
Proof.
  assert (H : forall rule, In rule rules ->
                has_match (fst rule) (convertGoTemplateToJinja s) = false).
  { intros rule Hin. rewrite convertGoTemplateToJinja_rules.
    apply apply_rules_all_replaced; [exact rules_checked | exact Hin]. }
  split.
  - rewrite (convertGoTemplateToJinja_rules (convertGoTemplateToJinja s)).
    now apply apply_rules_no_match.
  - assert (E : map fst rules
                = [reIfSystem; reIfPrompt; reEnd; reSystem; rePrompt; reResponse])
      by (cbv [rules map fst]; reflexivity).
    rewrite <- E. apply Forall_map, Forall_forall.
    intros rule Hin. apply H. now apply list_elem_of_In.
Qed.

(* ===================================================================== *)
(** * Part V: further properties of the code                              *)
(* ===================================================================== *)

(** ** White space around visible bytes *)

Lemma rev_app_spec (s acc : string) :
  String.rev_app s acc = String.rev s +:+ acc.
Proof.
  unfold String.rev. revert acc. induction s as [|a s IH]; intros acc; simpl.
  - reflexivity.
  - rewrite (IH (String a acc)), (IH (String a "")).
    now rewrite string_app_assoc.
Qed.

Lemma rev_cons (a : ascii) (s : string) :
  String.rev (String a s) = String.rev s +:+ String a "".
Proof. unfold String.rev at 1. simpl. apply rev_app_spec. Qed.

Lemma rev_snoc (s : string) (a : ascii) :
  String.rev (s +:+ String a "") = String a (String.rev s).
Proof.
  induction s as [|b s IH]; [reflexivity |].
  change (String b s +:+ String a "") with (String b (s +:+ String a "")).
  now rewrite !rev_cons, IH.
Qed.

Lemma rev_involutive (s : string) : String.rev (String.rev s) = s.
Proof.
  induction s as [|a s IH]; [reflexivity |].
  now rewrite rev_cons, rev_snoc, IH.
Qed.

Lemma visible_not_space (c : ascii) :
  visible c = true -> Strings.asciiSpace c = false.
Proof.
  unfold visible. rewrite andb_true_iff, negb_true_iff. tauto.
Qed.

Lemma visible_ascii (c k : ascii) :
  visible c = true -> 128 <= nat_of_ascii k -> Ascii.eqb c k = false.
Proof.
  unfold visible. rewrite andb_true_iff, Nat.ltb_lt. intros [Hc _] Hk.
  destruct (Ascii.eqb c k) eqn:E; [| reflexivity].
  apply Ascii.eqb_eq in E. subst. lia.
Qed.

Lemma visible_space2_l (c b : ascii) :
  visible c = true -> Strings.space2 c b = false.
Proof.
  intros H. unfold Strings.space2.
  rewrite (visible_ascii c "194" H) by (apply Nat.leb_le; reflexivity). reflexivity.
Qed.

Lemma visible_space2_r (c b : ascii) :
  visible c = true -> Strings.space2 b c = false.
Proof.
  intros H. unfold Strings.space2.
  rewrite (visible_ascii c "133" H), (visible_ascii c "160" H) by (apply Nat.leb_le; reflexivity).
  apply andb_false_r.
Qed.

Lemma visible_space3_l (c a b : ascii) :
  visible c = true -> Strings.space3 c a b = false.
Proof.
  intros H. unfold Strings.space3.
  rewrite (visible_ascii c "225" H), (visible_ascii c "226" H),
    (visible_ascii c "227" H) by (apply Nat.leb_le; reflexivity).
  reflexivity.
Qed.

Lemma visible_space3_r (c a b : ascii) :
  visible c = true -> Strings.space3 a b c = false.
Proof.
  intros H. unfold Strings.space3.
  rewrite (visible_ascii c "128" H), (visible_ascii c "168" H),
    (visible_ascii c "169" H), (visible_ascii c "175" H),
    (visible_ascii c "159" H) by (apply Nat.leb_le; reflexivity).
  assert (Hlt : (128 <=? nat_of_ascii c) = false).
  { apply Nat.leb_gt. unfold visible in H.
    apply andb_prop in H as [H _]. now apply Nat.ltb_lt in H. }
  rewrite Hlt. cbn [andb orb]. now rewrite !andb_false_r.
Qed.

Lemma trimSpaceFrom_visible (back : bool) (c : ascii) (s : string) :
  visible c = true ->
  Strings.trimSpaceFrom back (String c s) = String c s.
Proof.
  intros H. cbn [Strings.trimSpaceFrom].
  rewrite (visible_not_space c H).
  destruct s as [|c2 [|c3 s3]]; [reflexivity | |];
    destruct back;
    rewrite ?visible_space2_l, ?visible_space2_r by assumption;
    try reflexivity;
    rewrite ?visible_space3_l, ?visible_space3_r by assumption;
    reflexivity.
Qed.

(** [strings.TrimSpace] leaves a text that starts and ends with a visible
    byte as it is. *)
Lemma TrimSpace_visible_ends (c1 c2 : ascii) (mid : string) :
  visible c1 = true -> visible c2 = true ->
  Strings.TrimSpace (String c1 (mid +:+ String c2 ""))
  = String c1 (mid +:+ String c2 "").
Proof.
  intros H1 H2. unfold Strings.TrimSpace.
  rewrite trimSpaceFrom_visible by assumption.
  change (String c1 (mid +:+ String c2 "")) with (String c1 mid +:+ String c2 "").
  rewrite rev_snoc, trimSpaceFrom_visible by assumption.
  rewrite <- rev_snoc. apply rev_involutive.
Qed.

Lemma TrimSpace_quoted (text : string) :
  Strings.TrimSpace (dquote +:+ text +:+ dquote) = dquote +:+ text +:+ dquote.
Proof. apply (TrimSpace_visible_ends "034" "034" text); reflexivity. Qed.

(** ** Single-line directives *)

(** X1: a line that reads TEMPLATE followed by a double-quoted text, met
    when no template capture is active (a system capture may be), stores
    exactly the text between the quotes as the template and changes nothing
    else, provided the quoted part holds no three consecutive quotes. *)
Theorem single_line_template (st : ParserState) (line text : string) :
  inTemplate st = false ->
  Strings.TrimSpace line = "TEMPLATE " +:+ dquote +:+ text +:+ dquote ->
  Strings.Contains (dquote +:+ text +:+ dquote) tquote = false ->
  parse_line st line = set_parsed st (set_Template (parsed st) text).
Proof.
  intros Hin Hl Hc. unfold parse_line. cbv zeta. rewrite Hl, Hin.
  set (trimmed := "TEMPLATE " +:+ dquote +:+ text +:+ dquote).
  assert (F1 : Strings.HasPrefix trimmed "TEMPLATE" = true) by reflexivity.
  assert (F2 : Strings.Contains trimmed tquote = false).
  { unfold trimmed. exact Hc. }
  assert (F3 : Strings.HasPrefix trimmed ("TEMPLATE " +:+ dquote) = true)
    by reflexivity.
  assert (F4 : Strings.TrimPrefix trimmed "TEMPLATE " = dquote +:+ text +:+ dquote)
    by reflexivity.
  rewrite F1, F2, F3, F4, TrimSpace_quoted.
  assert (F6 : Strings.TrimPrefix (dquote +:+ text +:+ dquote) dquote
               = text +:+ dquote) by reflexivity.
  rewrite F6.
  assert (F7 : Strings.HasSuffix (text +:+ dquote) dquote = true)
    by (apply HasSuffix_spec; eauto).
  rewrite F7, TrimSuffix_app. reflexivity.
Qed.

Lemma single_line_template_witness :
  parse_line initial_state ("  TEMPLATE " +:+ dquote +:+ "{{ .Prompt }}" +:+ dquote)
  = set_parsed initial_state (set_Template (parsed initial_state) "{{ .Prompt }}").
Proof.
  apply (single_line_template initial_state _ "{{ .Prompt }}");
    vm_compute; reflexivity.
Defined.

(** X2: a line that reads SYSTEM followed by a double-quoted text, met in
    the idle state, stores exactly the text between the quotes as the
    system string and changes nothing else, provided the quoted part holds
    no three consecutive quotes. *)
Theorem single_line_system (st : ParserState) (line text : string) :
  idle st ->
  Strings.TrimSpace line = "SYSTEM " +:+ dquote +:+ text +:+ dquote ->
  Strings.Contains (dquote +:+ text +:+ dquote) tquote = false ->
  parse_line st line = set_parsed st (set_System (parsed st) text).
Proof.
  intros [Hin Hsys] Hl Hc. unfold parse_line. cbv zeta. rewrite Hl, Hin, Hsys.
  set (trimmed := "SYSTEM " +:+ dquote +:+ text +:+ dquote).
  assert (F0 : Strings.HasPrefix trimmed "TEMPLATE" = false) by reflexivity.
  assert (F1 : Strings.HasPrefix trimmed "SYSTEM" = true) by reflexivity.
  assert (F2 : Strings.Contains trimmed tquote = false).
  { unfold trimmed. exact Hc. }
  assert (F3 : Strings.HasPrefix trimmed ("SYSTEM " +:+ dquote) = true)
    by reflexivity.
  assert (F4 : Strings.TrimPrefix trimmed "SYSTEM " = dquote +:+ text +:+ dquote)
    by reflexivity.
  rewrite F0, F1, F2, F3, F4, TrimSpace_quoted.
  assert (F6 : Strings.TrimPrefix (dquote +:+ text +:+ dquote) dquote
               = text +:+ dquote) by reflexivity.
  rewrite F6.
  assert (F7 : Strings.HasSuffix (text +:+ dquote) dquote = true)
    by (apply HasSuffix_spec; eauto).
  rewrite F7, TrimSuffix_app. reflexivity.
Qed.

Lemma single_line_system_witness :
  parse_line initial_state ("SYSTEM " +:+ dquote +:+ "You are helpful." +:+ dquote)
  = set_parsed initial_state (set_System (parsed initial_state) "You are helpful.").
Proof.
  apply (single_line_system initial_state _ "You are helpful.");
    [split; reflexivity | vm_compute; reflexivity | vm_compute; reflexivity].
Defined.

(** ** The opening line of a triple-quoted template *)

(** X3: on a line that reads TEMPLATE followed by three quotes and a
    non-empty rest, met when no template capture is active, the rest is the
    first captured line and the capture is open afterwards; this is so also
    when the rest ends with three quotes: a triple-quoted template written
    on one line is not closed on that line, and its closing quotes are part
    of the captured text. *)
Theorem triple_quoted_opening_line (st : ParserState) (line rest : string) :
  inTemplate st = false ->
  Strings.TrimSpace line = "TEMPLATE " +:+ tquote +:+ rest ->
  Strings.TrimSpace (tquote +:+ rest) = tquote +:+ rest ->
  rest <> "" ->
  parse_line st line
  = set_template_capture st (templateLines st ++ [rest]) true true
      (inDoubleQuotedTemplate st).
Proof.
  intros Hin Hl Ht Hne. unfold parse_line. cbv zeta. rewrite Hl, Hin.
  set (trimmed := "TEMPLATE " +:+ tquote +:+ rest).
  assert (F1 : Strings.HasPrefix trimmed "TEMPLATE" = true) by reflexivity.
  assert (F2 : Strings.Contains trimmed tquote = true).
  { apply Contains_spec. exists "TEMPLATE ", rest. reflexivity. }
  assert (F4 : Strings.TrimPrefix trimmed "TEMPLATE " = tquote +:+ rest)
    by reflexivity.
  rewrite F1, F2, F4, Ht.
  assert (F5 : Strings.HasPrefix (tquote +:+ rest) tquote = true) by reflexivity.
  assert (F6 : Strings.TrimPrefix (tquote +:+ rest) tquote = rest) by reflexivity.
  rewrite F5, F6. unfold append_nonempty.
  apply is_empty_false in Hne. rewrite Hne. reflexivity.
Qed.

Lemma triple_quoted_opening_line_witness :
  parse_line initial_state ("TEMPLATE " +:+ tquote +:+ "{{ .Prompt }}" +:+ tquote)
  = set_template_capture initial_state ["{{ .Prompt }}" +:+ tquote] true true false.
Proof.
  apply (triple_quoted_opening_line initial_state _ ("{{ .Prompt }}" +:+ tquote));
    [reflexivity | vm_compute; reflexivity | vm_compute; reflexivity | discriminate].
Defined.

(** ** Lines inside a capture *)

(** X4: while a template capture is active, no line is read as a
    directive: whatever the line is (a SYSTEM or PARAMETER directive, a new
    TEMPLATE directive), the parsed value, the captured system lines and the
    state of the system capture stay as they are, and the captured template
    lines only grow by at most that line. *)
Theorem template_capture_swallows (st : ParserState) (line : string) :
  inTemplate st = true ->
  let st' := parse_line st line in
  parsed st' = parsed st
  /\ systemLines st' = systemLines st
  /\ inSystem st' = inSystem st
  /\ inMultilineSystem st' = inMultilineSystem st
  /\ inDoubleQuotedSystem st' = inDoubleQuotedSystem st
  /\ exists kept, templateLines st' = templateLines st ++ kept
                  /\ (kept = [] \/ exists l, kept = [l]).
Proof.
  intros Hin st'. subst st'. unfold parse_line. cbv zeta.
  rewrite Hin, andb_false_r.
  assert (Hap : forall l, exists kept,
             append_nonempty (templateLines st) l = templateLines st ++ kept
             /\ (kept = [] \/ exists l', kept = [l'])).
  { intros l. unfold append_nonempty. destruct (is_empty l).
    - exists []. rewrite app_nil_r. auto.
    - exists [l]. eauto. }
  split_ifs; simpl; repeat split; try reflexivity; eauto.
Qed.

Lemma template_capture_swallows_witness :
  let st := parse_line initial_state ("TEMPLATE " +:+ tquote +:+ "Hello") in
  parsed (parse_line st "PARAMETER stop x") = parsed st
  /\ templateLines (parse_line st "PARAMETER stop x") = ["Hello"; "PARAMETER stop x"].
Proof.
  intros st.
  destruct (template_capture_swallows st "PARAMETER stop x") as (H & _);
    [reflexivity |].
  split; [exact H | vm_compute; reflexivity].
Defined.

(** X5: while a system capture is active and no template capture is, a line
    that does not start with TEMPLATE is never read as a directive: the
    parsed value (its parameters in particular) and the template capture
    stay as they are. *)
Theorem system_capture_swallows (st : ParserState) (line : string) :
  inTemplate st = false ->
  inSystem st = true ->
  Strings.HasPrefix (Strings.TrimSpace line) "TEMPLATE" = false ->
  let st' := parse_line st line in
  parsed st' = parsed st
  /\ templateLines st' = templateLines st
  /\ inTemplate st' = false
  /\ exists kept, systemLines st' = systemLines st ++ kept
                  /\ (kept = [] \/ exists l, kept = [l]).
Proof.
  intros Hin Hsys Hp st'. subst st'. unfold parse_line. cbv zeta.
  rewrite Hp, Hin, Hsys, andb_false_r. cbn [andb].
  assert (Hap : forall l, exists kept,
             append_nonempty (systemLines st) l = systemLines st ++ kept
             /\ (kept = [] \/ exists l', kept = [l'])).
  { intros l. unfold append_nonempty. destruct (is_empty l).
    - exists []. rewrite app_nil_r. auto.
    - exists [l]. eauto. }
  split_ifs; simpl; repeat split; try reflexivity; try assumption; eauto.
Qed.

Lemma system_capture_swallows_witness :
  let st := parse_line initial_state ("SYSTEM " +:+ tquote +:+ "Be brief.") in
  parsed (parse_line st "PARAMETER temperature 0.7") = parsed st.
Proof.
  intros st.
  destruct (system_capture_swallows st "PARAMETER temperature 0.7") as (H & _);
    [reflexivity | reflexivity | reflexivity |].
  exact H.
Defined.

(** ** Lines that are ignored *)

Lemma HasPrefix_Contains (s p : string) :
  Strings.HasPrefix s p = true -> Strings.Contains s p = true.
Proof. intros H. destruct s; simpl; rewrite H; reflexivity. Qed.

Lemma Contains_app_r (s a b : string) :
  Strings.Contains s (a +:+ b) = true -> Strings.Contains s b = true.
Proof.
  intros H. apply Contains_spec in H as (x & y & ->).
  apply Contains_spec. exists (x +:+ a), y.
  now rewrite !string_app_assoc.
Qed.

(** X6: in the idle state a line leaves the state as it is when it starts
    none of the three directives, when it starts with TEMPLATE or SYSTEM but
    holds no double quote (an unquoted value is dropped), and when it is a
    PARAMETER directive with a name and no value. *)
Theorem ignored_lines (st : ParserState) (line : string) :
  idle st ->
  let t := Strings.TrimSpace line in
  (Strings.HasPrefix t "TEMPLATE" = false ->
   Strings.HasPrefix t "SYSTEM" = false ->
   Strings.HasPrefix t "PARAMETER " = false ->
   parse_line st line = st)
  /\ (Strings.HasPrefix t "TEMPLATE" = true \/ Strings.HasPrefix t "SYSTEM" = true ->
      Strings.Contains t dquote = false ->
      parse_line st line = st)
  /\ (forall name,
         t = "PARAMETER " +:+ name ->
         Strings.cut name " " = (name, None) ->
         parse_line st line = st).
Proof.
  intros [Hin Hsys] t. subst t. split; [| split].
  - intros H1 H2 H3. unfold parse_line. cbv zeta.
    now rewrite H1, H2, H3, Hin, Hsys.
  - intros Hpre Hq.
    assert (Ht : Strings.Contains (Strings.TrimSpace line) tquote = false).
    { destruct (Strings.Contains (Strings.TrimSpace line) tquote) eqn:E;
        [| reflexivity].
      apply (Contains_app_r _ (dquote +:+ dquote) dquote) in E. congruence. }
    assert (Hd : forall p, Strings.HasPrefix (Strings.TrimSpace line) (p +:+ dquote)
                           = false).
    { intros p.
      destruct (Strings.HasPrefix (Strings.TrimSpace line) (p +:+ dquote)) eqn:E;
        [| reflexivity].
      apply HasPrefix_Contains, Contains_app_r in E. congruence. }
    unfold parse_line. cbv zeta. rewrite Ht, !Hd, Hin, Hsys.
    destruct Hpre as [Hp | Hp].
    + rewrite Hp. reflexivity.
    + assert (H0 : Strings.HasPrefix (Strings.TrimSpace line) "TEMPLATE" = false).
      { apply HasPrefix_inv in Hp. rewrite Hp. reflexivity. }
      rewrite H0, Hp. reflexivity.
  - intros name Hl Hname. unfold parse_line. cbv zeta. rewrite Hl, Hin, Hsys.
    set (trimmed := "PARAMETER " +:+ name).
    assert (F1 : Strings.HasPrefix trimmed "TEMPLATE" = false) by reflexivity.
    assert (F2 : Strings.HasPrefix trimmed "SYSTEM" = false) by reflexivity.
    assert (F3 : Strings.HasPrefix trimmed "PARAMETER " = true) by reflexivity.
    assert (F4 : Strings.TrimPrefix trimmed "PARAMETER " = name) by reflexivity.
    rewrite F1, F2, F3, F4. cbn [andb Strings.SplitN]. rewrite Hname. reflexivity.
Qed.

Lemma ignored_lines_witness :
  parse_line initial_state "FROM llama3" = initial_state
  /\ parse_line initial_state "TEMPLATE {{ .Prompt }}" = initial_state
  /\ parse_line initial_state "PARAMETER mirostat" = initial_state.
Proof.
  assert (Hidle : idle initial_state) by (split; reflexivity).
  split; [| split].
  - apply (proj1 (ignored_lines initial_state "FROM llama3" Hidle));
      reflexivity.
  - apply (proj1 (proj2 (ignored_lines initial_state "TEMPLATE {{ .Prompt }}" Hidle)));
      [left; reflexivity | reflexivity].
  - apply (proj2 (proj2 (ignored_lines initial_state "PARAMETER mirostat" Hidle))
             "mirostat"); reflexivity.
Defined.

(** ** Captured lines are never discarded *)

Lemma parse_line_lines_grow (st : ParserState) (line : string) :
  (exists e, templateLines (parse_line st line) = templateLines st ++ e)
  /\ (exists e, systemLines (parse_line st line) = systemLines st ++ e).
Proof.
  assert (Hap : forall ls l, exists e, append_nonempty ls l = ls ++ e).
  { intros ls l. unfold append_nonempty. destruct (is_empty l).
    - exists []. now rewrite app_nil_r.
    - now exists [l]. }
  assert (Hid : forall ls : list string, exists e, ls = ls ++ e).
  { intros ls. exists []. now rewrite app_nil_r. }
  unfold parse_line. cbv zeta.
  split_ifs; try split_parts; simpl; split; eauto.
Qed.

(** X7: the parser never discards a captured line.  Over any run of lines
    the captured template lines and the captured system lines only grow at
    the end, so the text of a second TEMPLATE block is appended to that of
    the first; and once a template line has been captured, the template
    returned is the join of all captured lines, whatever single-line
    TEMPLATE directives were read. *)
Theorem captured_lines_only_grow (lines : list string) (st : ParserState) :
  exists e1 e2,
    templateLines (parse_lines st lines) = templateLines st ++ e1
    /\ systemLines (parse_lines st lines) = systemLines st ++ e2
    /\ (templateLines st <> [] ->
        Template (finish (parse_lines st lines))
        = Strings.Join (templateLines st ++ e1) newline).
Proof.
  assert (H : exists e1 e2,
             templateLines (parse_lines st lines) = templateLines st ++ e1
             /\ systemLines (parse_lines st lines) = systemLines st ++ e2).
  { revert st. induction lines as [|line lines IH]; intros st; simpl.
    - exists [], []. now rewrite !app_nil_r.
    - destruct (IH (parse_line st line)) as (a1 & a2 & -> & ->).
      destruct (parse_line_lines_grow st line) as [[b1 ->] [b2 ->]].
      exists (b1 ++ a1), (b2 ++ a2). now rewrite !app_assoc. }
  destruct H as (e1 & e2 & H1 & H2). exists e1, e2.
  split; [exact H1 |]. split; [exact H2 |].
  intros Hne. rewrite finish_Template, H1.
  destruct (templateLines st) as [|l ls]; [congruence | reflexivity].
Qed.

Lemma captured_lines_only_grow_witness :
  let st := parse_lines initial_state
              ["TEMPLATE " +:+ tquote +:+ "A"; "B" +:+ tquote] in
  Template (finish (parse_lines st
              ["TEMPLATE " +:+ dquote +:+ "ignored" +:+ dquote;
               "TEMPLATE " +:+ tquote +:+ "C" +:+ tquote]))
  = "A" +:+ newline +:+ "B" +:+ newline +:+ "C" +:+ tquote.
Proof.
  intros st.
  destruct (captured_lines_only_grow
              ["TEMPLATE " +:+ dquote +:+ "ignored" +:+ dquote;
               "TEMPLATE " +:+ tquote +:+ "C" +:+ tquote] st)
    as (e1 & e2 & H1 & _ & H3).
  rewrite H3 by discriminate. rewrite <- H1. vm_compute. reflexivity.
Defined.

(** ** The parameter map the parser builds *)

Lemma cut_before_no_sep (s : string) (sep : ascii) (before : string)
    (after : option string) :
  Strings.cut s sep = (before, after) -> Strings.cut before sep = (before, None).
Proof.
  revert before after. induction s as [|c s IH]; intros before after H; simpl in H.
  - now injection H as <- <-.
  - destruct (Ascii.eqb c sep) eqn:E.
    + now injection H as <- <-.
    + destruct (Strings.cut s sep) as [b a] eqn:Ec. injection H as <- <-.
      simpl. rewrite E, (IH b a eq_refl). reflexivity.
Qed.

Lemma TrimLeft_head (s cutset : string) :
  Strings.TrimLeft s cutset = ""
  \/ exists a r, Strings.TrimLeft s cutset = String a r /\ mem_byte a cutset = false.
Proof.
  induction s as [|c s IH]; simpl; [now left |].
  destruct (mem_byte c cutset) eqn:E; [exact IH | right; eauto].
Qed.

Lemma TrimRight_idem (s cutset : string) :
  Strings.TrimRight (Strings.TrimRight s cutset) cutset = Strings.TrimRight s cutset.
Proof.
  induction s as [|c s IH]; [reflexivity |].
  cbn [Strings.TrimRight].
  destruct (is_empty (Strings.TrimRight s cutset) && mem_byte c cutset) eqn:E;
    [reflexivity |].
  cbn [Strings.TrimRight]. rewrite IH, E. reflexivity.
Qed.

Lemma TrimRight_head (a : ascii) (r cutset : string) :
  Strings.TrimRight (String a r) cutset = ""
  \/ exists r', Strings.TrimRight (String a r) cutset = String a r'.
Proof.
  cbn [Strings.TrimRight].
  destruct (is_empty (Strings.TrimRight r cutset) && mem_byte a cutset); eauto.
Qed.

(** [strings.Trim] returns a text that it leaves as it is. *)
Lemma Trim_idem (s cutset : string) :
  Strings.Trim (Strings.Trim s cutset) cutset = Strings.Trim s cutset.
Proof.
  unfold Strings.Trim.
  assert (H : Strings.TrimLeft (Strings.TrimRight (Strings.TrimLeft s cutset) cutset)
                cutset
              = Strings.TrimRight (Strings.TrimLeft s cutset) cutset).
  { destruct (TrimLeft_head s cutset) as [-> | (a & r & -> & Ha)]; [reflexivity |].
    destruct (TrimRight_head a r cutset) as [-> | [r' ->]]; [reflexivity |].
    simpl. now rewrite Ha. }
  rewrite H. apply TrimRight_idem.
Qed.

(** The PARAMETER branch, with what [strings.SplitN] tells of the name. *)
Lemma parse_line_parameters_key (st : ParserState) (line : string) :
  Parameters (parsed (parse_line st line)) = Parameters (parsed st)
  \/ exists key raw,
      Strings.cut key " " = (key, None)
      /\ Parameters (parsed (parse_line st line))
         = <[key := append (index (Parameters (parsed st)) key)
                      (Strings.Trim raw dquote)]> (Parameters (parsed st)).
Proof.
  unfold parse_line. cbv zeta.
  destruct (Strings.HasPrefix (Strings.TrimSpace line) "TEMPLATE"
            && negb (inTemplate st)).
  { left. split_ifs; reflexivity. }
  destruct (inTemplate st).
  { left. split_ifs; reflexivity. }
  destruct (Strings.HasPrefix (Strings.TrimSpace line) "SYSTEM"
            && negb (inSystem st)).
  { left. split_ifs; reflexivity. }
  destruct (inSystem st).
  { left. split_ifs; reflexivity. }
  destruct (Strings.HasPrefix (Strings.TrimSpace line) "PARAMETER ");
    [| now left].
  destruct (Strings.SplitN _ " " 2) as [|key [|raw [|]]] eqn:E; try now left.
  right. exists key, raw. split; [| reflexivity].
  simpl in E. destruct (Strings.cut _ " ") as [b [a|]] eqn:Ec; [| discriminate].
  injection E as <- <-. now apply cut_before_no_sep in Ec.
Qed.

Lemma parse_line_parameters_wf (st : ParserState) (line : string) :
  parameters_wf (Parameters (parsed st)) ->
  parameters_wf (Parameters (parsed (parse_line st line))).
Proof.
  intros Hwf.
  destruct (parse_line_parameters_key st line) as [-> | (key & raw & Hkey & ->)];
    [exact Hwf |].
  intros k v Hk. destruct (decide (key = k)) as [<- | Hne].
  - rewrite lookup_insert_eq in Hk. injection Hk as <-.
    split; [exact Hkey |]. unfold append, index. simpl.
    destruct (Parameters (parsed st) !! key) as [old|] eqn:Eo; simpl.
    + destruct (Hwf key old Eo) as (_ & (x & l & ->) & HF). simpl in *.
      split; [eauto |].
      change (x :: l ++ [Strings.Trim raw dquote])
        with ((x :: l) ++ [Strings.Trim raw dquote]).
      apply Forall_app. split; [exact HF |].
      constructor; [apply Trim_idem | constructor].
    + split; [eauto |]. constructor; [apply Trim_idem | constructor].
  - rewrite lookup_insert_ne in Hk by assumption. now apply Hwf.
Qed.

(** X8: in the parameter map the parser returns, on every input text, each
    name holds no blank, each value list is a non-nil slice with at least
    one value (so the mappers always find a first value), and no value
    starts or ends with a double quote. *)
Theorem parsed_parameters_wf (content : string) :
  parameters_wf (Parameters (fst (ParseOllamaModelfile content))).
Proof.
  rewrite ParseOllamaModelfile_unfold. simpl fst. rewrite finish_Parameters.
  assert (H : forall lines st,
             parameters_wf (Parameters (parsed st)) ->
             parameters_wf (Parameters (parsed (parse_lines st lines)))).
  { induction lines as [|line lines IH]; intros st Hwf; [exact Hwf |].
    simpl. apply IH. now apply parse_line_parameters_wf. }
  apply H. intros k v Hk. simpl in Hk. rewrite lookup_empty in Hk. discriminate.
Qed.

(** ** The fields of the flat document *)

Section FlatFields.

Variable ParseFloat : string -> option spec_float.

Abbreviation map_parameter := (map_parameter ParseFloat).
Abbreviation run_parameters := (run_parameters ParseFloat).
Abbreviation fields_of := (fields_of ParseFloat).
Abbreviation coerced_value := (coerced_value ParseFloat).

(** One iteration adds no field or the field of a table parameter whose
    first value coerces. *)
Lemma fields_of_cases (k : string) (vs : StringSlice) :
  fields_of (k, vs) = []
  \/ exists f value rest,
      fields_of (k, vs) = [f]
      /\ elems_of vs = value :: rest
      /\ numeric_field_key k = Some (cf_Key f)
      /\ coerced_value k value = Some (cf_Value f).
Proof.
  unfold fields_of, map_parameter, all_fields. simpl fst. simpl snd.
  destruct (String.eqb k "stop") eqn:Estop; [now left |].
  destruct (elems_of vs) as [|value rest] eqn:Evs; [now left |].
  unfold coerced_value, numeric_field_key.
  destruct (ParseFloat value) eqn:EF; destruct (Strconv.Atoi value) eqn:EA;
    string_cases; auto.
  all: right; eexists _, value, rest; repeat split; simpl;
    rewrite ?EF, ?EA; reflexivity.
Qed.

Lemma fields_of_complete (k key value : string) (vs : StringSlice)
    (rest : list string) (val : Value) :
  elems_of vs = value :: rest ->
  numeric_field_key k = Some key ->
  coerced_value k value = Some val ->
  fields_of (k, vs) = [ {| cf_Key := key; cf_Value := val |} ].
Proof.
  intros Evs Hk Hv.
  unfold fields_of, map_parameter, all_fields. simpl fst. simpl snd.
  rewrite Evs.
  unfold coerced_value in Hv. unfold numeric_field_key in Hk.
  destruct (ParseFloat value) eqn:EF; destruct (Strconv.Atoi value) eqn:EA;
    string_cases; try discriminate;
    injection Hk as <-; injection Hv as <-; reflexivity.
Qed.

Lemma all_fields_add_prediction (config : LMStudioConfig) (f : ConfigField) :
  all_fields (add_prediction_field config f) ≡ₚ all_fields config ++ [f].
Proof.
  unfold all_fields, add_prediction_field. simpl.
  rewrite <- !app_assoc. apply Permutation_app_head, Permutation_app_comm.
Qed.

Lemma all_fields_add_load (config : LMStudioConfig) (f : ConfigField) :
  all_fields (add_load_field config f) = all_fields config ++ [f].
Proof. unfold all_fields, add_load_field. simpl. now rewrite app_assoc. Qed.

Lemma map_parameter_perm (config : LMStudioConfig) (k : string) (vs : StringSlice) :
  all_fields (map_parameter config k vs) ≡ₚ all_fields config ++ fields_of (k, vs).
Proof.
  unfold fields_of. simpl fst. simpl snd. unfold map_parameter.
  destruct (String.eqb k "stop"); [now rewrite app_nil_r |].
  destruct (elems_of vs) as [|value rest]; [now rewrite app_nil_r |].
  destruct (ParseFloat value); destruct (Strconv.Atoi value);
    string_cases;
    rewrite ?app_nil_r; try reflexivity;
    try apply all_fields_add_prediction;
    rewrite all_fields_add_load; reflexivity.
Qed.

Lemma run_parameters_perm (order : list (string * StringSlice))
    (config : LMStudioConfig) :
  all_fields (run_parameters order config)
  ≡ₚ all_fields config ++ flat_map fields_of order.
Proof.
  revert config. induction order as [|[k vs] order IH]; intros config; simpl.
  - now rewrite app_nil_r.
  - unfold run_parameters in IH |- *. simpl.
    rewrite IH, map_parameter_perm, <- app_assoc. reflexivity.
Qed.

End FlatFields.

Lemma range_order_lookup (m : gmap string StringSlice)
    (order : list (string * StringSlice)) (k : string) (vs : StringSlice) :
  range_order m order -> In (k, vs) order <-> m !! k = Some vs.
Proof.
  intros H. rewrite <- list_elem_of_In, H. apply elem_of_map_to_list.
Qed.

Lemma range_order_NoDup (m : gmap string StringSlice)
    (order : list (string * StringSlice)) :
  range_order m order -> NoDup (map fst order).
Proof.
  intros H. change (map fst order) with (order.*1).
  rewrite H. apply NoDup_fst_map_to_list.
Qed.

Lemma first_value_lookup (m : gmap string StringSlice) (name value : string) :
  first_value m name = Some value <->
  exists vs rest, m !! name = Some vs /\ elems_of vs = value :: rest.
Proof.
  unfold first_value, index. split.
  - destruct (m !! name) as [vs|]; simpl; [| discriminate].
    destruct (elems_of vs) as [|v rest] eqn:E; simpl; [discriminate |].
    intros H. injection H as ->. eauto.
  - intros (vs & rest & -> & E). simpl. now rewrite E.
Qed.

(** X9: whatever the order in which the loop visits the parameter map, the
    fields of the flat document are the field of the template block and,
    for each parameter of the table whose first value coerces, the field
    with the key and the coerced value the table gives; there is no other
    field.  Values after the first, parameters outside the table and stop
    give no field of their own. *)
Theorem flat_fields_characterised
    (ParseFloat : string -> option spec_float)
    (order : list (string * StringSlice)) (parsed : ParsedModelfile)
    (f : ConfigField) :
  range_order (Parameters parsed) order ->
  In f (all_fields (fst (ConvertToLMStudioFormat ParseFloat order parsed)))
  <-> In f (all_fields (map_template empty_config parsed))
      \/ exists name value,
          first_value (Parameters parsed) name = Some value
          /\ numeric_field_key name = Some (cf_Key f)
          /\ coerced_value ParseFloat name value = Some (cf_Value f).
Proof.
  intros Horder.
  change (fst (ConvertToLMStudioFormat ParseFloat order parsed))
    with (run_parameters ParseFloat order (map_template empty_config parsed)).
  assert (Hperm := run_parameters_perm ParseFloat order
                     (map_template empty_config parsed)).
  assert (Hin : In f (all_fields (run_parameters ParseFloat order
                                    (map_template empty_config parsed)))
                <-> In f (all_fields (map_template empty_config parsed)
                          ++ flat_map (fields_of ParseFloat) order)).
  { split; apply Permutation_in; [exact Hperm | symmetry; exact Hperm]. }
  rewrite Hin, in_app_iff, in_flat_map. clear Hin Hperm.
  split; (intros [H | H]; [now left | right]).
  - destruct H as ([k vs] & Hkv & Hf).
    destruct (fields_of_cases ParseFloat k vs)
      as [E | (f' & value & rest & E & Evs & Hk & Hv)];
      rewrite E in Hf; simpl in Hf; [contradiction |].
    destruct Hf as [<- | []].
    exists k, value. split; [| auto].
    apply first_value_lookup. exists vs, rest. split; [| exact Evs].
    now apply (range_order_lookup (Parameters parsed) order).
  - destruct H as (name & value & Hfirst & Hk & Hv).
    apply first_value_lookup in Hfirst as (vs & rest & Hl & Evs).
    exists (name, vs). split; [now apply (range_order_lookup (Parameters parsed) order) |].
    rewrite (fields_of_complete ParseFloat name _ value vs rest _ Evs Hk Hv).
    destruct f. now left.
Qed.

Lemma flat_fields_characterised_witness :
  let parsed := {| Template := ""; System := "";
                   Parameters := {[ "top_k" := Slice ["40"; "50"] ]} |} in
  In {| cf_Key := "llm.prediction.topK"; cf_Value := VInt 40 |}
     (all_fields (fst (ConvertToLMStudioFormat sample_ParseFloat
                         [("top_k", Slice ["40"; "50"])] parsed))).
Proof.
  intros parsed.
  apply (flat_fields_characterised sample_ParseFloat
           [("top_k", Slice ["40"; "50"])] parsed).
  - unfold range_order, parsed. simpl. now rewrite map_to_list_singleton.
  - right. exists "top_k", "40". repeat split.
Defined.

(** The load group after one iteration. *)
Lemma map_parameter_load (ParseFloat : string -> option spec_float)
    (config : LMStudioConfig) (k : string) (vs : StringSlice) :
  lc_Fields (LoadModelConfig_ (map_parameter ParseFloat config k vs))
  = lc_Fields (LoadModelConfig_ config)
    ++ (if String.eqb k "num_ctx" then
          match elems_of vs with
          | value :: _ =>
              match Strconv.Atoi value with
              | Some ctx => [ {| cf_Key := "llm.load.contextLength";
                                 cf_Value := VInt ctx |} ]
              | None => []
              end
          | [] => []
          end
        else []).
Proof.
  unfold map_parameter.
  destruct (String.eqb k "stop") eqn:Estop.
  { apply String.eqb_eq in Estop. subst k. simpl. now rewrite app_nil_r. }
  destruct (elems_of vs) as [|value rest].
  { destruct (String.eqb k "num_ctx"); now rewrite app_nil_r. }
  destruct (ParseFloat value); destruct (Strconv.Atoi value);
    string_cases; rewrite ?app_nil_r; reflexivity.
Qed.

Lemma run_parameters_load_absent (ParseFloat : string -> option spec_float)
    (order : list (string * StringSlice)) (config : LMStudioConfig) :
  ~ In "num_ctx" (map fst order) ->
  lc_Fields (LoadModelConfig_ (run_parameters ParseFloat order config))
  = lc_Fields (LoadModelConfig_ config).
Proof.
  revert config. induction order as [|[k vs] order IH]; intros config Hno;
    [reflexivity |].
  simpl in Hno. unfold run_parameters in IH |- *. simpl.
  rewrite IH by tauto. rewrite map_parameter_load.
  destruct (String.eqb k "num_ctx") eqn:E; [| apply app_nil_r].
  apply String.eqb_eq in E. tauto.
Qed.

(** X10: the load group of the flat document does not depend on the order
    in which the parameter map is visited: it holds the context length, the
    integer read from the first value of num_ctx, when that value is an
    integer in range, and it is empty otherwise. *)
Theorem load_group_exact
    (ParseFloat : string -> option spec_float)
    (order : list (string * StringSlice)) (parsed : ParsedModelfile) :
  range_order (Parameters parsed) order ->
  lc_Fields (LoadModelConfig_ (fst (ConvertToLMStudioFormat ParseFloat order parsed)))
  = match first_value (Parameters parsed) "num_ctx" with
    | Some value =>
        match Strconv.Atoi value with
        | Some ctx => [ {| cf_Key := "llm.load.contextLength"; cf_Value := VInt ctx |} ]
        | None => []
        end
    | None => []
    end.
Proof.
  intros Horder.
  change (fst (ConvertToLMStudioFormat ParseFloat order parsed))
    with (run_parameters ParseFloat order (map_template empty_config parsed)).
  assert (H0 : lc_Fields (LoadModelConfig_ (map_template empty_config parsed)) = []).
  { unfold map_template. destruct (negb (is_empty (Template parsed))); reflexivity. }
  pose proof (range_order_NoDup _ _ Horder) as Hnd.
  destruct (Parameters parsed !! "num_ctx") as [vs|] eqn:El.
  - apply (range_order_lookup (Parameters parsed) order) in El as Hin; [| exact Horder].
    destruct (in_split _ _ Hin) as (l1 & l2 & ->).
    rewrite map_app in Hnd. simpl in Hnd.
    apply NoDup_app in Hnd as (_ & Hdis & Hnd2).
    apply NoDup_cons in Hnd2 as [Hno2 _].
    assert (Hno1 : ~ In "num_ctx" (map fst l1)).
    { intros Hx. apply list_elem_of_In in Hx. apply (Hdis _ Hx). left. }
    rewrite list_elem_of_In in Hno2.
    unfold run_parameters. rewrite fold_left_app. simpl.
    fold (run_parameters ParseFloat l1 (map_template empty_config parsed)).
    set (c1 := run_parameters ParseFloat l1 (map_template empty_config parsed)).
    fold (run_parameters ParseFloat l2 (map_parameter ParseFloat c1 "num_ctx" vs)).
    rewrite run_parameters_load_absent by exact Hno2.
    rewrite map_parameter_load. unfold c1.
    rewrite run_parameters_load_absent by exact Hno1.
    rewrite H0. simpl.
    unfold first_value, index. rewrite El. simpl.
    destruct (elems_of vs); reflexivity.
  - rewrite run_parameters_load_absent.
    + rewrite H0. unfold first_value, index. rewrite El. reflexivity.
    + intros Hx. apply in_map_iff in Hx as ([k vs] & Hk & Hin). simpl in Hk. subst k.
      apply (range_order_lookup (Parameters parsed) order) in Hin; [| exact Horder]. congruence.
Qed.

Lemma load_group_exact_witness :
  let parsed := {| Template := ""; System := "";
                   Parameters := {[ "num_ctx" := Slice ["4096"] ]} |} in
  lc_Fields (LoadModelConfig_
               (fst (ConvertToLMStudioFormat sample_ParseFloat
                       [("num_ctx", Slice ["4096"])] parsed)))
  = [ {| cf_Key := "llm.load.contextLength"; cf_Value := VInt 4096 |} ].
Proof.
  intros parsed.
  rewrite (load_group_exact sample_ParseFloat [("num_ctx", Slice ["4096"])] parsed).
  - vm_compute. reflexivity.
  - unfold range_order, parsed. simpl. now rewrite map_to_list_singleton.
Defined.

(** The keys one iteration adds. *)
Lemma fields_of_keys (ParseFloat : string -> option spec_float)
    (k : string) (vs : StringSlice) :
  map cf_Key (fields_of ParseFloat (k, vs)) = []
  \/ exists key, map cf_Key (fields_of ParseFloat (k, vs)) = [key]
                 /\ numeric_field_key k = Some key.
Proof.
  destruct (fields_of_cases ParseFloat k vs) as [-> | (f & v & r & -> & _ & Hk & _)];
    [now left | right]. exists (cf_Key f). auto.
Qed.

Lemma flat_map_keys_NoDup (ParseFloat : string -> option spec_float)
    (order : list (string * StringSlice)) :
  NoDup (map fst order) ->
  NoDup (map cf_Key (flat_map (fields_of ParseFloat) order))
  /\ forall key, In key (map cf_Key (flat_map (fields_of ParseFloat) order)) ->
                 exists k, In k (map fst order) /\ numeric_field_key k = Some key.
Proof.
  induction order as [|[k vs] order IH]; intros Hnd; simpl.
  - split; [constructor | contradiction].
  - apply NoDup_cons in Hnd as [Hk Hnd]. destruct (IH Hnd) as [IH1 IH2].
    rewrite map_app.
    destruct (fields_of_keys ParseFloat k vs) as [-> | (key & -> & Hkey)]; simpl.
    + split; [exact IH1 |]. intros key H.
      destruct (IH2 key H) as (k' & ? & ?). eauto.
    + split.
      * apply NoDup_cons. split; [| exact IH1].
        intros Hin. apply list_elem_of_In in Hin.
        destruct (IH2 key Hin) as (k' & Hk' & Hkey').
        assert (k' = k) by (eapply numeric_field_key_inj; eauto).
        subst k'. apply Hk. now apply list_elem_of_In.
      * intros key' [<- | H]; [eauto |].
        destruct (IH2 key' H) as (k' & ? & ?). eauto.
Qed.

(** X11: in the flat document no two fields carry the same key, whatever
    the order in which the parameter map is visited. *)
Theorem flat_keys_unique
    (ParseFloat : string -> option spec_float)
    (order : list (string * StringSlice)) (parsed : ParsedModelfile) :
  range_order (Parameters parsed) order ->
  NoDup (map cf_Key
           (all_fields (fst (ConvertToLMStudioFormat ParseFloat order parsed)))).
Proof.
  intros Horder.
  change (fst (ConvertToLMStudioFormat ParseFloat order parsed))
    with (run_parameters ParseFloat order (map_template empty_config parsed)).
  rewrite (run_parameters_perm ParseFloat order (map_template empty_config parsed)).
  rewrite map_app.
  destruct (flat_map_keys_NoDup ParseFloat order (range_order_NoDup _ _ Horder))
    as [Hnd Hkeys].
  unfold map_template, all_fields.
  destruct (negb (is_empty (Template parsed))); simpl; [| exact Hnd].
  apply NoDup_cons. split; [| exact Hnd].
  intros Hin. apply list_elem_of_In in Hin.
  destruct (Hkeys _ Hin) as (k & _ & Hk).
  now apply (numeric_field_key_not_template k promptTemplateKey).
Qed.

Lemma flat_keys_unique_witness :
  let parsed := {| Template := "{{ .Prompt }}"; System := "";
                   Parameters := {[ "top_k" := Slice ["40"] ]} |} in
  NoDup (map cf_Key
           (all_fields (fst (ConvertToLMStudioFormat sample_ParseFloat
                               [("top_k", Slice ["40"])] parsed)))).
Proof.
  intros parsed. apply flat_keys_unique.
  unfold range_order, parsed. simpl. now rewrite map_to_list_singleton.
Defined.

(** X12: the set of fields of the flat document is a function of the
    template, of the list under stop and of the first values of the six
    table parameters: the system string, the later values, the parameters
    outside the table and the order in which the map is visited have no
    influence on it. *)
Theorem flat_fields_depend_on
    (ParseFloat : string -> option spec_float)
    (order1 order2 : list (string * StringSlice)) (p1 p2 : ParsedModelfile) :
  range_order (Parameters p1) order1 ->
  range_order (Parameters p2) order2 ->
  Template p1 = Template p2 ->
  index (Parameters p1) "stop" = index (Parameters p2) "stop" ->
  (forall name key, numeric_field_key name = Some key ->
                    first_value (Parameters p1) name
                    = first_value (Parameters p2) name) ->
  forall f,
    In f (all_fields (fst (ConvertToLMStudioFormat ParseFloat order1 p1)))
    <-> In f (all_fields (fst (ConvertToLMStudioFormat ParseFloat order2 p2))).
Proof.
  intros H1 H2 Ht Hs Hv f.
  rewrite (flat_fields_characterised ParseFloat order1 p1 f H1).
  rewrite (flat_fields_characterised ParseFloat order2 p2 f H2).
  assert (E : map_template empty_config p1 = map_template empty_config p2).
  { unfold map_template. now rewrite Ht, Hs. }
  rewrite E.
  split; (intros [H | (name & value & Hf & Hk & Hc)]; [now left | right]);
    exists name, value; (split; [| auto]).
  - now rewrite <- (Hv name _ Hk).
  - now rewrite (Hv name _ Hk).
Qed.

Lemma flat_fields_depend_on_witness :
  let p1 := {| Template := "{{ .Prompt }}"; System := "You are terse.";
               Parameters := {[ "top_k" := Slice ["40"; "50"] ]} |} in
  let p2 := {| Template := "{{ .Prompt }}"; System := "";
               Parameters := {[ "top_k" := Slice ["40"] ]} |} in
  let f := {| cf_Key := "llm.prediction.topK"; cf_Value := VInt 40 |} in
  In f (all_fields (fst (ConvertToLMStudioFormat sample_ParseFloat
                           [("top_k", Slice ["40"; "50"])] p1)))
  <-> In f (all_fields (fst (ConvertToLMStudioFormat sample_ParseFloat
                               [("top_k", Slice ["40"])] p2))).
Proof.
  intros p1 p2 f.
  apply (flat_fields_depend_on sample_ParseFloat _ _ p1 p2).
  - unfold range_order, p1. simpl. now rewrite map_to_list_singleton.
  - unfold range_order, p2. simpl. now rewrite map_to_list_singleton.
  - reflexivity.
  - reflexivity.
  - intros name key Hk. unfold first_value, index, p1, p2. simpl.
    destruct (decide (name = "top_k")) as [-> | Hne].
    + rewrite !lookup_singleton_eq. reflexivity.
    + rewrite !lookup_singleton_ne by congruence. reflexivity.
Defined.

(** ** The preset document *)

(** X13: a Modelfile in which no line starts with TEMPLATE gives a preset
    without any field: the text of its SYSTEM directive and the values of
    its PARAMETER stop directives do not reach the preset; name, identifier
    and the changed flag are set all the same. *)
Theorem preset_without_template (ToLower : string -> string)
    (content modelName : string) :
  Forall (fun l => Strings.HasPrefix (Strings.TrimSpace l) "TEMPLATE" = false)
         (Strings.Split content "010") ->
  ConvertToLMStudioPreset ToLower (fst (ParseOllamaModelfile content)) modelName
  = ({| Identifier := "@local:" +:+ ToLower (Strings.ReplaceAll modelName " " "-");
        Name := modelName;
        Changed := true;
        Operation := {| po_Fields := [] |};
        Load := {| pl_Fields := [] |} |}, None).
Proof.
  intros HF.
  assert (Ht : Template (fst (ParseOllamaModelfile content)) = "").
  { rewrite ParseOllamaModelfile_unfold. simpl fst. rewrite finish_Template.
    destruct (parse_lines_no_template _ initial_state HF eq_refl) as [-> ->].
    reflexivity. }
  unfold ConvertToLMStudioPreset. rewrite Ht. reflexivity.
Qed.

Lemma preset_without_template_witness :
  po_Fields (Operation (fst (ConvertToLMStudioPreset (fun s => s)
     (fst (ParseOllamaModelfile
             ("SYSTEM " +:+ dquote +:+ "Be brief." +:+ dquote +:+ newline +:+
              "PARAMETER stop x")))
     "My Model")))
  = [].
Proof.
  rewrite preset_without_template; [reflexivity |].
  vm_compute Strings.Split.
  repeat (constructor; [vm_compute; reflexivity |]). constructor.
Defined.

(** X14: for a non-empty template the second field of the preset holds the
    values under stop as a list that is never the nil slice (it is written
    as an array, empty when there is no stop parameter), and the prompt
    template object in the first field has the type manual and an empty
    stop list of its own. *)
Theorem preset_stop_strings (ToLower : string -> string)
    (parsed : ParsedModelfile) (modelName : string) :
  Template parsed <> "" ->
  let fields :=
    po_Fields (Operation (fst (ConvertToLMStudioPreset ToLower parsed modelName))) in
  (exists tv,
      nth_error fields 0
      = Some {| pf_Key := "llm.prediction.promptTemplate"; pf_Value := VManual tv |}
      /\ mpt_Type tv = "manual"
      /\ mpt_StopStrings tv = Slice [])
  /\ nth_error fields 1
     = Some {| pf_Key := "llm.prediction.stopStrings";
               pf_Value := VStrings (Slice (elems_of (index (Parameters parsed) "stop"))) |}
  /\ marshal_strings (Slice (elems_of (index (Parameters parsed) "stop")))
     = JStringArray (elems_of (index (Parameters parsed) "stop")).
Proof.
  intros Ht fields. subst fields. apply is_empty_false in Ht.
  unfold ConvertToLMStudioPreset. rewrite Ht.
  destruct (negb (is_empty (System parsed))
            && negb (Strings.Contains (Template parsed) "<think></think>"));
    simpl; (split; [eexists; repeat split |]);
    (split; [| reflexivity]);
    destruct (index (Parameters parsed) "stop"); reflexivity.
Qed.

Lemma preset_stop_strings_witness :
  nth_error
    (po_Fields (Operation (fst (ConvertToLMStudioPreset (fun s => s)
       {| Template := "{{ .Prompt }}"; System := ""; Parameters := ∅ |} "m"))))
    1
  = Some {| pf_Key := "llm.prediction.stopStrings"; pf_Value := VStrings (Slice []) |}.
Proof.
  assert (Hne : Template {| Template := "{{ .Prompt }}"; System := "";
                            Parameters := ∅ |} <> "") by discriminate.
  destruct (preset_stop_strings (fun s => s) _ "m" Hne) as (_ & H & _).
  exact H.
Defined.

(** ** The derived tokens *)

Lemma first_token_passes (test : string -> bool) (tokens : list string) :
  first_token test tokens = "" \/ test (first_token test tokens) = true.
Proof.
  induction tokens as [|t ts IH]; simpl; [now left |].
  destruct (test t) eqn:E; [now right | exact IH].
Qed.

(** X15: the start-of-sequence token returned is always a prefix of the
    template and the end-of-sequence token returned always occurs in it
    (the empty string does both); and since no start token is a prefix of
    another, the start token does not depend on the order of the list: a
    template that starts with one of the four tokens gets that token. *)
Theorem derived_tokens_occur (template : string) :
  Strings.HasPrefix template (extractBOSToken template) = true
  /\ Strings.Contains template (extractEOSToken template) = true
  /\ (forall token, In token bosTokens ->
                    Strings.HasPrefix template token = true ->
                    extractBOSToken template = token).
Proof.
  split; [| split].
  - unfold extractBOSToken.
    destruct (first_token_passes (fun token => Strings.HasPrefix template token)
                bosTokens) as [-> | H]; [reflexivity | exact H].
  - unfold extractEOSToken.
    destruct (first_token_passes (fun token => Strings.Contains template token)
                eosTokens) as [-> | H]; [| exact H].
    now apply HasPrefix_Contains.
  - intros token Hin Hp. apply HasPrefix_inv in Hp.
    unfold bosTokens in Hin. simpl in Hin.
    destruct Hin as [<- | [<- | [<- | [<- | []]]]]; rewrite Hp; reflexivity.
Qed.

Lemma derived_tokens_occur_witness :
  extractBOSToken "<|im_start|>user {{ .Prompt }}<|im_end|>" = "<|im_start|>".
Proof.
  apply (proj2 (proj2 (derived_tokens_occur
                         "<|im_start|>user {{ .Prompt }}<|im_end|>")));
    [simpl; tauto | reflexivity].
Defined.

(** ** Text the translator does not touch *)

Lemma starts_brace_spec (re : regexp) :
  starts_brace re = true -> starts_with_brace re.
Proof.
  destruct re as [|[c| |] re']; try discriminate. simpl. intros H.
  apply Ascii.eqb_eq in H. subst c. now exists re'.
Qed.

Lemma starts_with_brace_literal (re : regexp) :
  starts_with_brace re -> starts_with_literal re.
Proof. intros [re' ->]. exists "{"%char, re'. split; reflexivity. Qed.

Lemma Contains_brace_cons (c : ascii) (a : string) :
  Strings.Contains (String c a) "{" = false ->
  Ascii.eqb c "{" = false /\ Strings.Contains a "{" = false.
Proof.
  simpl. rewrite orb_false_iff, andb_true_r.
  intros [H1 H2]. split; [| exact H2].
  rewrite Ascii.eqb_sym. exact H1.
Qed.

Lemma ReplaceAllString_prefix (re : regexp) (repl a b : string) :
  starts_with_brace re ->
  Strings.Contains a "{" = false ->
  ReplaceAllString re (a +:+ b) repl = a +:+ ReplaceAllString re b repl.
Proof.
  intros Hre. induction a as [|c a IH]; intros Ha; [reflexivity |].
  apply Contains_brace_cons in Ha as [Hc Ha].
  change (String c a +:+ b) with (String c (a +:+ b)).
  rewrite (ReplaceAllString_step re repl (starts_with_brace_literal re Hre)).
  destruct Hre as [re' ->]. cbn [match_here]. rewrite Hc.
  change (String c a +:+ ReplaceAllString (Lit "{" :: re') b repl)
    with (String c (a +:+ ReplaceAllString (Lit "{" :: re') b repl)).
  f_equal. apply IH. exact Ha.
Qed.

Lemma apply_rules_prefix (rs : list (regexp * string)) (a b : string) :
  forallb (fun rule => starts_brace (fst rule)) rs = true ->
  Strings.Contains a "{" = false ->
  apply_rules rs (a +:+ b) = a +:+ apply_rules rs b.
Proof.
  revert b. induction rs as [|rule rs IH]; intros b Hrs Ha; [reflexivity |].
  simpl in Hrs. apply andb_prop in Hrs as [Hr Hrs].
  change (apply_rules (rule :: rs) (a +:+ b))
    with (apply_rules rs (apply_rule (a +:+ b) rule)).
  change (apply_rules (rule :: rs) b) with (apply_rules rs (apply_rule b rule)).
  unfold apply_rule.
  rewrite (ReplaceAllString_prefix (fst rule) (snd rule) a b
             (starts_brace_spec _ Hr) Ha).
  now apply IH.
Qed.

Lemma rules_start_with_brace :
  forallb (fun rule => starts_brace (fst rule)) rules = true.
Proof. vm_compute. reflexivity. Qed.

(** X16: text without an opening brace passes through the translator
    unchanged: a brace-free text in front of any text is copied, and the
    translation of the whole is that text followed by the translation of
    the rest; in particular a template without any brace is returned as it
    is. *)
Theorem translator_copies_plain_text (a b : string) :
  Strings.Contains a "{" = false ->
  convertGoTemplateToJinja (a +:+ b) = a +:+ convertGoTemplateToJinja b
  /\ convertGoTemplateToJinja a = a.
Proof.
  intros Ha.
  assert (H : forall x, convertGoTemplateToJinja (a +:+ x)
                        = a +:+ convertGoTemplateToJinja x).
  { intros x.
    rewrite (convertGoTemplateToJinja_rules (a +:+ x)),
      (convertGoTemplateToJinja_rules x).
    exact (apply_rules_prefix rules a x rules_start_with_brace Ha). }
  split; [apply H |].
  specialize (H ""). rewrite string_app_empty_r in H.
  rewrite H. change (convertGoTemplateToJinja "") with "".
  apply string_app_empty_r.
Qed.

Lemma translator_copies_plain_text_witness :
  convertGoTemplateToJinja ("[gMASK]<sop><|user|> " +:+ "{{ .Prompt }}")
  = "[gMASK]<sop><|user|> " +:+ "{{ user_message }}".
Proof.
  rewrite (proj1 (translator_copies_plain_text "[gMASK]<sop><|user|> "
                    "{{ .Prompt }}" eq_refl)).
  reflexivity.
Defined.

(** ** The export entry points *)

Section ExportFacts.

Variable World : Type.
Variable Show : string -> World -> World * (string + error).
Variable MarshalConfig : LMStudioConfig -> string + error.
Variable MarshalPreset : LMStudioPreset -> string + error.
Variable WriteFile : string -> string -> World -> World * option error.
Variable UserHomeDir : World -> string + error.
Variable MkdirAll : string -> World -> World * option error.
Variable range : gmap string StringSlice -> list (string * StringSlice).
Variable ParseFloat : string -> option spec_float.
Variable ToLower : string -> string.

Abbreviation ExportModelConfig :=
  (ExportModelConfig World Show MarshalConfig WriteFile range ParseFloat).
Abbreviation WriteLMStudioConfig :=
  (WriteLMStudioConfig World MarshalConfig WriteFile).
Abbreviation ExportModelPreset :=
  (ExportModelPreset World Show MarshalPreset WriteFile UserHomeDir MkdirAll ToLower).
Abbreviation WriteLMStudioPreset :=
  (WriteLMStudioPreset World MarshalPreset WriteFile).

(** X17: ExportModelConfig.  When the client fails, the error is returned
    wrapped and nothing is encoded or written.  Otherwise the document
    handed to the writer is the flat document of the parsed Modelfile: the
    fallback for a parse error and the error branch of the conversion are
    never taken.  The call succeeds exactly when the client, the encoder
    and the file write succeed. *)
Theorem ExportModelConfig_outcome (modelName outputPath : string) (w : World) :
  (forall w1 err,
      Show modelName w = (w1, inr err) ->
      ExportModelConfig modelName outputPath w
      = (w1, Some (wrap "failed to get model info" err)))
  /\ (forall w1 modelfile,
         Show modelName w = (w1, inl modelfile) ->
         let parsed := fst (ParseOllamaModelfile modelfile) in
         ExportModelConfig modelName outputPath w
         = WriteLMStudioConfig
             (fst (ConvertToLMStudioFormat ParseFloat
                     (range (Parameters parsed)) parsed))
             outputPath w1)
  /\ (snd (ExportModelConfig modelName outputPath w) = None <->
      exists w1 modelfile data,
        Show modelName w = (w1, inl modelfile)
        /\ MarshalConfig
             (fst (ConvertToLMStudioFormat ParseFloat
                     (range (Parameters (fst (ParseOllamaModelfile modelfile))))
                     (fst (ParseOllamaModelfile modelfile))))
           = inl data
        /\ snd (WriteFile outputPath data w1) = None).
Proof.
  assert (H2 : forall w1 modelfile,
             Show modelName w = (w1, inl modelfile) ->
             ExportModelConfig modelName outputPath w
             = WriteLMStudioConfig
                 (fst (ConvertToLMStudioFormat ParseFloat
                         (range (Parameters (fst (ParseOllamaModelfile modelfile))))
                         (fst (ParseOllamaModelfile modelfile))))
                 outputPath w1).
  { intros w1 modelfile HS. unfold ExportModelConfig. rewrite HS.
    rewrite ParseOllamaModelfile_unfold. reflexivity. }
  split; [| split].
  - intros w1 err HS. unfold ExportModelConfig. now rewrite HS.
  - exact H2.
  - destruct (Show modelName w) as [w1 [modelfile|err]] eqn:HS.
    + rewrite (H2 w1 modelfile eq_refl). unfold WriteLMStudioConfig.
      destruct (MarshalConfig _) as [data|err] eqn:EM.
      * destruct (WriteFile outputPath data w1) as [w2 [err|]] eqn:EW; cbn [snd].
        -- split; [discriminate |].
           intros (w1' & mf' & data' & E1 & E2 & E3).
           injection E1 as Ew Em. subst w1' mf'.
           rewrite EM in E2. injection E2 as Ed. subst data'.
           rewrite EW in E3. discriminate.
        -- split; [| reflexivity]. intros _.
           exists w1, modelfile, data. rewrite EW. auto.
      * cbn [snd]. split; [discriminate |].
        intros (w1' & mf' & data' & E1 & E2 & _).
        injection E1 as Ew Em. subst w1' mf'. rewrite EM in E2. discriminate.
    + unfold ExportModelConfig. rewrite HS. cbn [snd]. split; [discriminate |].
      intros (w1' & mf' & data' & E1 & _). discriminate.
Qed.

(** X18: ExportModelPreset.  The collaborators are called in the order
    client, home directory, directory creation, encoder, file write, and
    the first failure is returned wrapped, nothing later being done.  When
    all succeed, the preset of the parsed Modelfile is written to the file
    named after the display name as given, with the suffix .preset.json, in
    the directory .lmstudio/config-presets of the home directory. *)
Theorem ExportModelPreset_outcome (modelName lmStudioModelName : string) (w : World) :
  (forall w1 err,
      Show modelName w = (w1, inr err) ->
      ExportModelPreset modelName lmStudioModelName w
      = (w1, Some (wrap "failed to get model info" err)))
  /\ (forall w1 modelfile err,
         Show modelName w = (w1, inl modelfile) ->
         UserHomeDir w1 = inr err ->
         ExportModelPreset modelName lmStudioModelName w
         = (w1, Some (wrap "failed to get home directory" err)))
  /\ (forall w1 modelfile homeDir w2 err,
         Show modelName w = (w1, inl modelfile) ->
         UserHomeDir w1 = inl homeDir ->
         MkdirAll (homeDir +:+ "/.lmstudio/config-presets") w1 = (w2, Some err) ->
         ExportModelPreset modelName lmStudioModelName w
         = (w2, Some (wrap "failed to create preset directory" err)))
  /\ (forall w1 modelfile homeDir w2,
         Show modelName w = (w1, inl modelfile) ->
         UserHomeDir w1 = inl homeDir ->
         MkdirAll (homeDir +:+ "/.lmstudio/config-presets") w1 = (w2, None) ->
         ExportModelPreset modelName lmStudioModelName w
         = WriteLMStudioPreset
             (fst (ConvertToLMStudioPreset ToLower
                     (fst (ParseOllamaModelfile modelfile)) lmStudioModelName))
             (homeDir +:+ "/.lmstudio/config-presets/" +:+ lmStudioModelName
                +:+ ".preset.json")
             w2).
Proof.
  assert (Hconv : forall p, snd (ConvertToLMStudioPreset ToLower p lmStudioModelName)
                            = None).
  { intros p. unfold ConvertToLMStudioPreset.
    destruct (is_empty (Template p)); reflexivity. }
  assert (Hstep : forall w1 modelfile,
             Show modelName w = (w1, inl modelfile) ->
             ExportModelPreset modelName lmStudioModelName w
             = match UserHomeDir w1 with
               | inr err => (w1, Some (wrap "failed to get home directory" err))
               | inl homeDir =>
                   let presetDir := homeDir +:+ "/.lmstudio/config-presets" in
                   let '(w2, err) := MkdirAll presetDir w1 in
                   match err with
                   | Some err =>
                       (w2, Some (wrap "failed to create preset directory" err))
                   | None =>
                       WriteLMStudioPreset
                         (fst (ConvertToLMStudioPreset ToLower
                                 (fst (ParseOllamaModelfile modelfile))
                                 lmStudioModelName))
                         (presetDir +:+ "/" +:+ lmStudioModelName +:+ ".preset.json")
                         w2
                   end
               end).
  { intros w1 modelfile HS. unfold ExportModelPreset. rewrite HS.
    rewrite ParseOllamaModelfile_unfold. cbv beta iota zeta. simpl fst.
    specialize (Hconv (finish (parse_lines initial_state
                                 (Strings.Split modelfile "010")))).
    destruct (ConvertToLMStudioPreset ToLower _ lmStudioModelName) as [preset e].
    simpl in Hconv. subst e. reflexivity. }
  split; [| split; [| split]].
  - intros w1 err HS. unfold ExportModelPreset. now rewrite HS.
  - intros w1 modelfile err HS HH. rewrite (Hstep _ _ HS), HH. reflexivity.
  - intros w1 modelfile homeDir w2 err HS HH HM.
    rewrite (Hstep _ _ HS), HH. cbv zeta. rewrite HM. reflexivity.
  - intros w1 modelfile homeDir w2 HS HH HM.
    rewrite (Hstep _ _ HS), HH. cbv zeta. rewrite HM.
    now rewrite !string_app_assoc.
Qed.

End ExportFacts.

Lemma ExportModelConfig_outcome_witness :
  ExportModelConfig sample_World sample_Show (fun _ => inl "{}")
    sample_WriteFile map_to_list sample_ParseFloat "unknown" "out.json" []
  = ([], Some (Errorf "failed to get model info: model not found"))
  /\ snd (ExportModelConfig sample_World sample_Show (fun _ => inl "{}")
            sample_WriteFile map_to_list sample_ParseFloat "glm4" "out.json" [])
     = None.
Proof.
  destruct (ExportModelConfig_outcome sample_World sample_Show (fun _ => inl "{}")
              sample_WriteFile map_to_list sample_ParseFloat "unknown" "out.json" [])
    as (H1 & _ & _).
  destruct (ExportModelConfig_outcome sample_World sample_Show (fun _ => inl "{}")
              sample_WriteFile map_to_list sample_ParseFloat "glm4" "out.json" [])
    as (_ & _ & H3).
  split.
  - apply (H1 [] (Errorf "model not found")). reflexivity.
  - apply H3. eexists [], _, "{}". repeat split.
Defined.

Lemma ExportModelPreset_outcome_witness :
  ExportModelPreset sample_World sample_Show (fun _ => inl "{}")
    sample_WriteFile (fun _ => inl "/home/u") sample_MkdirAll (fun s => s)
    "glm4" "GLM 4" []
  = ([("/home/u/.lmstudio/config-presets/GLM 4.preset.json", "{}")], None).
Proof.
  destruct (ExportModelPreset_outcome sample_World sample_Show (fun _ => inl "{}")
              sample_WriteFile (fun _ => inl "/home/u") sample_MkdirAll (fun s => s)
              "glm4" "GLM 4" [])
    as (_ & _ & _ & H4).
  rewrite (H4 [] _ "/home/u" [] eq_refl eq_refl eq_refl).
  reflexivity.
Defined.

(** ** White space inside an action *)

Lemma Contains_char_cons (c d : ascii) (s : string) :
  Strings.Contains (String d s) (String c "")
  = Ascii.eqb c d || Strings.Contains s (String c "").
Proof. simpl. now rewrite andb_true_r. Qed.

Lemma Contains_char_app (a b : string) (c : ascii) :
  Strings.Contains (a +:+ b) (String c "")
  = Strings.Contains a (String c "") || Strings.Contains b (String c "").
Proof.
  induction a as [|d a IH].
  - simpl. destruct (Strings.Contains b (String c "")) eqn:E; [reflexivity|reflexivity].
  - change (String d a +:+ b) with (String d (a +:+ b)).
    rewrite !Contains_char_cons, IH. now rewrite orb_assoc.
Qed.

Lemma all_spaces_no_brace (ws : string) :
  all_spaces ws = true -> Strings.Contains ws "{" = false.
Proof.
  induction ws as [|a ws IH]; [reflexivity |].
  simpl all_spaces. rewrite andb_true_iff. intros [Ha Hws].
  rewrite Contains_char_cons, (IH Hws), orb_false_r.
  destruct (Ascii.eqb "{" a) eqn:E; [| reflexivity].
  apply Ascii.eqb_eq in E. subst a. discriminate Ha.
Qed.

Lemma has_match_no_brace (q : regexp) (s : string) :
  starts_with_brace q -> Strings.Contains s "{" = false -> has_match q s = false.
Proof.
  intros [q' ->]. induction s as [|c s IH]; intros H; [reflexivity |].
  rewrite Contains_char_cons in H. apply orb_false_iff in H as [Hc Hs].
  cbn [has_match match_here]. rewrite Ascii.eqb_sym, Hc. now apply IH.
Qed.

Lemma has_match_single_open (q : regexp) (body : string) :
  starts_2braces q = true ->
  Strings.Contains body "{" = false ->
  match_here q (String "{" (String "{" body)) = None ->
  has_match q (String "{" (String "{" body)) = false.
Proof.
  intros Hq Hb Hm.
  destruct q as [|[a| |] [|[b| |] q']]; try discriminate.
  simpl in Hq. apply andb_prop in Hq as [Ea Eb].
  apply Ascii.eqb_eq in Ea, Eb. subst a b.
  cbn [has_match]. rewrite Hm.
  assert (H1 : match_here (Lit "{" :: Lit "{" :: q') (String "{" body) = None).
  { cbn [match_here]. simpl Ascii.eqb. cbv iota. destruct body as [|c body]; [reflexivity |].
    rewrite Contains_char_cons in Hb. apply orb_false_iff in Hb as [Hc _].
    rewrite Ascii.eqb_sym, Hc. reflexivity. }
  rewrite H1. apply has_match_no_brace; [eexists; reflexivity | exact Hb].
Qed.

Lemma ReplaceAllString_no_match (p : regexp) (s r : string) :
  has_match p s = false -> ReplaceAllString p s r = s.
Proof. intros H. unfold ReplaceAllString. now apply replace_from_no_match. Qed.

Lemma ReplaceAllString_whole (p : regexp) (r : string) (a : ascii) (s : string) :
  starts_lit p = true ->
  match_here p (String a s) = Some "" ->
  ReplaceAllString p (String a s) r = r.
Proof.
  intros Hp Hm.
  rewrite (ReplaceAllString_step p r (starts_lit_literal p Hp)), Hm.
  change (ReplaceAllString p "" r) with "". apply string_app_empty_r.
Qed.

Lemma apply_rules_cons (rule : regexp * string) (rs : list (regexp * string))
    (s : string) :
  apply_rules (rule :: rs) s
  = apply_rules rs (ReplaceAllString (fst rule) s (snd rule)).
Proof. reflexivity. Qed.

Ltac step_match Hsp :=
  repeat first
    [ rewrite skip_spaces_run by (assumption || reflexivity)
    | rewrite Hsp
    | progress cbn [match_here String.append Ascii.eqb Bool.eqb andb] ].

Ltac compile_re q :=
  let v := eval vm_compute in q in
  replace q with v by (vm_compute; reflexivity).

Ltac no_brace :=
  rewrite ?Contains_char_app;
  repeat match goal with
         | H : all_spaces ?w = true |- _ => rewrite (all_spaces_no_brace w H)
         end;
  reflexivity.

Ltac skip_rule q Hb Hsp :=
  rewrite apply_rules_cons; cbn [fst snd];
  rewrite (ReplaceAllString_no_match q);
  [| apply has_match_single_open;
     [ vm_compute; reflexivity
     | exact Hb
     | compile_re q; step_match Hsp; reflexivity ] ].

Ltac fire_rule q Hsp :=
  rewrite apply_rules_cons; cbn [fst snd];
  rewrite (ReplaceAllString_whole q);
  [ vm_compute; reflexivity
  | vm_compute; reflexivity
  | compile_re q; step_match Hsp; reflexivity ].

Ltac open_action body :=
  rewrite convertGoTemplateToJinja_rules; cbv [rules];
  let Hb := fresh "Hb" in
  assert (Hb : Strings.Contains body "{" = false) by no_brace;
  change ("{{" +:+ body) with (String "{" (String "{" body)).

(** X19. The translator accepts any white space inside an action: whatever
    runs of blanks, tabs, line feeds, form feeds and carriage returns stand
    after the opening braces, between [if] and the field (at least one
    there) and before the closing braces, each of the six actions alone is
    turned into exactly its Jinja counterpart. *)
Theorem translator_whitespace_tolerant (ws1 ws2 ws3 : string) (sp : ascii) :
  all_spaces ws1 = true -> all_spaces ws2 = true -> all_spaces ws3 = true ->
  is_space sp = true ->
  convertGoTemplateToJinja
    ("{{" +:+ ws1 +:+ "if" +:+ String sp ws2 +:+ ".System" +:+ ws3 +:+ "}}")
  = "{% if system_message %}" /\
  convertGoTemplateToJinja
    ("{{" +:+ ws1 +:+ "if" +:+ String sp ws2 +:+ ".Prompt" +:+ ws3 +:+ "}}")
  = "{% if user_message %}" /\
  convertGoTemplateToJinja ("{{" +:+ ws1 +:+ "end" +:+ ws3 +:+ "}}")
  = "{% endif %}" /\
  convertGoTemplateToJinja ("{{" +:+ ws1 +:+ ".System" +:+ ws3 +:+ "}}")
  = "{{ system_message }}" /\
  convertGoTemplateToJinja ("{{" +:+ ws1 +:+ ".Prompt" +:+ ws3 +:+ "}}")
  = "{{ user_message }}" /\
  convertGoTemplateToJinja ("{{" +:+ ws1 +:+ ".Response" +:+ ws3 +:+ "}}")
  = "{{ model_response }}".
Proof.
  intros H1 H2 H3 Hsp.
  assert (H2' : all_spaces (String sp ws2) = true)
    by (cbn [all_spaces]; now rewrite Hsp, H2).
  repeat split.
  - open_action (ws1 +:+ "if" +:+ String sp ws2 +:+ ".System" +:+ ws3 +:+ "}}").
    fire_rule reIfSystem Hsp.
  - open_action (ws1 +:+ "if" +:+ String sp ws2 +:+ ".Prompt" +:+ ws3 +:+ "}}").
    skip_rule reIfSystem Hb Hsp. fire_rule reIfPrompt Hsp.
  - open_action (ws1 +:+ "end" +:+ ws3 +:+ "}}").
    skip_rule reIfSystem Hb Hsp. skip_rule reIfPrompt Hb Hsp.
    fire_rule reEnd Hsp.
  - open_action (ws1 +:+ ".System" +:+ ws3 +:+ "}}").
    skip_rule reIfSystem Hb Hsp. skip_rule reIfPrompt Hb Hsp.
    skip_rule reEnd Hb Hsp. fire_rule reSystem Hsp.
  - open_action (ws1 +:+ ".Prompt" +:+ ws3 +:+ "}}").
    skip_rule reIfSystem Hb Hsp. skip_rule reIfPrompt Hb Hsp.
    skip_rule reEnd Hb Hsp. skip_rule reSystem Hb Hsp.
    fire_rule rePrompt Hsp.
  - open_action (ws1 +:+ ".Response" +:+ ws3 +:+ "}}").
    skip_rule reIfSystem Hb Hsp. skip_rule reIfPrompt Hb Hsp.
    skip_rule reEnd Hb Hsp. skip_rule reSystem Hb Hsp.
    skip_rule rePrompt Hb Hsp. fire_rule reResponse Hsp.
Qed.

Lemma translator_whitespace_tolerant_witness :
  convertGoTemplateToJinja
    ("{{" +:+ "  " +:+ "if" +:+ String "009" " " +:+ ".System" +:+ " " +:+ "}}")
  = "{% if system_message %}".
Proof.
  apply (translator_whitespace_tolerant "  " " " " " "009");
    vm_compute; reflexivity.
Defined.

(** ** What the preset keeps of the template *)

(** X20: the preset keeps no text of the template.  Two non-empty templates
    that contain the same ones of the four markers (system, user, assistant,
    empty think tags) and, when they hold the system marker, start with the
    same start-of-sequence token give the very same preset, for equal system
    string, stop values and name: apart from that token, everything else
    written in the template is lost. *)
Theorem preset_forgets_template_text (ToLower : string -> string)
    (p1 p2 : ParsedModelfile) (modelName : string) :
  Template p1 <> "" -> Template p2 <> "" ->
  (forall marker,
      In marker ["<|system|>"; "<|user|>"; "<|assistant|>"; "<think></think>"] ->
      Strings.Contains (Template p1) marker = Strings.Contains (Template p2) marker) ->
  (Strings.Contains (Template p1) "<|system|>" = true ->
   extractBOSToken (Template p1) = extractBOSToken (Template p2)) ->
  System p1 = System p2 ->
  elems_of (index (Parameters p1) "stop") = elems_of (index (Parameters p2) "stop") ->
  ConvertToLMStudioPreset ToLower p1 modelName
  = ConvertToLMStudioPreset ToLower p2 modelName.
Proof.
  intros Hn1 Hn2 Hm Hbos Hs Hstop.
  apply is_empty_false in Hn1, Hn2.
  unfold ConvertToLMStudioPreset. cbv zeta. rewrite Hn1, Hn2, Hs.
  assert (Hn : match index (Parameters p1) "stop" with
               | NilSlice => Slice []
               | _ => index (Parameters p1) "stop"
               end
               = match index (Parameters p2) "stop" with
                 | NilSlice => Slice []
                 | _ => index (Parameters p2) "stop"
                 end).
  { destruct (index (Parameters p1) "stop"), (index (Parameters p2) "stop");
      simpl in Hstop; congruence. }
  rewrite Hn.
  rewrite <- (Hm "<|user|>"), <- (Hm "<|assistant|>"), <- (Hm "<think></think>")
    by (cbn [In]; tauto).
  assert (Hsys := Hm "<|system|>" (or_introl eq_refl)).
  rewrite <- Hsys.
  destruct (Strings.Contains (Template p1) "<|system|>") eqn:E.
  - rewrite <- (Hbos eq_refl). reflexivity.
  - reflexivity.
Qed.

Lemma preset_forgets_template_text_witness :
  ConvertToLMStudioPreset (fun s => s)
    {| Template := "<|user|>{{ .Prompt }}<|assistant|>"; System := "sys";
       Parameters := ∅ |} "m"
  = ConvertToLMStudioPreset (fun s => s)
      {| Template := "Question: <|user|> {{ .Prompt }} Answer: <|assistant|> ok";
         System := "sys"; Parameters := ∅ |} "m".
Proof.
  apply (preset_forgets_template_text (fun s => s)).
  - discriminate.
  - discriminate.
  - intros marker Hin. cbn [In] in Hin.
    destruct Hin as [<- | [<- | [<- | [<- | []]]]]; vm_compute; reflexivity.
  - vm_compute. discriminate.
  - reflexivity.
  - reflexivity.
Defined.
